(** * ICARUSNoiseAnalysis: the plotting helpers of [utilities/plot.py]

    A shallow embedding of the four procedures [plot_tpc], [plot_crate],
    [plot_wire_planes] and [plot_waveform], and the properties of their row
    selection, coordinate arithmetic, join, figure handling, exceptions and
    frame.

    Python objects are embedded as follows.
    - A table cell is a scalar: an integer ([Int]) or a string ([Str]).  The
      integer columns of a table are arrays of 64-bit signed integers, as
      pandas and numpy make them: [64*board + ch], computed on columns, wraps
      around at 64 bits.  Metric values are only handed to the plotting
      library, never computed with; any cell stands for one.
    - A column is the list of its cells, one per row; a table maps column
      names to columns.  Comparing a column with a scalar gives a boolean
      mask; comparing it with a list compares element by element and needs
      the lengths to agree ([ValueError] otherwise), as a pandas column does.
    - The [tpc] argument is a Python integer, unbounded: [13824*tpc + offset]
      is computed on Python integers and does not wrap.
    - Datasets and arrays are objects with identity: they live in a store and
      the procedures receive references to them.
    - Calls into matplotlib/pyplot are recorded, in program order and with
      their arguments, in a log; each of them may raise, as decided by an
      arbitrary oracle [lib_raises].
    - Exceptions abort the procedure: the procedures run in a state, log and
      exception monad. *)

From Stdlib Require Import ZArith String List Lia.
From stdpp Require Import base option list gmap strings.

Local Open Scope Z_scope.
Local Open Scope string_scope.
Local Open Scope list_scope.

(* ===================================================================== *)
(** ** Python values *)
(* ===================================================================== *)

(** A scalar stored in a table cell. *)
Inductive cell : Type :=
| Int (z : Z)
| Str (s : string).

#[global] Instance cell_eq_dec : EqDecision cell.
Proof. solve_decision. Defined.

(** The value of the [component] argument of [plot_crate]:
    [str or list[str]]; also the type of the figure title derived from it. *)
Inductive pyval : Type :=
| VStr (s : string)
| VList (l : list string).

(** What a procedure hands back to its caller. *)
Inductive pyobj : Type :=
| PyNone
| PyFigure (id : nat).

(** Exceptions.  [KeyError] carries the missing key (a column name or a
    dictionary key) or the message of the table library, [UnboundLocalError]
    the name of the local variable; [ValueError] is that of the table library
    (lengths or key types that do not match); [LibError] stands for any
    exception of the plotting library. *)
Inductive exn : Type :=
| KeyError (k : cell)
| IndexError
| TypeError
| ValueError
| UnboundLocalError (name : string)
| LibError (code : nat).

Inductive result (A : Type) : Type :=
| Ok (a : A)
| Raise (e : exn).
Arguments Ok {A} a.
Arguments Raise {A} e.

(** A numeric literal passed to the plotting library: an integer, or a decimal
    [m / 10^places] (as [895.95] is [Dec 89595 2]). *)
Inductive num : Type :=
| Zn (z : Z)
| Dec (m : Z) (places : nat).

(* ===================================================================== *)
(** ** Operators on cells and columns *)
(* ===================================================================== *)

(** 64-bit signed integers: the range, and the value an integer operation
    leaves in an [int64] array (two's complement wrap-around). *)
Definition int64 (z : Z) : Prop :=
  -9223372036854775808 <= z < 9223372036854775808.

Definition wrap64 (z : Z) : Z :=
  (z + 9223372036854775808) mod 18446744073709551616 - 9223372036854775808.

(** [n * x] for an integer [n] and a cell of a column: product of 64-bit
    integers, repetition of strings. *)
Fixpoint str_repeat (n : nat) (s : string) : string :=
  match n with
  | O => ""
  | S k => s ++ str_repeat k s
  end.

Definition py_mul (n : Z) (x : cell) : cell :=
  match x with
  | Int z => Int (wrap64 (n * z))
  | Str s => Str (str_repeat (Z.to_nat n) s)
  end.

(** [x + y] on cells of columns: sum of 64-bit integers, concatenation of
    strings, [TypeError] on a mix. *)
Definition py_add (x y : cell) : result cell :=
  match x, y with
  | Int a, Int b => Ok (Int (wrap64 (a + b)))
  | Str a, Str b => Ok (Str (a ++ b))
  | _, _ => Raise TypeError
  end.

(** [x // n] for a positive integer [n]: floor division, [TypeError] on a
    string. *)
Definition py_floordiv (x : cell) (n : Z) : result cell :=
  match x with
  | Int z => Ok (Int (z / n))
  | Str _ => Raise TypeError
  end.

(** [x == v] on scalars. *)
Definition cell_eqb (x y : cell) : bool := bool_decide (x = y).

(** Modelled from the spec: the columns returned by the absent [Dataset]
    class ("a sequence of one value per row") compare elementwise,
    [col == v] is the boolean mask of the rows whose cell equals [v]. *)
Definition col_eq (col : list cell) (v : cell) : list bool :=
  map (fun x => cell_eqb x v) col.

(** Modelled from the spec: [col == c] for the value [c] chosen from
    [component].  With a string it is the comparison with a scalar.  With a
    list, a column of the table library compares element by element, row [i]
    with [c[i]], and raises [ValueError] unless the list has one entry per
    row. *)
Definition col_eq_val (col : list cell) (v : pyval) : result (list bool) :=
  match v with
  | VStr s => Ok (col_eq col (Str s))
  | VList l =>
      if bool_decide (length l = length col)
      then Ok (zip_with (fun x s => cell_eqb x (Str s)) col l)
      else Raise ValueError
  end.

(** [m1 & m2] on masks. *)
Definition mask_and (m1 m2 : list bool) : list bool := zip_with andb m1 m2.

(** The rows a boolean mask selects: the positions at which it is true, in
    increasing order. *)
Definition true_rows (mask : list bool) : list nat :=
  filter (fun i => mask !! i = Some true) (seq 0 (length mask)).

(** [col[mask]]: the cells of the rows at which the mask is true. *)
Definition select {A : Type} (mask : list bool) (col : list A) : list A :=
  omap (fun i => col !! i) (true_rows mask).

(** Elementwise [n * col], [col1 + col2] and [col // n]; an exception of one
    element is the exception of the operation. *)
Definition col_mul (n : Z) (col : list cell) : list cell := map (py_mul n) col.

Fixpoint col_add (c1 c2 : list cell) : result (list cell) :=
  match c1, c2 with
  | x :: c1', y :: c2' =>
      match py_add x y with
      | Ok v => match col_add c1' c2' with
                | Ok vs => Ok (v :: vs)
                | Raise e => Raise e
                end
      | Raise e => Raise e
      end
  | _, _ => Ok []
  end.

Fixpoint col_floordiv (col : list cell) (n : Z) : result (list cell) :=
  match col with
  | [] => Ok []
  | x :: col' =>
      match py_floordiv x n with
      | Ok v => match col_floordiv col' n with
                | Ok vs => Ok (v :: vs)
                | Raise e => Raise e
                end
      | Raise e => Raise e
      end
  end.

(** [enumerate(l)]. *)
Definition enumerate {A : Type} (l : list A) : list (nat * A) := imap pair l.

(** [sum(l)] on integers. *)
Definition sum_list (l : list Z) : Z := foldr Z.add 0 l.

(** [np.arange(lo, hi, step)] for integers and [step > 0]. *)
Definition arange (lo hi step : Z) : list Z :=
  map (fun k => lo + Z.of_nat k * step)
      (seq 0 (Z.to_nat ((hi - lo + step - 1) / step))).

(** [s.split(sep)[0]]: the part of [s] before the first [sep]. *)
Fixpoint split_head (sep s : string) : string :=
  if String.prefix sep s then ""
  else match s with
       | EmptyString => ""
       | String c s' => String c (split_head sep s')
       end.

(* ===================================================================== *)
(** ** Tables, datasets and the store *)
(* ===================================================================== *)

(** Modelled from the spec: the [Dataset] class of module [fnal] is not part
    of the sources.  "The only entity is an implicit Dataset: a table-like
    object supporting column lookup by name (returning a sequence of one value
    per row) and boolean-mask row selection"; [plot_wire_planes] also reads
    its attribute [chmap], "a channel map with channel_id, z0, y0, z1, y1".
    The columns are those of the table library the module imports (pandas):
    an integer column is an array of 64-bit integers, and comparison and
    arithmetic on columns work element by element. *)
Record Dataset : Type := mkDataset {
  dtable : gmap string (list cell);
  chmap : gmap string (list cell)
}.

Definition loc := nat.

(** The store: the datasets and arrays the caller holds, and pyplot's
    registry of figures (figure [i] exists iff [i < nfigs]). *)
Record world : Type := mkWorld {
  dsets : loc -> Dataset;
  arrs : loc -> list cell;
  nfigs : nat
}.

(* ===================================================================== *)
(** ** Calls into the plotting library *)
(* ===================================================================== *)

(** Where an axes sits in its figure. *)
Inductive subplot : Type :=
| Whole
| Cell (nrows ncols : nat) (row : nat) (col_lo col_hi : nat)
| Rect (left bottom width height : num).

Record axes : Type := Axes { ax_fig : nat; ax_pos : subplot }.

Definition point : Type := cell * cell.
Definition segment : Type := point * point.

Inductive libcall : Type :=
| StyleUse (name : string)
| Figure (width height : Z)
| AddGridspec (fig : nat) (nrows ncols : nat)
| AddSubplot (fig : nat) (pos : subplot)
| AddAxes (fig : nat) (pos : subplot)
| Scatter (ax : axes) (xs ys : list cell) (label : string)
| Hist (ax : axes) (vals : list cell) (lo hi : Z) (bins : Z)
       (label : string) (histtype : string)
| Plot (ax : axes) (xs : list Z) (ys : list cell)
       (linestyle : string) (linewidth : Z)
| SetXlim (ax : axes) (lo hi : num)
| SetYlim (ax : axes) (lo hi : num)
| SetXticks (ax : axes) (ticks : list Z)
| SetXlabel (ax : axes) (s : string)
| SetYlabel (ax : axes) (s : string)
| SetTitle (ax : axes) (s : string)
| Legend (ax : axes)
| Suptitle (fig : nat) (title : pyval)
| ScalarMappable (cmap : string) (vmin vmax : Z)
| SetClim (vmin vmax : Z)
| ToRgba (vals : list cell)
| LineCollection (segs : list segment) (colors : list cell)
| AddCollection (ax : axes) (segs : list segment) (colors : list cell)
| Colorbar (fig : nat) (axs : list axes) (cax : axes)
| CbSetLabel (s : string)
| CbSetEdgecolor (s : string).

(* ===================================================================== *)
(** ** The monad of procedures *)
(* ===================================================================== *)

(** The outcome of running a procedure: its result (a value or the exception
    that aborted it), the store afterwards, and the library calls it made. *)
Record outcome (A : Type) : Type := Out {
  res : result A;
  post : world;
  log : list libcall
}.
Arguments Out {A} res post log.
Arguments res {A} o.
Arguments post {A} o.
Arguments log {A} o.

Definition M (A : Type) : Type := world -> outcome A.

Definition ret {A : Type} (a : A) : M A := fun w => Out (Ok a) w [].

Definition raise {A : Type} (e : exn) : M A := fun w => Out (Raise e) w [].

Definition bind {A B : Type} (m : M A) (f : A -> M B) : M B :=
  fun w =>
    match res (m w) with
    | Ok a => let o := f a (post (m w)) in
              Out (res o) (post o) (log (m w) ++ log o)
    | Raise e => Out (Raise e) (post (m w)) (log (m w))
    end.

Declare Scope proc_scope.
Delimit Scope proc_scope with proc.
Notation "x <- m ;; k" := (bind m (fun x => k))
  (at level 100, m at next level, right associativity) : proc_scope.
Notation "m ;; k" := (bind m (fun _ => k))
  (at level 100, right associativity) : proc_scope.
Local Open Scope proc_scope.

(** A pure operation that may raise. *)
Definition lift {A : Type} (r : result A) : M A :=
  fun w => Out r w [].

(** [l[i]] on a Python list. *)
Definition list_index {A : Type} (l : list A) (i : nat) : result A :=
  match l !! i with
  | Some x => Ok x
  | None => Raise IndexError
  end.

(** [dict[k]] on a Python dictionary with integer keys. *)
Definition dict_get (dict : gmap Z string) (k : Z) : result string :=
  match dict !! k with
  | Some v => Ok v
  | None => Raise (KeyError (Int k))
  end.

(** [t[name]] on a table. *)
Definition table_get (t : gmap string (list cell)) (name : string)
  : result (list cell) :=
  match t !! name with
  | Some col => Ok col
  | None => Raise (KeyError (Str name))
  end.

(** Modelled from the spec: [d[name]] on a reference to a [Dataset], whose
    class is not part of the sources: "column lookup by name"; "missing
    columns ... fail via the underlying table/plot library's default
    exceptions", here the [KeyError] of the name.  Reads the store. *)
Definition getitem (d : loc) (name : string) : M (list cell) :=
  fun w => Out (table_get (dtable (dsets w d)) name) w [].

(** [d.chmap[name]] on the channel map, a table of the table library. *)
Definition chmap_getitem (d : loc) (name : string) : M (list cell) :=
  fun w => Out (table_get (chmap (dsets w d)) name) w [].

(** Reading an array argument. *)
Definition read_array (a : loc) : M (list cell) :=
  fun w => Out (Ok (arrs w a)) w [].

(** [for x in l: body x], with the local variables the body assigns and the
    code after the loop reads carried in [s]. *)
Fixpoint for_fold {A S : Type} (l : list A) (body : A -> S -> M S) (s : S)
  : M S :=
  match l with
  | [] => ret s
  | x :: l' => s' <- body x s ;; for_fold l' body s'
  end.

Definition for_each {A : Type} (l : list A) (body : A -> M unit) : M unit :=
  for_fold l (fun x _ => body x) tt.

(** [[f x for x in l]]. *)
Fixpoint list_comp {A B : Type} (l : list A) (f : A -> M B) : M (list B) :=
  match l with
  | [] => ret []
  | x :: l' => y <- f x ;; ys <- list_comp l' f ;; ret (y :: ys)
  end.

Section Procedures.

(** The plotting library: for each call, whether it raises and what. *)
Variable lib_raises : libcall -> option exn.

(** A call into the library: logged, then raising what the library raises. *)
Definition call (c : libcall) : M unit :=
  fun w =>
    match lib_raises c with
    | Some e => Out (Raise e) w [c]
    | None => Out (Ok tt) w [c]
    end.

(** [plt.figure(figsize=(width, height))]: registers a new figure. *)
Definition plt_figure (width height : Z) : M nat :=
  fun w =>
    match lib_raises (Figure width height) with
    | Some e => Out (Raise e) w [Figure width height]
    | None => Out (Ok (nfigs w))
                  (mkWorld (dsets w) (arrs w) (S (nfigs w)))
                  [Figure width height]
    end.

(** [figure.add_gridspec(nrows, ncols)]; [gspec[row, lo:hi]] is
    [Cell nrows ncols row lo hi]. *)
Definition add_gridspec (fig : nat) (nrows ncols : nat)
  : M (nat -> nat -> nat -> subplot) :=
  call (AddGridspec fig nrows ncols) ;; ret (Cell nrows ncols).

Definition add_subplot (fig : nat) (pos : subplot) : M axes :=
  call (AddSubplot fig pos) ;; ret (Axes fig pos).

Definition add_axes (fig : nat) (pos : subplot) : M axes :=
  call (AddAxes fig pos) ;; ret (Axes fig pos).

(* ===================================================================== *)
(** ** [plot_tpc] *)
(* ===================================================================== *)

Definition planes : list string := ["Induction 1"; "Induction 2"; "Collection"].
Definition nchannels : list Z := [2304; 5760; 5760].
Definition ndivs : list Z := [288; 576; 576].

(** [((d['tpc'] == tpc) & (d['plane'] == pi))] on the two columns. *)
Definition tpc_mask (c_tpc c_plane : list cell) (tpc : Z) (pi : nat)
  : list bool :=
  mask_and (col_eq c_tpc (Int tpc)) (col_eq c_plane (Int (Z.of_nat pi))).

(** [13824*tpc + sum(nchannels[:pi])]. *)
Definition xlow (tpc : Z) (pi : nat) : Z :=
  13824 * tpc + sum_list (take pi nchannels).

Definition plot_tpc_body (saxs haxs : list axes) (labels : list string)
    (metric : string) (tpc : Z) (pi : nat) (p : string) (di : nat) (d : loc)
  : M unit :=
  c_tpc <- getitem d "tpc" ;;
  c_plane <- getitem d "plane" ;;
  let mask := tpc_mask c_tpc c_plane tpc pi in
  sax <- lift (list_index saxs pi) ;;
  c_id <- getitem d "channel_id" ;;
  c_m <- getitem d metric ;;
  lbl <- lift (list_index labels di) ;;
  call (Scatter sax (select mask c_id) (select mask c_m) lbl) ;;
  let xlo := xlow tpc pi in
  nch <- lift (list_index nchannels pi) ;;
  let xhigh := xlo + nch in
  sax <- lift (list_index saxs pi) ;;
  call (SetXlim sax (Zn xlo) (Zn xhigh)) ;;
  sax <- lift (list_index saxs pi) ;;
  call (SetYlim sax (Zn 0) (Zn 10)) ;;
  sax <- lift (list_index saxs pi) ;;
  nd <- lift (list_index ndivs pi) ;;
  nd' <- lift (list_index ndivs pi) ;;
  call (SetXticks sax (arange xlo (xhigh + nd) nd')) ;;
  sax <- lift (list_index saxs pi) ;;
  call (SetXlabel sax "Channel ID") ;;
  sax <- lift (list_index saxs pi) ;;
  call (SetYlabel sax "RMS [ADC]") ;;
  sax <- lift (list_index saxs pi) ;;
  call (SetTitle sax p) ;;
  hax <- lift (list_index haxs pi) ;;
  c_m <- getitem d metric ;;
  lbl <- lift (list_index labels di) ;;
  call (Hist hax (select mask c_m) 0 10 50 lbl "step") ;;
  hax <- lift (list_index haxs pi) ;;
  call (Legend hax) ;;
  hax <- lift (list_index haxs pi) ;;
  call (SetXlim hax (Zn 0) (Zn 10)) ;;
  hax <- lift (list_index haxs pi) ;;
  call (SetXlabel hax "RMS [ADC]") ;;
  hax <- lift (list_index haxs pi) ;;
  call (SetYlabel hax "Entries").

Definition plot_tpc (datasets : list loc) (labels : list string)
    (metric : string) (tpc : Z) : M pyobj :=
  call (StyleUse "plot_style.mplstyle") ;;
  figure <- plt_figure 26 16 ;;
  gspec <- add_gridspec figure 3 8 ;;
  saxs <- list_comp [0; 1; 2]%nat (fun i => add_subplot figure (gspec i 0 6)%nat) ;;
  haxs <- list_comp [0; 1; 2]%nat (fun i => add_subplot figure (gspec i 6 8)%nat) ;;
  for_each (enumerate planes) (fun '(pi, p) =>
    for_each (enumerate datasets) (fun '(di, d) =>
      plot_tpc_body saxs haxs labels metric tpc pi p di d)) ;;
  ret PyNone.

(* ===================================================================== *)
(** ** [plot_crate] *)
(* ===================================================================== *)

(** [isinstance(component, list)], [len(component)], [component[i]] and
    [sep.join(component)] on a string or a list of strings. *)
Definition isinstance_list (v : pyval) : bool :=
  match v with
  | VList _ => true
  | VStr _ => false
  end.

Definition py_len (v : pyval) : nat :=
  match v with
  | VList l => length l
  | VStr s => String.length s
  end.

Definition chars (s : string) : list string :=
  map (fun a => String a EmptyString) (list_ascii_of_string s).

Definition py_index (v : pyval) (i : nat) : result pyval :=
  match v with
  | VList l => match list_index l i with
               | Ok s => Ok (VStr s)
               | Raise e => Raise e
               end
  | VStr s => match list_index (chars s) i with
              | Ok c => Ok (VStr c)
              | Raise e => Raise e
              end
  end.

Definition py_join (sep : string) (v : pyval) : pyval :=
  match v with
  | VList l => VStr (String.concat sep l)
  | VStr s => VStr (String.concat sep (chars s))
  end.

(** The [if]/[else] at the head of the loop body: the comparison value [c]
    and the [title]. *)
Definition choose_component (component : pyval) (ndatasets : nat) (di : nat)
  : result (pyval * pyval) :=
  if isinstance_list component && bool_decide (py_len component = ndatasets)
  then
    match py_index component di with
    | Ok c => Ok (c, py_join " vs. " component)
    | Raise e => Raise e
    end
  else Ok (component, component).

(** One iteration of the loop; returns the binding of [title]. *)
Definition plot_crate_body (ax : axes) (ndatasets : nat) (labels : list string)
    (metric : string) (component : pyval) (di : nat) (d : loc)
  : M (option pyval) :=
  ct <- lift (choose_component component ndatasets di) ;;
  let c := fst ct in
  let title := snd ct in
  c_flange <- getitem d "flange" ;;
  selected <- lift (col_eq_val c_flange c) ;;
  c_board <- getitem d "board" ;;
  let b64 := col_mul 64 (select selected c_board) in
  c_ch <- getitem d "ch" ;;
  x <- lift (col_add b64 (select selected c_ch)) ;;
  c_m <- getitem d metric ;;
  lbl <- lift (list_index labels di) ;;
  call (Scatter ax x (select selected c_m) lbl) ;;
  ret (Some title).

Definition plot_crate (datasets : list loc) (labels : list string)
    (metric : string) (component : pyval) : M pyobj :=
  call (StyleUse "plot_style.mplstyle") ;;
  figure <- plt_figure 8 6 ;;
  ax <- add_subplot figure Whole ;;
  title <- for_fold (enumerate datasets)
             (fun '(di, d) _ =>
                plot_crate_body ax (length datasets) labels metric component di d)
             None ;;
  call (SetXlim ax (Zn 0) (Zn 576)) ;;
  call (SetYlim ax (Zn 0) (Dec 100 1)) ;;
  call (SetXticks ax (map (fun i => 64 * Z.of_nat i) (seq 0 10))) ;;
  call (SetXlabel ax "Channel Number") ;;
  call (SetYlabel ax "RMS [ADC]") ;;
  call (Legend ax) ;;
  match title with
  | Some t => call (Suptitle figure t) ;; ret PyNone
  | None => raise (UnboundLocalError "title")
  end.

(* ===================================================================== *)
(** ** [plot_wire_planes] *)
(* ===================================================================== *)

(** A row of [chmap[['channel_id', 'z0', 'y0', 'z1', 'y1']]]. *)
Record wire : Type := mkWire {
  w_id : cell; w_z0 : cell; w_y0 : cell; w_z1 : cell; w_y1 : cell
}.

(** [data.chmap['channel_id'] // 13824 == tpc] on the column. *)
Definition chmap_mask (c_id : list cell) (tpc : Z) : result (list bool) :=
  match col_floordiv c_id 13824 with
  | Ok q => Ok (col_eq q (Int tpc))
  | Raise e => Raise e
  end.

Definition wire_at (c_id z0 y0 z1 y1 : list cell) (i : nat) : option wire :=
  match c_id !! i, z0 !! i, y0 !! i, z1 !! i, y1 !! i with
  | Some a, Some b, Some c, Some d, Some e => Some (mkWire a b c d e)
  | _, _, _, _, _ => None
  end.

(** The message of the [KeyError] the table library raises when a frame is
    indexed with the list [names] of column names and some are missing:
    the missing names, as Python prints a list of strings, followed by
    [not in index]; when all are missing, the whole list is named. *)
Definition py_repr_names (names : list string) : string :=
  ("[" ++ String.concat ", " (map (fun n : string => "'" ++ n ++ "'") names)
   ++ "]")%string.

Definition not_in_index (t : gmap string (list cell)) (names : list string)
  : string :=
  let missing := filter (fun n => t !! n = None) names in
  if bool_decide (missing = names)
  then ("None of [Index(" ++ py_repr_names names
        ++ ", dtype='object')] are in the [columns]")%string
  else (py_repr_names missing ++ " not in index")%string.

(** [chmap.loc[mask][['channel_id', 'z0', 'y0', 'z1', 'y1']]]: the five
    columns at the rows the mask selects; when a column is missing, the
    [KeyError] of the table library. *)
Definition chmap_wires (t : gmap string (list cell)) (mask : list bool)
  : result (list wire) :=
  match t !! "channel_id", t !! "z0", t !! "y0", t !! "z1", t !! "y1" with
  | Some c_id, Some z0, Some y0, Some z1, Some y1 =>
      Ok (omap (wire_at c_id z0 y0 z1 y1) (true_rows mask))
  | _, _, _, _, _ =>
      Raise (KeyError
               (Str (not_in_index t ["channel_id"; "z0"; "y0"; "z1"; "y1"])))
  end.

(** [pd.DataFrame({'channel_id': c_id, metric: c_m}).loc[mask]]: the rows
    (channel id, metric value) the mask selects. *)
Definition metric_rows (c_id c_m : list cell) (mask : list bool)
  : list (cell * cell) :=
  omap (fun i => match c_id !! i, c_m !! i with
                 | Some a, Some m => Some (a, m)
                 | _, _ => None
                 end) (true_rows mask).

(** The rows of the inner join of [wires] and [tmp] on the channel id: every
    pair of a left and a right row with equal keys, in the order of the left
    rows.  The method [merge] itself is [frame_merge] below, which first
    checks the types of the keys. *)
Definition merge_inner (wires : list wire) (tmp : list (cell * cell))
  : list (wire * cell) :=
  wr ← wires;
  (fun tr : cell * cell => (wr, snd tr))
    <$> filter (fun tr : cell * cell => w_id wr = fst tr) tmp.

(** [wires.merge(tmp, how='inner', left_on='channel_id',
    right_on='channel_id')].  The table library refuses to join integer keys
    with string keys: when both frames have rows, one with integer keys only
    and the other with string keys only, [merge] raises [ValueError].  (A
    frame without rows is joined with anything, and so are keys of one type
    and keys of mixed types.)  Otherwise the result is the inner join. *)
Definition int_cellb (c : cell) : bool :=
  match c with
  | Int _ => true
  | Str _ => false
  end.

Definition keys_clash (left right : list cell) : bool :=
  match left, right with
  | _ :: _, _ :: _ =>
      (forallb int_cellb left && forallb (fun c => negb (int_cellb c)) right)
      || (forallb (fun c => negb (int_cellb c)) left && forallb int_cellb right)
  | _, _ => false
  end.

Definition frame_merge (wires : list wire) (tmp : list (cell * cell))
  : result (list (wire * cell)) :=
  if keys_clash (map w_id wires) (map fst tmp)
  then Raise ValueError
  else Ok (merge_inner wires tmp).

(** [wires[metric]] on the merged frame.  A metric named as one of the
    coordinate columns was renamed by the merge (suffixes) and is missing. *)
Definition merged_col (metric : string) (rows : list (wire * cell))
  : result (list cell) :=
  if bool_decide (metric ∈ ["z0"; "y0"; "z1"; "y1"]) then
    Raise (KeyError (Str metric))
  else if bool_decide (metric = "channel_id") then Ok (map (fun r => w_id (fst r)) rows)
  else Ok (map snd rows).

(** [[(x[1], x[2]), (x[3], x[4])]] for a row [x] of [wires.to_numpy()]. *)
Definition segment_of (x : wire * cell) : segment :=
  ((w_z0 (fst x), w_y0 (fst x)), (w_z1 (fst x), w_y1 (fst x))).

Definition plane_label : gmap Z string :=
  list_to_map [(0, "Induction 1"); (1, "Induction 2"); (2, "Collection")].

Definition tpc_name : gmap Z string :=
  list_to_map [(0, "EE"); (1, "EW"); (2, "WE"); (3, "WW")].

(** [data.chmap]: the whole channel map, read from the store. *)
Definition read_chmap (d : loc) : M (gmap string (list cell)) :=
  fun w => Out (Ok (chmap (dsets w d))) w [].

Definition plot_wire_planes_body (axs : list axes) (data : loc)
    (metric : string) (tpc : Z) (p : nat) : M unit :=
  c_id <- chmap_getitem data "channel_id" ;;
  mask <- lift (chmap_mask c_id tpc) ;;
  cm <- read_chmap data ;;
  wires <- lift (chmap_wires cm mask) ;;
  d_id <- getitem data "channel_id" ;;
  d_m <- getitem data metric ;;
  d_plane <- getitem data "plane" ;;
  let tmp := metric_rows d_id d_m (col_eq d_plane (Int (Z.of_nat p))) in
  wires <- lift (frame_merge wires tmp) ;;
  vals <- lift (merged_col metric wires) ;;
  call (ToRgba vals) ;;
  let cs := vals in
  let wires := map segment_of wires in
  ax <- lift (list_index axs p) ;;
  call (LineCollection wires cs) ;;
  call (AddCollection ax wires cs) ;;
  ax <- lift (list_index axs p) ;;
  call (SetXlim ax (Dec (-89595) 2) (Dec 89595 2)) ;;
  ax <- lift (list_index axs p) ;;
  call (SetYlim ax (Dec (-18170) 2) (Dec 13480 2)) ;;
  ax <- lift (list_index axs p) ;;
  call (SetXlabel ax "Z Position [cm]") ;;
  ax <- lift (list_index axs p) ;;
  call (SetYlabel ax "Y Position [cm]") ;;
  ax <- lift (list_index axs p) ;;
  lbl <- lift (dict_get plane_label (Z.of_nat p)) ;;
  call (SetTitle ax lbl).

Definition plot_wire_planes (data : loc) (metric metric_label : string)
    (tpc : Z) : M pyobj :=
  call (StyleUse "plot_style.mplstyle") ;;
  figure <- plt_figure 20 12 ;;
  gspec <- add_gridspec figure 3 10 ;;
  axs <- list_comp [0; 1; 2]%nat (fun i => add_subplot figure (gspec i 0 9)%nat) ;;
  call (ScalarMappable "viridis" 0 1) ;;
  call (SetClim 0 10) ;;
  for_each [0; 1; 2]%nat (plot_wire_planes_body axs data metric tpc) ;;
  cax <- add_axes figure (Rect (Dec 92 2) (Dec 5 2) (Dec 35 3) (Dec 89 2)) ;;
  call (Colorbar figure axs cax) ;;
  call (CbSetLabel metric_label) ;;
  call (CbSetEdgecolor "face") ;;
  let head := split_head " [" metric_label in
  name <- lift (dict_get tpc_name tpc) ;;
  call (Suptitle figure (VStr (head ++ " by Plane for " ++ name))) ;;
  ret PyNone.

(* ===================================================================== *)
(** ** [plot_waveform] *)
(* ===================================================================== *)

Definition plot_waveform (waveform : loc) (title : string) : M pyobj :=
  call (StyleUse "plot_style.mplstyle") ;;
  figure <- plt_figure 14 6 ;;
  ax <- add_subplot figure Whole ;;
  ys <- read_array waveform ;;
  call (Plot ax (arange 0 4096 1) ys "-" 1) ;;
  call (SetXlim ax (Zn 0) (Zn 4096)) ;;
  call (SetYlim ax (Zn (-20)) (Zn 20)) ;;
  call (SetXlabel ax "Time [ticks]") ;;
  call (SetYlabel ax "Waveform Height [ADC]") ;;
  call (Suptitle figure (VStr title)) ;;
  ret PyNone.

End Procedures.

Arguments call lib_raises c : simpl never.
Arguments plt_figure lib_raises width height : simpl never.

(* ===================================================================== *)
(** ** Sample store *)
(* ===================================================================== *)

Definition quiet : libcall -> option exn := fun _ => None.

Definition sample_table : gmap string (list cell) :=
  list_to_map
    [("tpc", [Int 0; Int 0; Int 1; Int 0]);
     ("plane", [Int 0; Int 1; Int 0; Int 0]);
     ("channel_id", [Int 5; Int 2400; Int 13830; Int 7]);
     ("flange", [Str "WW19"; Str "WW19"; Str "EE01"; Str "WW19"]);
     ("board", [Int 0; Int 1; Int 2; Int 8]);
     ("ch", [Int 3; Int 63; Int 10; Int 0]);
     ("rawrms", [Int 3; Int 4; Int 5; Int 6])].

Definition sample_chmap : gmap string (list cell) :=
  list_to_map
    [("channel_id", [Int 5; Int 7; Int 9; Int 13830]);
     ("z0", [Int (-800); Int (-700); Int (-600); Int 100]);
     ("y0", [Int (-180); Int (-180); Int (-180); Int (-180)]);
     ("z1", [Int (-800); Int (-700); Int (-600); Int 100]);
     ("y1", [Int 130; Int 130; Int 130; Int 130])].

Definition sample_world : world :=
  mkWorld (fun _ => mkDataset sample_table sample_chmap)
          (fun _ => [Int 1; Int (-2); Int 0]) 0.

(** A waveform of the documented shape [(4096,)], and a store that holds
    it. *)
Definition sample_waveform : list cell :=
  map (fun k => Int (Z.of_nat (k mod 5) - 2)) (seq 0 4096).

Definition waveform_world : world :=
  mkWorld (fun _ => mkDataset sample_table sample_chmap)
          (fun _ => sample_waveform) 0.

(* ===================================================================== *)
(** ** Reasoning about procedures *)
(* ===================================================================== *)

(** [wp m w P Qok Qerr]: run from [w], every library call of [m] satisfies
    [P]; if [m] returns [a] the final store satisfies [Qok a], and if it
    raises [e] the final store satisfies [Qerr e]. *)
Definition wp {A : Type} (m : M A) (w : world) (P : libcall -> Prop)
    (Qok : A -> world -> Prop) (Qerr : exn -> world -> Prop) : Prop :=
  Forall P (log (m w)) /\
  match res (m w) with
  | Ok a => Qok a (post (m w))
  | Raise e => Qerr e (post (m w))
  end.

(* ===================================================================== *)
(** ** Specifications *)
(* ===================================================================== *)

(** The store of datasets and arrays is the one the caller passed. *)
Definition same_inputs (w0 w : world) : Prop :=
  dsets w = dsets w0 /\ arrs w = arrs w0.

(** Since [w0], exactly one figure was registered and no input was written. *)
Definition one_figure (w0 w : world) : Prop :=
  same_inputs w0 w /\ nfigs w = S (nfigs w0).

(** Since [w0], at most one figure was registered and no input was written. *)
Definition at_most_one_figure (w0 w : world) : Prop :=
  same_inputs w0 w /\ (nfigs w <= S (nfigs w0))%nat.

(** The scatter axes and histogram axes [plot_tpc] creates in figure [fig]. *)
Definition saxs_of (fig : nat) : list axes :=
  [Axes fig (Cell 3 8 0 0 6); Axes fig (Cell 3 8 1 0 6);
   Axes fig (Cell 3 8 2 0 6)].
Definition haxs_of (fig : nat) : list axes :=
  [Axes fig (Cell 3 8 0 6 8); Axes fig (Cell 3 8 1 6 8);
   Axes fig (Cell 3 8 2 6 8)].

(** What [plot_tpc] may pass to [set_xlim] on the scatter axes of plane [p]. *)
Definition xlim_of_plane (tpc : Z) (c : libcall) : Prop :=
  forall fig p lo hi,
    c = SetXlim (Axes fig (Cell 3 8 p 0 6)) lo hi ->
    (p < 3)%nat /\ lo = Zn (xlow tpc p) /\
    exists n, nchannels !! p = Some n /\ hi = Zn (xlow tpc p + n).

(** The columns of a table have one cell per row. *)
Definition wf_table (t : gmap string (list cell)) : Prop :=
  exists n : nat, map_Forall (fun _ col => length col = n) t.

(** [cells] are the cells of [col] at the rows [rows], one per row, in the
    order of [rows]. *)
Definition cells_at (col : list cell) (rows : list nat) (cells : list cell)
  : Prop :=
  Forall2 (fun i x => col !! i = Some x) rows cells.

Definition column_cells (t : gmap string (list cell)) (name : string)
    (rows : list nat) (cells : list cell) : Prop :=
  exists col, t !! name = Some col /\ cells_at col rows cells.

(** [rows] are exactly the rows of [t] whose [tpc] is [tpc] and whose [plane]
    is [pi], each once. *)
Definition tpc_plane_rows (t : gmap string (list cell)) (tpc : Z) (pi : nat)
    (rows : list nat) : Prop :=
  exists c_tpc c_plane,
    t !! "tpc" = Some c_tpc /\ t !! "plane" = Some c_plane /\
    NoDup rows /\
    forall i, i ∈ rows <->
              c_tpc !! i = Some (Int tpc) /\
              c_plane !! i = Some (Int (Z.of_nat pi)).

(** The scatter and the histogram of plane [pi] for the dataset at position
    [di], whose table is [t]. *)
Definition plane_scatter (t : gmap string (list cell)) (labels : list string)
    (metric : string) (tpc : Z) (fig pi di : nat) (c : libcall) : Prop :=
  exists xs ys lbl rows,
    c = Scatter (Axes fig (Cell 3 8 pi 0 6)) xs ys lbl /\
    labels !! di = Some lbl /\
    (wf_table t ->
     tpc_plane_rows t tpc pi rows /\
     column_cells t "channel_id" rows xs /\
     column_cells t metric rows ys).

Definition plane_hist (t : gmap string (list cell)) (labels : list string)
    (metric : string) (tpc : Z) (fig pi di : nat) (c : libcall) : Prop :=
  exists vals lbl rows,
    c = Hist (Axes fig (Cell 3 8 pi 6 8)) vals 0 10 50 lbl "step" /\
    labels !! di = Some lbl /\
    (wf_table t ->
     tpc_plane_rows t tpc pi rows /\
     column_cells t metric rows vals).

(** What [plot_tpc] may scatter and histogram: the scatter or histogram of
    some plane for some dataset. *)
Definition plots_plane_rows (w : world) (datasets : list loc)
    (labels : list string) (metric : string) (tpc : Z) (c : libcall) : Prop :=
  (forall ax xs ys lbl,
     c = Scatter ax xs ys lbl ->
     exists pi di d,
       (pi < 3)%nat /\ datasets !! di = Some d /\
       plane_scatter (dtable (dsets w d)) labels metric tpc (ax_fig ax) pi di
                     c) /\
  (forall ax vals lo hi bins lbl histtype,
     c = Hist ax vals lo hi bins lbl histtype ->
     exists pi di d,
       (pi < 3)%nat /\ datasets !! di = Some d /\
       plane_hist (dtable (dsets w d)) labels metric tpc (ax_fig ax) pi di c).

(** What [plot_crate] scatters and what it titles its figure with: the
    scatter of dataset [di] uses the comparison value [cv] chosen for [di],
    the title is the one bound in some iteration. *)
Definition crate_calls (w : world) (datasets : list loc)
    (labels : list string) (metric : string) (component : pyval)
    (c : libcall) : Prop :=
  (forall ax xs ys lbl,
     c = Scatter ax xs ys lbl ->
     exists di d cv title fl bo ch m,
       datasets !! di = Some d /\ labels !! di = Some lbl /\
       choose_component component (length datasets) di = Ok (cv, title) /\
       dtable (dsets w d) !! "flange" = Some fl /\
       dtable (dsets w d) !! "board" = Some bo /\
       dtable (dsets w d) !! "ch" = Some ch /\
       dtable (dsets w d) !! metric = Some m /\
       exists mask,
         col_eq_val fl cv = Ok mask /\
         col_add (col_mul 64 (select mask bo)) (select mask ch) = Ok xs /\
         ys = select mask m) /\
  (forall fig t,
     c = Suptitle fig t ->
     exists di cv,
       (di < length datasets)%nat /\
       choose_component component (length datasets) di = Ok (cv, t)).

(** The binding of [title] after some iterations of the loop. *)
Definition title_bound (datasets : list loc) (component : pyval)
    (s : option pyval) : Prop :=
  forall t, s = Some t ->
    exists di cv,
      (di < length datasets)%nat /\
      choose_component component (length datasets) di = Ok (cv, t).

(** [rows] are exactly the rows of [t] whose [flange] equals the comparison
    value [cv], each once: the rows with that string when [cv] is a string;
    when [cv] is a list, which then has one entry per row, the rows [i] whose
    [flange] is the string [cv[i]]. *)
Definition flange_rows (t : gmap string (list cell)) (cv : pyval)
    (rows : list nat) : Prop :=
  exists fl,
    t !! "flange" = Some fl /\ NoDup rows /\
    match cv with
    | VStr s => forall i, i ∈ rows <-> fl !! i = Some (Str s)
    | VList l =>
        length l = length fl /\
        forall i, i ∈ rows <->
                  exists s, l !! i = Some s /\ fl !! i = Some (Str s)
    end.

(** [x] is [64*b + k] on the cells [b] and [k] of a row: on integers the
    64-bit integer [64 * b + k], which is the exact one whenever that lies in
    the 64-bit range; on strings, 64 copies of [b] followed by [k]. *)
Definition crate_x (b k x : cell) : Prop :=
  match b, k with
  | Int bz, Int kz =>
      x = Int (wrap64 (64 * bz + kz)) /\
      (int64 (64 * bz + kz) -> x = Int (64 * bz + kz))
  | Str bs, Str ks => x = Str (str_repeat 64 bs ++ ks)
  | _, _ => False
  end.

(** [xs] holds, for each of [rows] and in their order, [64*board + ch] of
    that row. *)
Definition crate_xs (t : gmap string (list cell)) (rows : list nat)
    (xs : list cell) : Prop :=
  exists bo ch,
    t !! "board" = Some bo /\ t !! "ch" = Some ch /\
    Forall2 (fun i x =>
               exists b k, bo !! i = Some b /\ ch !! i = Some k /\
                           crate_x b k x)
            rows xs.

(** [wires] are the rows (channel id and wire end points) of the channel map
    [cm] whose channel id, integer-divided by 13824, is [tpc]. *)
Definition chmap_rows_of_tpc (cm : gmap string (list cell)) (tpc : Z)
    (wires : list wire) : Prop :=
  exists c_id z0 y0 z1 y1,
    cm !! "channel_id" = Some c_id /\ cm !! "z0" = Some z0 /\
    cm !! "y0" = Some y0 /\ cm !! "z1" = Some z1 /\ cm !! "y1" = Some y1 /\
    forall wr, wr ∈ wires <->
               exists i z, c_id !! i = Some (Int z) /\ z / 13824 = tpc /\
                           wire_at c_id z0 y0 z1 y1 i = Some wr.

(** [tmp] are the rows (channel id, metric value) of the metric table [t]
    whose plane is [p]. *)
Definition metric_rows_of_plane (t : gmap string (list cell)) (metric : string)
    (p : nat) (tmp : list (cell * cell)) : Prop :=
  exists d_id d_m d_plane,
    t !! "channel_id" = Some d_id /\ t !! metric = Some d_m /\
    t !! "plane" = Some d_plane /\
    forall tr, tr ∈ tmp <->
               exists i, d_plane !! i = Some (Int (Z.of_nat p)) /\
                         d_id !! i = Some (fst tr) /\ d_m !! i = Some (snd tr).

(** [joined] is the inner join of [wires] and [tmp] on the channel id: its
    rows are the pairs of a row of each with the same channel id. *)
Definition inner_join_on_channel (wires : list wire) (tmp : list (cell * cell))
    (joined : list (wire * cell)) : Prop :=
  forall j, j ∈ joined <->
            exists wr tr, wr ∈ wires /\ tr ∈ tmp /\ w_id wr = fst tr /\
                          j = (wr, snd tr).

(** What [plot_wire_planes] adds to the axes of a plane. *)
Definition wire_calls (w : world) (data : loc) (metric : string) (tpc : Z)
    (c : libcall) : Prop :=
  forall ax segs cs,
    c = AddCollection ax segs cs ->
    exists p c_id mask wires d_id d_m d_plane,
      (p < 3)%nat /\ ax_pos ax = Cell 3 10 p 0 9 /\
      chmap (dsets w data) !! "channel_id" = Some c_id /\
      chmap_mask c_id tpc = Ok mask /\
      chmap_wires (chmap (dsets w data)) mask = Ok wires /\
      dtable (dsets w data) !! "channel_id" = Some d_id /\
      dtable (dsets w data) !! metric = Some d_m /\
      dtable (dsets w data) !! "plane" = Some d_plane /\
      segs = map segment_of
               (merge_inner wires
                  (metric_rows d_id d_m (col_eq d_plane (Int (Z.of_nat p))))).

Definition axs_of (fig : nat) : list axes :=
  [Axes fig (Cell 3 10 0 0 9); Axes fig (Cell 3 10 1 0 9);
   Axes fig (Cell 3 10 2 0 9)].

(** Among the rows of plane [p], no channel id occurs in two rows. *)
Definition once_per_plane (d_id d_plane : list cell) (p : nat) : Prop :=
  forall i j x,
    d_plane !! i = Some (Int (Z.of_nat p)) ->
    d_plane !! j = Some (Int (Z.of_nat p)) ->
    d_id !! i = Some x -> d_id !! j = Some x -> i = j.

(** Channel ids of the joined rows. *)
Definition joined_ids (joined : list (wire * cell)) : list cell :=
  map (fun j => w_id (fst j)) joined.

(** An exception of an underlying operation: raised by a call into the
    plotting library, or by a table, dictionary, list or array operation. *)
Definition underlying_exn (lib_raises : libcall -> option exn) (e : exn)
  : Prop :=
  (exists c, lib_raises c = Some e) \/ (exists k, e = KeyError k) \/
  e = IndexError \/ e = TypeError \/ e = ValueError.

(** No exception of the library is swallowed: when a call a procedure made
    raised [e], the procedure ends raising [e]. *)
Definition propagates (lib_raises : libcall -> option exn) {A : Type}
    (m : M A) : Prop :=
  forall w k c e,
    log (m w) !! k = Some c -> lib_raises c = Some e -> res (m w) = Raise e.

(** [reaches m w Phi]: if [m], run from [w], returns, it has made a library
    call that satisfies [Phi]. *)
Definition reaches {A : Type} (m : M A) (w : world) (Phi : libcall -> Prop)
  : Prop :=
  (exists v, res (m w) = Ok v) ->
  exists k c, log (m w) !! k = Some c /\ Phi c.

(** The scatter of the dataset at position [di], whose table is [t], with
    comparison value [cv]. *)
Definition crate_scatter (t : gmap string (list cell)) (labels : list string)
    (metric : string) (cv : pyval) (di : nat) (c : libcall) : Prop :=
  exists ax xs ys lbl rows,
    c = Scatter ax xs ys lbl /\
    labels !! di = Some lbl /\
    (wf_table t ->
     flange_rows t cv rows /\ crate_xs t rows xs /\
     column_cells t metric rows ys).

(** What [plot_crate] does with a list [l] used whole as comparison value:
    every scatter is that of a dataset whose [flange] column has one row per
    entry of [l], compared with [l] row by row; the title is [l]. *)
Definition crate_call_uses (w : world) (datasets : list loc)
    (labels : list string) (metric : string) (l : list string) (c : libcall)
  : Prop :=
  (forall ax xs ys lbl,
     c = Scatter ax xs ys lbl ->
     exists di d fl,
       datasets !! di = Some d /\
       dtable (dsets w d) !! "flange" = Some fl /\
       length l = length fl /\
       crate_scatter (dtable (dsets w d)) labels metric (VList l) di c) /\
  (forall fig t, c = Suptitle fig t -> t = VList l).

(** The line collection of plane [p] for the dataset [ds]. *)
Definition plane_collection (ds : Dataset) (metric : string) (tpc : Z)
    (fig p : nat) (c : libcall) : Prop :=
  exists segs cs wires tmp joined,
    c = AddCollection (Axes fig (Cell 3 10 p 0 9)) segs cs /\
    chmap_rows_of_tpc (chmap ds) tpc wires /\
    metric_rows_of_plane (dtable ds) metric p tmp /\
    inner_join_on_channel wires tmp joined /\
    segs = map segment_of joined.

(** A plotting library that cannot load the style file, and nothing else
    wrong with it. *)
Definition missing_style : libcall -> option exn :=
  fun c => match c with
           | StyleUse _ => Some (LibError 2)
           | _ => None
           end.

(** A plotting library whose scatter call raises, and nothing else wrong
    with it. *)
Definition failing_scatter : libcall -> option exn :=
  fun c => match c with
           | Scatter _ _ _ _ => Some (LibError 1)
           | _ => None
           end.

(** The figures registered by a call that created its figure with
    [plt.figure(figsize=(width, height))], run from [w] and ended in [w']: at
    most one, and exactly one as soon as the style call and the figure call
    did not raise, however the call ended. *)
Definition figure_count (lib_raises : libcall -> option exn)
    (width height : Z) (w w' : world) : Prop :=
  (nfigs w' <= S (nfigs w))%nat /\
  (lib_raises (StyleUse "plot_style.mplstyle") = None ->
   lib_raises (Figure width height) = None ->
   nfigs w' = S (nfigs w)).

(** The calls that set a figure up: style, figure, grid and subplots. *)
Definition setup_call (c : libcall) : Prop :=
  match c with
  | StyleUse _ | Figure _ _ | AddGridspec _ _ _ | AddSubplot _ _ => True
  | _ => False
  end.

(** The first of the columns [names] that the table [t] lacks. *)
Definition first_missing (t : gmap string (list cell)) (names : list string)
  : option string :=
  List.find (fun name => bool_decide (t !! name = None)) names.

(** What [plot_tpc] may pass to [set_xticks]: on the scatter axes of a plane
    [p], the ticks [xlow + j * ndivs[p]] for [j] from 0 to
    [nchannels[p] / ndivs[p]], which start at the lower limit of the plane,
    end at its upper limit and lie within the limits. *)
Definition plane_ticks (tpc : Z) (c : libcall) : Prop :=
  forall ax ticks,
    c = SetXticks ax ticks ->
    exists p n nd,
      ax_pos ax = Cell 3 8 p 0 6 /\
      nchannels !! p = Some n /\ ndivs !! p = Some nd /\
      ticks = map (fun j => xlow tpc p + Z.of_nat j * nd)
                  (seq 0 (S (Z.to_nat (n / nd)))) /\
      head ticks = Some (xlow tpc p) /\
      last ticks = Some (xlow tpc p + n) /\
      Forall (fun t => xlow tpc p <= t <= xlow tpc p + n) ticks.

(** What [plot_waveform] may pass to [plot]: on the axes of its figure, the
    ticks 0 to 4095 against the array the caller passed, whatever its
    length. *)
Definition waveform_plot (w : world) (waveform : loc) (c : libcall) : Prop :=
  forall ax xs ys ls lw,
    c = Plot ax xs ys ls lw ->
    ax = Axes (nfigs w) Whole /\ xs = map Z.of_nat (seq 0 4096) /\
    ys = arrs w waveform /\ ls = "-" /\ lw = 1.

(** What [plot_wire_planes] may title its figure with: the metric label up
    to its first [" ["], then [" by Plane for "] and the name of the TPC. *)
Definition wire_title (w : world) (metric_label : string) (tpc : Z)
    (c : libcall) : Prop :=
  forall fig t,
    c = Suptitle fig t ->
    fig = nfigs w /\
    exists name,
      tpc_name !! tpc = Some name /\
      t = VStr (split_head " [" metric_label ++ " by Plane for " ++ name).

(** What [plot_wire_planes] may add to the axes of a plane [p]: segments and
    colours that go in pairs, the segment of a wire of the TPC with the
    metric value of a row of plane [p] that has the wire's channel id. *)
Definition segment_colours (ds : Dataset) (metric : string) (tpc : Z)
    (c : libcall) : Prop :=
  forall ax segs cs,
    c = AddCollection ax segs cs ->
    exists p wires tmp,
      ax_pos ax = Cell 3 10 p 0 9 /\
      chmap_rows_of_tpc (chmap ds) tpc wires /\
      metric_rows_of_plane (dtable ds) metric p tmp /\
      Forall2 (fun seg col =>
                 exists wr tr,
                   wr ∈ wires /\ tr ∈ tmp /\ w_id wr = fst tr /\
                   seg = ((w_z0 wr, w_y0 wr), (w_z1 wr, w_y1 wr)) /\
                   col = snd tr)
              segs cs.

(** What [plot_tpc] needs of its arguments: a label for every dataset, and in
    every dataset the columns [tpc], [plane], [channel_id] and the metric. *)
Definition tpc_inputs_ok (w : world) (datasets : list loc)
    (labels : list string) (metric : string) : Prop :=
  forall di d,
    datasets !! di = Some d ->
    is_Some (labels !! di) /\
    Forall (fun name => is_Some (dtable (dsets w d) !! name))
           ["tpc"; "plane"; "channel_id"; metric].

(** A [component] that can be compared with the [flange] column of every
    dataset: a string; a list with one entry per dataset (its entries are
    compared, one per dataset); or a list with one entry per row of every
    dataset (it is compared whole, row by row). *)
Definition component_comparable (w : world) (datasets : list loc)
    (component : pyval) : Prop :=
  match component with
  | VStr _ => True
  | VList l =>
      length l = length datasets \/
      forall di d fl,
        datasets !! di = Some d ->
        dtable (dsets w d) !! "flange" = Some fl -> length l = length fl
  end.

(** What [plot_crate] needs of its arguments: a dataset, a label for every
    dataset, in every dataset the columns [flange], [board], [ch] and the
    metric, and a [component] that can be compared with the [flange]
    columns. *)
Definition crate_inputs_ok (w : world) (datasets : list loc)
    (labels : list string) (metric : string) (component : pyval) : Prop :=
  datasets <> [] /\
  (forall di d,
     datasets !! di = Some d ->
     is_Some (labels !! di) /\
     Forall (fun name => is_Some (dtable (dsets w d) !! name))
            ["flange"; "board"; "ch"; metric]) /\
  component_comparable w datasets component.

Definition int_cell (c : cell) : Prop :=
  match c with
  | Int _ => True
  | Str _ => False
  end.

(** The [board] and [ch] columns of the datasets hold integers. *)
Definition integer_channels (w : world) (datasets : list loc) : Prop :=
  forall di d name col,
    datasets !! di = Some d -> name ∈ ["board"; "ch"] ->
    dtable (dsets w d) !! name = Some col -> Forall int_cell col.

(** What [plot_wire_planes] needs of its arguments: a channel map with an
    integer [channel_id] column and the four coordinate columns, the columns
    [channel_id], [plane] and the metric in the dataset, a metric that is not
    named as a coordinate column, and a [tpc] among 0, 1, 2, 3. *)
Definition wire_inputs_ok (ds : Dataset) (metric : string) (tpc : Z) : Prop :=
  (exists c_id, chmap ds !! "channel_id" = Some c_id /\ Forall int_cell c_id) /\
  Forall (fun name => is_Some (chmap ds !! name)) ["z0"; "y0"; "z1"; "y1"] /\
  Forall (fun name => is_Some (dtable ds !! name))
         ["channel_id"; metric; "plane"] /\
  (metric ∉ ["z0"; "y0"; "z1"; "y1"]) /\
  0 <= tpc <= 3.

(** The dataset and its channel map are tables (one cell per row in every
    column), and the [channel_id] column of the dataset holds integers, as
    that of the channel map does: the join is on keys of one type. *)
Definition wire_tables_ok (ds : Dataset) : Prop :=
  wf_table (dtable ds) /\ wf_table (chmap ds) /\
  forall d_id, dtable ds !! "channel_id" = Some d_id -> Forall int_cell d_id.

(** The figures a library call works on: the figure it is given and the
    figures of the axes it is given. *)
Definition call_figures (c : libcall) : list nat :=
  match c with
  | AddGridspec fig _ _ | AddSubplot fig _ | AddAxes fig _
  | Suptitle fig _ => [fig]
  | Scatter ax _ _ _ | Hist ax _ _ _ _ _ _ | Plot ax _ _ _ _
  | SetXlim ax _ _ | SetYlim ax _ _ | SetXticks ax _
  | SetXlabel ax _ | SetYlabel ax _ | SetTitle ax _ | Legend ax
  | AddCollection ax _ _ => [ax_fig ax]
  | Colorbar fig axs cax => fig :: ax_fig cax :: map ax_fig axs
  | StyleUse _ | Figure _ _ | ScalarMappable _ _ _ | SetClim _ _
  | ToRgba _ | LineCollection _ _ | CbSetLabel _ | CbSetEdgecolor _ => []
  end.

(** The call works on no other figure than [fig]. *)
Definition on_figure (fig : nat) (c : libcall) : Prop :=
  Forall (fun f => f = fig) (call_figures c).

(* ===================================================================== *)
(** ** Rules of the program logic *)
(* ===================================================================== *)

Section WpRules.

Context {A B : Type}.
Variable P : libcall -> Prop.

Lemma wp_ret (a : A) w (Qok : A -> world -> Prop) Qerr :
  Qok a w -> wp (ret a) w P Qok Qerr.
Proof. intros H. split; [constructor | exact H]. Qed.

Lemma wp_raise (e : exn) w (Qok : A -> world -> Prop) (Qerr : exn -> world -> Prop) :
  Qerr e w -> wp (raise e) w P Qok Qerr.
Proof. intros H. split; [constructor | exact H]. Qed.

Lemma wp_lift (r : result A) w (Qok : A -> world -> Prop)
    (Qerr : exn -> world -> Prop) :
  (forall a, r = Ok a -> Qok a w) ->
  (forall e, r = Raise e -> Qerr e w) ->
  wp (lift r) w P Qok Qerr.
Proof.
  intros Hok Herr. split; [constructor |].
  simpl. destruct r; [apply Hok | apply Herr]; reflexivity.
Qed.

Lemma wp_bind (m : M A) (f : A -> M B) w (Qok : B -> world -> Prop) Qerr :
  wp m w P (fun a w1 => wp (f a) w1 P Qok Qerr) Qerr ->
  wp (bind m f) w P Qok Qerr.
Proof.
  unfold wp, bind. intros [Hlog Hres].
  destruct (res (m w)) as [a | e]; simpl.
  - destruct Hres as [Hlog' Hres']. split; [| exact Hres'].
    apply Forall_app; split; assumption.
  - split; assumption.
Qed.

Lemma wp_mono (m : M A) w (P' : libcall -> Prop)
    (Qok Qok' : A -> world -> Prop) (Qerr Qerr' : exn -> world -> Prop) :
  wp m w P' Qok' Qerr' ->
  (forall c, P' c -> P c) ->
  (forall a w', Qok' a w' -> Qok a w') ->
  (forall e w', Qerr' e w' -> Qerr e w') ->
  wp m w P Qok Qerr.
Proof.
  unfold wp. intros [Hlog Hres] HP Hok Herr. split.
  - eapply Forall_impl; eauto.
  - destruct (res (m w)); eauto.
Qed.

End WpRules.

Section WpPrimitives.

Variable lib_raises : libcall -> option exn.
Variable P : libcall -> Prop.

Lemma wp_call c w (Qok : unit -> world -> Prop) (Qerr : exn -> world -> Prop) :
  P c ->
  (lib_raises c = None -> Qok tt w) ->
  (forall e, lib_raises c = Some e -> Qerr e w) ->
  wp (call lib_raises c) w P Qok Qerr.
Proof.
  intros HP Hok Herr. unfold wp, call.
  destruct (lib_raises c) as [e |]; simpl; (split; [repeat constructor; exact HP |]).
  - apply Herr; reflexivity.
  - apply Hok; reflexivity.
Qed.

Lemma wp_plt_figure width height w (Qok : nat -> world -> Prop)
    (Qerr : exn -> world -> Prop) :
  P (Figure width height) ->
  (lib_raises (Figure width height) = None ->
   Qok (nfigs w) (mkWorld (dsets w) (arrs w) (S (nfigs w)))) ->
  (forall e, lib_raises (Figure width height) = Some e -> Qerr e w) ->
  wp (plt_figure lib_raises width height) w P Qok Qerr.
Proof.
  intros HP Hok Herr. unfold wp, plt_figure.
  destruct (lib_raises (Figure width height)) as [e |]; simpl;
    (split; [repeat constructor; exact HP |]).
  - apply Herr; reflexivity.
  - apply Hok; reflexivity.
Qed.

Lemma wp_getitem d name w (Qok : list cell -> world -> Prop)
    (Qerr : exn -> world -> Prop) :
  (forall col, dtable (dsets w d) !! name = Some col -> Qok col w) ->
  (dtable (dsets w d) !! name = None -> Qerr (KeyError (Str name)) w) ->
  wp (getitem d name) w P Qok Qerr.
Proof.
  intros Hok Herr. unfold wp, getitem, table_get. simpl.
  split; [constructor |].
  destruct (dtable (dsets w d) !! name); [apply Hok | apply Herr]; reflexivity.
Qed.

Lemma wp_chmap_getitem d name w (Qok : list cell -> world -> Prop)
    (Qerr : exn -> world -> Prop) :
  (forall col, chmap (dsets w d) !! name = Some col -> Qok col w) ->
  (chmap (dsets w d) !! name = None -> Qerr (KeyError (Str name)) w) ->
  wp (chmap_getitem d name) w P Qok Qerr.
Proof.
  intros Hok Herr. unfold wp, chmap_getitem, table_get. simpl.
  split; [constructor |].
  destruct (chmap (dsets w d) !! name); [apply Hok | apply Herr]; reflexivity.
Qed.

Lemma wp_read_chmap d w (Qok : gmap string (list cell) -> world -> Prop)
    (Qerr : exn -> world -> Prop) :
  Qok (chmap (dsets w d)) w -> wp (read_chmap d) w P Qok Qerr.
Proof. intros H. split; [constructor | exact H]. Qed.

Lemma wp_read_array a w (Qok : list cell -> world -> Prop)
    (Qerr : exn -> world -> Prop) :
  Qok (arrs w a) w -> wp (read_array a) w P Qok Qerr.
Proof. intros H. split; [constructor | exact H]. Qed.

(** Loops: [Inv] holds of the carried variables and the store before each
    iteration. *)
Lemma wp_for_fold {A S : Type} (l : list A) (body : A -> S -> M S)
    (Inv : S -> world -> Prop) (Qerr : exn -> world -> Prop) :
  (forall x s w, x ∈ l -> Inv s w -> wp (body x s) w P Inv Qerr) ->
  forall s w, Inv s w -> wp (for_fold l body s) w P Inv Qerr.
Proof.
  induction l as [| x l IH]; intros Hbody s w Hinv; simpl.
  - apply wp_ret. exact Hinv.
  - apply wp_bind. eapply wp_mono.
    + apply (Hbody x s w); [left | exact Hinv].
    + auto.
    + intros s' w' Hinv'. apply IH; [| exact Hinv'].
      intros y s'' w'' Hy. apply Hbody. right. exact Hy.
    + auto.
Qed.

Lemma wp_for_each {A : Type} (l : list A) (body : A -> M unit)
    (Inv : world -> Prop) (Qerr : exn -> world -> Prop) :
  (forall x w, x ∈ l -> Inv w -> wp (body x) w P (fun _ => Inv) Qerr) ->
  forall w, Inv w -> wp (for_each l body) w P (fun _ => Inv) Qerr.
Proof.
  intros Hbody w Hinv. unfold for_each.
  apply (wp_for_fold l (fun x _ => body x) (fun _ => Inv)); [| exact Hinv].
  intros x [] w' Hx Hw'. apply Hbody; assumption.
Qed.

End WpPrimitives.

(** Symbolic execution of a procedure, one statement at a time. *)
Ltac wp_step :=
  lazymatch goal with
  | |- wp (bind _ _) _ _ _ _ => apply wp_bind
  | |- wp (ret _) _ _ _ _ => apply wp_ret
  | |- wp (raise _) _ _ _ _ => apply wp_raise
  | |- wp (lift _) _ _ _ _ => apply wp_lift; [intros ? ? | intros ? ?]
  | |- wp (call _ _) _ _ _ _ => apply wp_call; [ | intros ? | intros ? ?]
  | |- wp (plt_figure _ _ _) _ _ _ _ =>
      apply wp_plt_figure; [ | intros ? | intros ? ?]
  | |- wp (getitem _ _) _ _ _ _ => apply wp_getitem; [intros ? ? | intros ?]
  | |- wp (chmap_getitem _ _) _ _ _ _ =>
      apply wp_chmap_getitem; [intros ? ? | intros ?]
  | |- wp (read_chmap _) _ _ _ _ => apply wp_read_chmap
  | |- wp (read_array _) _ _ _ _ => apply wp_read_array
  | |- wp (add_gridspec _ _ _ _) _ _ _ _ => unfold add_gridspec
  | |- wp (add_subplot _ _ _) _ _ _ _ => unfold add_subplot
  | |- wp (add_axes _ _ _) _ _ _ _ => unfold add_axes
  | |- wp (list_comp _ _) _ _ _ _ => cbn [list_comp]
  end.

Lemma wp_post {A : Type} (m : M A) w P Qok Qerr (R : world -> Prop) :
  wp m w P Qok Qerr ->
  (forall a w', Qok a w' -> R w') ->
  (forall e w', Qerr e w' -> R w') ->
  R (post (m w)).
Proof.
  unfold wp. intros [_ H] Hok Herr. destruct (res (m w)); eauto.
Qed.

(** A loop whose invariant [Inv] does not mention the carried variables. *)
Ltac wp_loop I :=
  lazymatch goal with
  | |- wp (for_each ?l ?body) _ ?P _ ?Qerr =>
      eapply wp_mono;
      [ apply (wp_for_each P l body I Qerr)
      | auto | | auto ]
  | |- wp (for_fold ?l ?body ?s) _ ?P _ ?Qerr =>
      eapply wp_mono;
      [ apply (wp_for_fold P l body I Qerr)
      | auto | | auto ]
  end.

(* ===================================================================== *)
(** ** Masks, selection and the join *)
(* ===================================================================== *)

Section Masks.

Lemma elem_of_true_rows (mask : list bool) (i : nat) :
  i ∈ true_rows mask <-> mask !! i = Some true.
Proof.
  unfold true_rows. rewrite list_elem_of_filter, elem_of_seq. split.
  - intros [H _]. exact H.
  - intros H. split; [exact H |].
    apply lookup_lt_Some in H. lia.
Qed.

Lemma NoDup_true_rows (mask : list bool) : NoDup (true_rows mask).
Proof. unfold true_rows. apply NoDup_filter, NoDup_seq. Qed.

Lemma cell_eqb_true (x y : cell) : cell_eqb x y = true <-> x = y.
Proof. unfold cell_eqb. rewrite bool_decide_eq_true. reflexivity. Qed.

Lemma true_rows_col_eq (col : list cell) (v : cell) (i : nat) :
  i ∈ true_rows (col_eq col v) <-> col !! i = Some v.
Proof.
  rewrite elem_of_true_rows. unfold col_eq.
  change (map (fun x => cell_eqb x v) col) with ((fun x => cell_eqb x v) <$> col).
  rewrite list_lookup_fmap. destruct (col !! i) as [x |]; simpl.
  - split.
    + intros H. f_equal. apply cell_eqb_true. congruence.
    + intros H. f_equal. apply cell_eqb_true. congruence.
  - split; discriminate.
Qed.

(** The rows a comparison with the value chosen from [component] selects. *)
Lemma col_eq_val_rows (col : list cell) (v : pyval) (mask : list bool) :
  col_eq_val col v = Ok mask ->
  length mask = length col /\
  match v with
  | VStr s => forall i, i ∈ true_rows mask <-> col !! i = Some (Str s)
  | VList l =>
      length l = length col /\
      forall i, i ∈ true_rows mask <->
                exists s, l !! i = Some s /\ col !! i = Some (Str s)
  end.
Proof.
  unfold col_eq_val. destruct v as [s | l].
  - intros [= <-]. split; [apply length_map |].
    intros i. apply true_rows_col_eq.
  - case_bool_decide as Hlen; [| discriminate]. intros [= <-].
    split; [rewrite length_zip_with; lia |].
    split; [exact Hlen |].
    intros i. rewrite elem_of_true_rows, lookup_zip_with.
    destruct (col !! i) as [x |]; simpl;
      [| split; [discriminate | intros (s & _ & H); discriminate]].
    destruct (l !! i) as [s |]; simpl;
      [| split; [discriminate | intros (s & H & _); discriminate]].
    split.
    + intros H. exists s. split; [reflexivity |]. f_equal.
      apply cell_eqb_true. congruence.
    + intros (s' & [= <-] & [= ->]). f_equal. apply cell_eqb_true. reflexivity.
Qed.

(** The comparison raises [ValueError] exactly when the value is a list that
    has not one entry per row. *)
Lemma col_eq_val_raises (col : list cell) (v : pyval) (e : exn) :
  col_eq_val col v = Raise e <->
  e = ValueError /\ exists l, v = VList l /\ length l <> length col.
Proof.
  unfold col_eq_val. destruct v as [s | l].
  - split; [discriminate | intros (_ & l & H & _); discriminate].
  - case_bool_decide as Hlen.
    + split; [discriminate | intros (_ & l' & [= <-] & H); contradiction].
    + split; [intros [= <-]; eauto | intros [-> _]; reflexivity].
Qed.

Lemma true_rows_mask_and (m1 m2 : list bool) (i : nat) :
  i ∈ true_rows (mask_and m1 m2) <-> i ∈ true_rows m1 /\ i ∈ true_rows m2.
Proof.
  rewrite !elem_of_true_rows. unfold mask_and.
  rewrite lookup_zip_with_Some. split.
  - intros (x & y & Hxy & Hx & Hy). symmetry in Hxy.
    apply andb_true_iff in Hxy as [-> ->]. split; assumption.
  - intros [H1 H2]. exists true, true. repeat split; assumption.
Qed.

(** The rows [plot_tpc] plots for a TPC and a plane. *)
Lemma true_rows_tpc_mask (c_tpc c_plane : list cell) (tpc : Z) (pi i : nat) :
  i ∈ true_rows (tpc_mask c_tpc c_plane tpc pi) <->
  c_tpc !! i = Some (Int tpc) /\ c_plane !! i = Some (Int (Z.of_nat pi)).
Proof.
  unfold tpc_mask. rewrite true_rows_mask_and, !true_rows_col_eq. reflexivity.
Qed.

(** Selecting from a column that has a cell at every selected row gives one
    cell per row, in row order. *)
Lemma omap_lookup_Forall2 {A : Type} (col : list A) (rows : list nat) :
  (forall i, i ∈ rows -> is_Some (col !! i)) ->
  Forall2 (fun i x => col !! i = Some x) rows (omap (fun i => col !! i) rows).
Proof.
  induction rows as [| i rows IH]; intros Hall; simpl.
  - constructor.
  - destruct (Hall i) as [x Hx]; [left |]. rewrite Hx. constructor.
    + exact Hx.
    + apply IH. intros j Hj. apply Hall. right. exact Hj.
Qed.

Lemma select_Forall2 {A : Type} (mask : list bool) (col : list A) :
  (length mask <= length col)%nat ->
  Forall2 (fun i x => col !! i = Some x) (true_rows mask) (select mask col).
Proof.
  intros Hlen. unfold select. apply omap_lookup_Forall2.
  intros i Hi. apply elem_of_true_rows, lookup_lt_Some in Hi.
  apply lookup_lt_is_Some. lia.
Qed.

Lemma length_col_eq col v : length (col_eq col v) = length col.
Proof. unfold col_eq. apply length_map. Qed.

(** [64*board[selected] + ch[selected]], row by row. *)
Lemma crate_x_rows (bo ch : list cell) (rows : list nat) :
  (forall i, i ∈ rows -> is_Some (bo !! i) /\ is_Some (ch !! i)) ->
  forall xs,
  col_add (col_mul 64 (omap (fun i => bo !! i) rows))
          (omap (fun i => ch !! i) rows) = Ok xs ->
  Forall2 (fun i x => exists b k, bo !! i = Some b /\ ch !! i = Some k /\
                                  py_add (py_mul 64 b) k = Ok x) rows xs.
Proof.
  induction rows as [| i rows IH]; intros Hall xs; simpl.
  - intros [= <-]. constructor.
  - destruct (Hall i) as [[b Hb] [k Hk]]; [left |]. rewrite Hb, Hk. simpl.
    destruct (py_add (py_mul 64 b) k) as [v |] eqn:Hv; [| discriminate].
    destruct (col_add _ _) as [vs |] eqn:Hvs; [| discriminate].
    intros [= <-]. constructor.
    + exists b, k. auto.
    + apply IH; [| reflexivity]. intros j Hj. apply Hall. right. exact Hj.
Qed.

(** 64-bit arithmetic. *)
Lemma wrap64_id (z : Z) : int64 z -> wrap64 z = z.
Proof.
  unfold int64, wrap64. intros H. rewrite Z.mod_small by lia. lia.
Qed.

Lemma int64_wrap64 (z : Z) : int64 (wrap64 z).
Proof.
  unfold int64, wrap64.
  pose proof (Z.mod_pos_bound (z + 9223372036854775808)
                18446744073709551616 ltac:(lia)).
  lia.
Qed.

Lemma wrap64_add_l (a b : Z) : wrap64 (wrap64 a + b) = wrap64 (a + b).
Proof.
  unfold wrap64. f_equal.
  replace ((a + 9223372036854775808) mod 18446744073709551616
           - 9223372036854775808 + b + 9223372036854775808)
    with ((a + 9223372036854775808) mod 18446744073709551616 + b) by lia.
  rewrite Zplus_mod_idemp_l. f_equal. lia.
Qed.

Lemma py_add_mul_int (b k : Z) (x : cell) :
  py_add (py_mul 64 (Int b)) (Int k) = Ok x -> x = Int (wrap64 (64 * b + k)).
Proof.
  unfold py_mul, py_add. intros [= <-]. rewrite wrap64_add_l. reflexivity.
Qed.

Lemma py_add_mul (b k x : cell) :
  py_add (py_mul 64 b) k = Ok x -> crate_x b k x.
Proof.
  destruct b as [bz | bs], k as [kz | ks]; try discriminate.
  - intros H. apply py_add_mul_int in H as ->. split; [reflexivity |].
    intros Hr. rewrite wrap64_id by exact Hr. reflexivity.
  - unfold py_mul, py_add. intros [= <-]. reflexivity.
Qed.

Lemma elem_of_enumerate {A : Type} (l : list A) (i : nat) (x : A) :
  (i, x) ∈ enumerate l <-> l !! i = Some x.
Proof.
  unfold enumerate. rewrite elem_of_lookup_imap. split.
  - intros (j & y & [= -> ->] & H). exact H.
  - intros H. exists i, x. auto.
Qed.

End Masks.

(* ===================================================================== *)
(** ** Figures, results and the frame *)
(* ===================================================================== *)

Section Frame.

Variable lib_raises : libcall -> option exn.

Lemma same_inputs_refl w : same_inputs w w.
Proof. split; reflexivity. Qed.

Lemma one_figure_new w : one_figure w (mkWorld (dsets w) (arrs w) (S (nfigs w))).
Proof. split; [split |]; reflexivity. Qed.

Lemma one_figure_at_most w0 w : one_figure w0 w -> at_most_one_figure w0 w.
Proof. intros [H1 H2]. split; [exact H1 | lia]. Qed.

Lemma at_most_one_figure_refl w : at_most_one_figure w w.
Proof. split; [apply same_inputs_refl | lia]. Qed.

Hint Resolve one_figure_new one_figure_at_most at_most_one_figure_refl : core.

Lemma plot_tpc_body_frame saxs haxs labels metric tpc pi p di d w0 w :
  one_figure w0 w ->
  wp (plot_tpc_body lib_raises saxs haxs labels metric tpc pi p di d) w
     (fun _ => True) (fun _ => one_figure w0)
     (fun _ => at_most_one_figure w0).
Proof.
  intros Hw. unfold plot_tpc_body. repeat wp_step; auto.
Qed.

Lemma plot_tpc_frame datasets labels metric tpc w :
  wp (plot_tpc lib_raises datasets labels metric tpc) w (fun _ => True)
     (fun v w' => v = PyNone /\ one_figure w w')
     (fun _ => at_most_one_figure w).
Proof.
  unfold plot_tpc. repeat wp_step; auto.
  wp_loop (one_figure w).
  - intros [pi p] w1 _ Hw1.
    wp_loop (one_figure w); [ | exact Hw1 | auto ].
    intros [di d] w2 _ Hw2. apply plot_tpc_body_frame. exact Hw2.
  - auto.
  - intros ? w1 Hw1. repeat wp_step; auto.
Qed.

Lemma plot_crate_body_frame ax n labels metric component di d w0 w :
  one_figure w0 w ->
  wp (plot_crate_body lib_raises ax n labels metric component di d) w
     (fun _ => True) (fun _ => one_figure w0)
     (fun _ => at_most_one_figure w0).
Proof.
  intros Hw. unfold plot_crate_body. repeat wp_step; auto.
Qed.

Lemma plot_crate_frame datasets labels metric component w :
  wp (plot_crate lib_raises datasets labels metric component) w (fun _ => True)
     (fun v w' => v = PyNone /\ one_figure w w')
     (fun _ => at_most_one_figure w).
Proof.
  unfold plot_crate. repeat wp_step; auto.
  wp_loop (fun (_ : option pyval) => one_figure w).
  - intros [di d] s w1 _ Hw1. apply plot_crate_body_frame. exact Hw1.
  - auto.
  - intros title w1 Hw1. repeat wp_step; auto.
    destruct title; repeat wp_step; auto.
Qed.

Lemma plot_wire_planes_body_frame axs data metric tpc p w0 w :
  one_figure w0 w ->
  wp (plot_wire_planes_body lib_raises axs data metric tpc p) w
     (fun _ => True) (fun _ => one_figure w0)
     (fun _ => at_most_one_figure w0).
Proof.
  intros Hw. unfold plot_wire_planes_body. repeat wp_step; auto.
Qed.

Lemma plot_wire_planes_frame data metric metric_label tpc w :
  wp (plot_wire_planes lib_raises data metric metric_label tpc) w
     (fun _ => True)
     (fun v w' => v = PyNone /\ one_figure w w')
     (fun _ => at_most_one_figure w).
Proof.
  unfold plot_wire_planes. repeat wp_step; auto.
  wp_loop (one_figure w).
  - intros p w1 _ Hw1. apply plot_wire_planes_body_frame. exact Hw1.
  - auto.
  - intros ? w1 Hw1. repeat wp_step; auto.
Qed.

Lemma plot_waveform_frame waveform title w :
  wp (plot_waveform lib_raises waveform title) w (fun _ => True)
     (fun v w' => v = PyNone /\ one_figure w w')
     (fun _ => at_most_one_figure w).
Proof.
  unfold plot_waveform. repeat wp_step; auto.
Qed.

End Frame.

Lemma wp_returns {A : Type} (m : M A) w P Qok Qerr (v : A) :
  wp m w P Qok Qerr -> res (m w) = Ok v -> Qok v (post (m w)).
Proof. unfold wp. intros [_ H] Hv. rewrite Hv in H. exact H. Qed.

(* ===================================================================== *)
(** ** The calls each procedure makes *)
(* ===================================================================== *)

Lemma wp_log {A : Type} (m : M A) w P Qok Qerr (k : nat) (c : libcall) :
  wp m w P Qok Qerr -> log (m w) !! k = Some c -> P c.
Proof.
  unfold wp. intros [H _] Hk. eapply Forall_lookup_1; eassumption.
Qed.

Lemma saxs_of_index fig pi ax :
  list_index (saxs_of fig) pi = Ok ax ->
  (pi < 3)%nat /\ ax = Axes fig (Cell 3 8 pi 0 6).
Proof.
  unfold list_index, saxs_of.
  destruct pi as [| [| [| pi]]]; simpl; intros [= <-]; split; (lia || reflexivity).
Qed.

Lemma haxs_of_index fig pi ax :
  list_index (haxs_of fig) pi = Ok ax ->
  (pi < 3)%nat /\ ax = Axes fig (Cell 3 8 pi 6 8).
Proof.
  unfold list_index, haxs_of.
  destruct pi as [| [| [| pi]]]; simpl; intros [= <-]; split; (lia || reflexivity).
Qed.

Section TpcLimits.

Variable lib_raises : libcall -> option exn.

Lemma plot_tpc_body_xlim fig labels metric tpc pi p di d w :
  wp (plot_tpc_body lib_raises (saxs_of fig) (haxs_of fig) labels metric tpc
        pi p di d) w
     (xlim_of_plane tpc) (fun _ _ => True) (fun _ _ => True).
Proof.
  unfold plot_tpc_body.
  repeat wp_step; auto; try (intros ? ? ? ? ?; discriminate).
  - (* the scatter axes *)
    intros fig' p' lo hi Heq.
    match goal with
    | H : list_index (saxs_of _) _ = Ok ?a, H' : SetXlim ?a _ _ = _ |- _ =>
        apply saxs_of_index in H as [Hlt ->]
    end.
    injection Heq as <- <- <- <-.
    split; [exact Hlt |]. split; [reflexivity |].
    match goal with
    | H : list_index nchannels _ = Ok ?n |- _ =>
        exists n; split; [| reflexivity];
        unfold list_index in H; destruct (nchannels !! pi); congruence
    end.
  - (* the histogram axes sit in other columns of the grid *)
    intros fig' p' lo hi Heq.
    match goal with
    | H : list_index (haxs_of _) _ = Ok ?a, H' : SetXlim ?a _ _ = _ |- _ =>
        apply haxs_of_index in H as [Hlt ->]
    end.
    discriminate Heq.
Qed.

Lemma plot_tpc_xlim_wp datasets labels metric tpc w :
  wp (plot_tpc lib_raises datasets labels metric tpc) w
     (xlim_of_plane tpc) (fun _ _ => True) (fun _ _ => True).
Proof.
  unfold plot_tpc.
  repeat wp_step; auto; try (intros ? ? ? ? ?; discriminate).
  wp_loop (fun _ : world => True).
  - intros [pi p] w1 _ _.
    wp_loop (fun _ : world => True); [| exact I | auto].
    intros [di d] w2 _ _. apply plot_tpc_body_xlim.
  - exact I.
  - intros ? w1 _. repeat wp_step; auto.
Qed.

End TpcLimits.

(* ===================================================================== *)
(** ** Rows plotted by [plot_tpc] and [plot_crate] *)
(* ===================================================================== *)

Lemma wf_table_length (t : gmap string (list cell)) (n : nat) (name : string)
    (col : list cell) :
  map_Forall (fun _ col => length col = n) t ->
  t !! name = Some col -> length col = n.
Proof. intros H Hc. exact (H name col Hc). Qed.

Lemma length_tpc_mask c_tpc c_plane tpc pi n :
  length c_tpc = n -> length c_plane = n ->
  length (tpc_mask c_tpc c_plane tpc pi) = n.
Proof.
  intros H1 H2. unfold tpc_mask, mask_and.
  rewrite length_zip_with, !length_col_eq. lia.
Qed.

Lemma tpc_selection (t : gmap string (list cell)) c_tpc c_plane tpc pi :
  t !! "tpc" = Some c_tpc -> t !! "plane" = Some c_plane ->
  tpc_plane_rows t tpc pi (true_rows (tpc_mask c_tpc c_plane tpc pi)).
Proof.
  intros H1 H2. exists c_tpc, c_plane.
  split; [exact H1 |]. split; [exact H2 |]. split.
  - apply NoDup_true_rows.
  - intros i. apply true_rows_tpc_mask.
Qed.

Lemma tpc_selected_cells (t : gmap string (list cell)) c_tpc c_plane name col
    tpc pi :
  wf_table t ->
  t !! "tpc" = Some c_tpc -> t !! "plane" = Some c_plane ->
  t !! name = Some col ->
  column_cells t name (true_rows (tpc_mask c_tpc c_plane tpc pi))
               (select (tpc_mask c_tpc c_plane tpc pi) col).
Proof.
  intros [n Hn] H1 H2 H3. exists col. split; [exact H3 |].
  apply select_Forall2.
  rewrite (length_tpc_mask c_tpc c_plane tpc pi n),
          (wf_table_length t n name col); eauto using wf_table_length.
Qed.

Lemma list_index_Some {A : Type} (l : list A) i x :
  list_index l i = Ok x -> l !! i = Some x.
Proof. unfold list_index. destruct (l !! i); congruence. Qed.

Lemma plane_scatter_intro (t : gmap string (list cell)) labels metric tpc
    fig pi di c_tpc c_plane c_id c_m lbl :
  t !! "tpc" = Some c_tpc -> t !! "plane" = Some c_plane ->
  t !! "channel_id" = Some c_id -> t !! metric = Some c_m ->
  labels !! di = Some lbl ->
  plane_scatter t labels metric tpc fig pi di
    (Scatter (Axes fig (Cell 3 8 pi 0 6))
       (select (tpc_mask c_tpc c_plane tpc pi) c_id)
       (select (tpc_mask c_tpc c_plane tpc pi) c_m) lbl).
Proof.
  intros Htpc Hplane Hid Hm Hlbl.
  do 3 eexists. exists (true_rows (tpc_mask c_tpc c_plane tpc pi)).
  split; [reflexivity |]. split; [exact Hlbl |].
  intros Hwf. split; [apply tpc_selection; assumption |].
  split; apply tpc_selected_cells; assumption.
Qed.

Lemma plane_hist_intro (t : gmap string (list cell)) labels metric tpc
    fig pi di c_tpc c_plane c_m lbl :
  t !! "tpc" = Some c_tpc -> t !! "plane" = Some c_plane ->
  t !! metric = Some c_m ->
  labels !! di = Some lbl ->
  plane_hist t labels metric tpc fig pi di
    (Hist (Axes fig (Cell 3 8 pi 6 8))
       (select (tpc_mask c_tpc c_plane tpc pi) c_m) 0 10 50 lbl "step").
Proof.
  intros Htpc Hplane Hm Hlbl.
  do 2 eexists. exists (true_rows (tpc_mask c_tpc c_plane tpc pi)).
  split; [reflexivity |]. split; [exact Hlbl |].
  intros Hwf. split; [apply tpc_selection; assumption |].
  apply tpc_selected_cells; assumption.
Qed.

(** Facts about the axes and labels a loop body has indexed. *)
Ltac indexed :=
  repeat match goal with
         | H : list_index (saxs_of _) _ = Ok _ |- _ =>
             apply saxs_of_index in H as [? ->]
         | H : list_index (haxs_of _) _ = Ok _ |- _ =>
             apply haxs_of_index in H as [? ->]
         | H : list_index _ _ = Ok _ |- _ => apply list_index_Some in H
         end.

Section TpcRows.

Variable lib_raises : libcall -> option exn.

Lemma plot_tpc_body_rows fig datasets labels metric tpc pi p di d w0 w :
  dsets w = dsets w0 -> datasets !! di = Some d ->
  wp (plot_tpc_body lib_raises (saxs_of fig) (haxs_of fig) labels metric tpc
        pi p di d) w
     (plots_plane_rows w0 datasets labels metric tpc)
     (fun _ w' => dsets w' = dsets w0) (fun _ _ => True).
Proof.
  intros Hw Hd. unfold plot_tpc_body.
  repeat wp_step; auto;
    try (split; intros; discriminate).
  - (* scatter *)
    split; [| intros; discriminate].
    intros ax xs ys lbl Heq. injection Heq as <- <- <- <-.
    indexed. rewrite Hw in *.
    exists pi, di, d. split; [assumption |]. split; [exact Hd |].
    apply plane_scatter_intro; assumption.
  - (* histogram *)
    split; [intros; discriminate |].
    intros ax vals lo hi bins lbl ht Heq. injection Heq as <- <- <- <- <- <- <-.
    indexed. rewrite Hw in *.
    exists pi, di, d. split; [assumption |]. split; [exact Hd |].
    apply plane_hist_intro; assumption.
Qed.

Lemma plot_tpc_rows_wp datasets labels metric tpc w :
  wp (plot_tpc lib_raises datasets labels metric tpc) w
     (plots_plane_rows w datasets labels metric tpc)
     (fun _ _ => True) (fun _ _ => True).
Proof.
  unfold plot_tpc.
  repeat wp_step; auto; try (split; intros; discriminate).
  wp_loop (fun w' : world => dsets w' = dsets w).
  - intros [pi p] w1 _ Hw1.
    wp_loop (fun w' : world => dsets w' = dsets w); [| exact Hw1 | auto].
    intros [di d] w2 Hd Hw2. apply elem_of_enumerate in Hd.
    eapply wp_mono; [apply plot_tpc_body_rows; eassumption | auto ..].
  - reflexivity.
  - intros ? w1 _. repeat wp_step; auto.
Qed.

End TpcRows.

Lemma sample_table_wf : wf_table sample_table.
Proof.
  exists 4%nat.
  apply (bool_decide_unpack
           (map_Forall (fun (_ : string) (col : list cell) => length col = 4%nat)
                       sample_table)).
  vm_compute. exact I.
Qed.

Lemma sample_chmap_wf : wf_table sample_chmap.
Proof.
  exists 4%nat.
  apply (bool_decide_unpack
           (map_Forall (fun (_ : string) (col : list cell) => length col = 4%nat)
                       sample_chmap)).
  vm_compute. exact I.
Qed.

Section CrateCalls.

Variable lib_raises : libcall -> option exn.

Lemma plot_crate_body_calls ax datasets labels metric component di d w0 w :
  dsets w = dsets w0 -> datasets !! di = Some d ->
  wp (plot_crate_body lib_raises ax (length datasets) labels metric component
        di d) w
     (crate_calls w0 datasets labels metric component)
     (fun s w' => dsets w' = dsets w0 /\ title_bound datasets component s)
     (fun _ _ => True).
Proof.
  intros Hw Hd. unfold plot_crate_body.
  repeat wp_step; auto.
  - split; [| intros; discriminate].
    intros ax' xs ys lbl Heq. injection Heq as <- <- <- <-.
    rewrite Hw in *.
    match goal with
    | H : choose_component _ _ _ = Ok ?a |- _ => destruct a as [cv title]
    end.
    exists di, d, cv, title.
    match goal with
    | H : list_index labels _ = Ok _ |- _ => apply list_index_Some in H
    end.
    cbn [fst snd] in *.
    do 4 eexists. do 7 (split; [eassumption |]).
    eexists. split; [eassumption |]. split; [eassumption | reflexivity].
  - split; [assumption |].
    intros t [= <-].
    match goal with
    | H : choose_component _ _ _ = Ok ?a |- _ => destruct a as [cv title]
    end.
    exists di, cv. split; [| assumption].
    eapply lookup_lt_Some. eassumption.
Qed.

Lemma plot_crate_calls_wp datasets labels metric component w :
  wp (plot_crate lib_raises datasets labels metric component) w
     (crate_calls w datasets labels metric component)
     (fun _ _ => True) (fun _ _ => True).
Proof.
  unfold plot_crate.
  repeat wp_step; auto; try (split; intros; discriminate).
  wp_loop (fun (s : option pyval) (w' : world) =>
             dsets w' = dsets w /\ title_bound datasets component s).
  - intros [di d] s w1 Hd [Hw1 _]. apply elem_of_enumerate in Hd.
    apply plot_crate_body_calls; assumption.
  - split; [reflexivity |]. intros t Ht. discriminate Ht.
  - intros title w1 [_ Htitle].
    repeat wp_step; auto; try (split; intros; discriminate).
    destruct title as [t |]; repeat wp_step; auto.
    split; [intros; discriminate |].
    intros fig t' [= <- <-]. apply Htitle. reflexivity.
Qed.

End CrateCalls.

Lemma crate_selection (t : gmap string (list cell)) cv fl bo ch m mask xs :
  wf_table t ->
  t !! "flange" = Some fl -> t !! "board" = Some bo -> t !! "ch" = Some ch ->
  col_eq_val fl cv = Ok mask ->
  col_add (col_mul 64 (select mask bo)) (select mask ch) = Ok xs ->
  flange_rows t cv (true_rows mask) /\
  crate_xs t (true_rows mask) xs /\
  forall name, t !! name = Some m ->
    column_cells t name (true_rows mask) (select mask m).
Proof.
  intros [n Hn] Hfl Hbo Hch Hmask Hxs.
  destruct (col_eq_val_rows fl cv mask Hmask) as [Hlenm Hrows].
  assert (Hlen : forall name col, t !! name = Some col ->
                 (length mask <= length col)%nat).
  { intros name col Hcol. rewrite Hlenm.
    rewrite (wf_table_length t n "flange" fl Hn Hfl),
            (wf_table_length t n name col Hn Hcol). lia. }
  split; [| split].
  - exists fl. split; [exact Hfl |]. split; [apply NoDup_true_rows |].
    exact Hrows.
  - exists bo, ch. split; [exact Hbo |]. split; [exact Hch |].
    eapply Forall2_impl.
    + apply crate_x_rows; [| exact Hxs].
      intros i Hi. apply elem_of_true_rows, lookup_lt_Some in Hi.
      split; apply lookup_lt_is_Some.
      * specialize (Hlen "board" bo Hbo). lia.
      * specialize (Hlen "ch" ch Hch). lia.
    + intros i x (b & k & Hb & Hk & Hadd).
      exists b, k. split; [exact Hb |]. split; [exact Hk |].
      apply py_add_mul. exact Hadd.
  - intros name Hm. exists m. split; [exact Hm |].
    apply select_Forall2. eapply Hlen. exact Hm.
Qed.

(** The two branches of the [if] at the head of the loop of [plot_crate]. *)
Lemma choose_component_branches (component : pyval) (n di : nat)
    (cv title : pyval) :
  choose_component component n di = Ok (cv, title) ->
  (exists l s, component = VList l /\ length l = n /\ l !! di = Some s /\
               cv = VStr s /\ title = VStr (String.concat " vs. " l)) \/
  (~ (exists l, component = VList l /\ length l = n) /\
   cv = component /\ title = component).
Proof.
  unfold choose_component.
  destruct component as [s | l]; simpl.
  - intros [= <- <-]. right. split; [| auto].
    intros (l & Hl & _). discriminate Hl.
  - destruct (bool_decide (length l = n)) eqn:Hlen.
    + apply bool_decide_eq_true in Hlen.
      unfold list_index. destruct (l !! di) as [s |] eqn:Hs; [| discriminate].
      intros [= <- <-]. left. exists l, s. auto.
    + apply bool_decide_eq_false in Hlen.
      intros [= <- <-]. right. split; [| auto].
      intros (l' & [= <-] & Hl'). contradiction.
Qed.

(* ===================================================================== *)
(** ** The join of [plot_wire_planes] *)
(* ===================================================================== *)

Section Join.

Lemma col_floordiv_lookup (col q : list cell) (n : Z) :
  col_floordiv col n = Ok q ->
  forall i v, q !! i = Some v <->
              exists z, col !! i = Some (Int z) /\ v = Int (z / n).
Proof.
  revert q. induction col as [| x col IH]; intros q; simpl.
  - intros [= <-] i v. split; [intros H; discriminate |].
    intros (z & H & _). discriminate.
  - destruct x as [z0 | s]; simpl; [| discriminate].
    destruct (col_floordiv col n) as [vs |] eqn:Hvs; [| discriminate].
    intros [= <-] i v. destruct i as [| i]; simpl.
    + split.
      * intros [= <-]. eauto.
      * intros (z & [= <-] & ->). reflexivity.
    + apply IH. reflexivity.
Qed.

(** The rows of the channel map that belong to a TPC. *)
Lemma chmap_mask_rows (c_id : list cell) (tpc : Z) (mask : list bool) :
  chmap_mask c_id tpc = Ok mask ->
  forall i, i ∈ true_rows mask <->
            exists z, c_id !! i = Some (Int z) /\ z / 13824 = tpc.
Proof.
  unfold chmap_mask.
  destruct (col_floordiv c_id 13824) as [q |] eqn:Hq; [| discriminate].
  intros [= <-] i. rewrite true_rows_col_eq.
  rewrite (col_floordiv_lookup c_id q 13824 Hq). split.
  - intros (z & Hz & [= Htpc]). eauto.
  - intros (z & Hz & Htpc). exists z. rewrite Htpc. auto.
Qed.

Lemma elem_of_metric_rows (c_id c_m : list cell) (mask : list bool)
    (tr : cell * cell) :
  tr ∈ metric_rows c_id c_m mask <->
  exists i, i ∈ true_rows mask /\
            c_id !! i = Some (fst tr) /\ c_m !! i = Some (snd tr).
Proof.
  unfold metric_rows. rewrite list_elem_of_omap. split.
  - intros (i & Hi & Hrow).
    destruct (c_id !! i) as [a |] eqn:Ha; [| discriminate].
    destruct (c_m !! i) as [m |] eqn:Hm; [| discriminate].
    injection Hrow as <-. exists i. simpl. rewrite Ha, Hm. auto.
  - intros (i & Hi & Ha & Hm). exists i. split; [exact Hi |].
    rewrite Ha, Hm. destruct tr; reflexivity.
Qed.

Lemma elem_of_merge_inner (wires : list wire) (tmp : list (cell * cell))
    (j : wire * cell) :
  j ∈ merge_inner wires tmp <->
  exists wr tr, wr ∈ wires /\ tr ∈ tmp /\ w_id wr = fst tr /\
                j = (wr, snd tr).
Proof.
  unfold merge_inner. rewrite list_elem_of_bind. split.
  - intros (wr & Hj & Hwr).
    apply list_elem_of_fmap in Hj as (tr & -> & Htr).
    apply list_elem_of_filter in Htr as [Hkey Htr].
    exists wr, tr. auto.
  - intros (wr & tr & Hwr & Htr & Hkey & ->).
    exists wr. split; [| exact Hwr].
    apply list_elem_of_fmap. exists tr. split; [reflexivity |].
    apply list_elem_of_filter. auto.
Qed.

(** A join that does not raise is the inner join. *)
Lemma frame_merge_Ok (wires : list wire) (tmp : list (cell * cell))
    (joined : list (wire * cell)) :
  frame_merge wires tmp = Ok joined -> joined = merge_inner wires tmp.
Proof.
  unfold frame_merge. destruct (keys_clash _ _); [discriminate |].
  intros [= <-]. reflexivity.
Qed.

Lemma wire_at_id c_id z0 y0 z1 y1 i wr :
  wire_at c_id z0 y0 z1 y1 i = Some wr -> c_id !! i = Some (w_id wr).
Proof.
  unfold wire_at.
  destruct (c_id !! i), (z0 !! i), (y0 !! i), (z1 !! i), (y1 !! i);
    try discriminate.
  intros [= <-]. reflexivity.
Qed.

End Join.

Lemma axs_of_index fig p ax :
  list_index (axs_of fig) p = Ok ax ->
  (p < 3)%nat /\ ax = Axes fig (Cell 3 10 p 0 9).
Proof.
  unfold list_index, axs_of.
  destruct p as [| [| [| p]]]; simpl; intros [= <-]; split; (lia || reflexivity).
Qed.

Lemma chmap_wires_rows (cm : gmap string (list cell)) c_id tpc mask wires :
  cm !! "channel_id" = Some c_id ->
  chmap_mask c_id tpc = Ok mask ->
  chmap_wires cm mask = Ok wires ->
  chmap_rows_of_tpc cm tpc wires.
Proof.
  intros Hid Hmask. unfold chmap_wires, table_get. rewrite Hid.
  destruct (cm !! "z0") as [z0 |] eqn:Hz0; [| discriminate].
  destruct (cm !! "y0") as [y0 |] eqn:Hy0; [| discriminate].
  destruct (cm !! "z1") as [z1 |] eqn:Hz1; [| discriminate].
  destruct (cm !! "y1") as [y1 |] eqn:Hy1; [| discriminate].
  intros [= <-]. exists c_id, z0, y0, z1, y1.
  repeat (split; [reflexivity || assumption |]).
  intros wr. rewrite list_elem_of_omap. split.
  - intros (i & Hi & Hwr).
    apply (chmap_mask_rows c_id tpc mask Hmask) in Hi as (z & Hz & Htpc).
    exists i, z. auto.
  - intros (i & z & Hz & Htpc & Hwr). exists i. split; [| exact Hwr].
    apply (chmap_mask_rows c_id tpc mask Hmask). eauto.
Qed.

Lemma metric_rows_plane (t : gmap string (list cell)) metric p d_id d_m d_plane :
  t !! "channel_id" = Some d_id -> t !! metric = Some d_m ->
  t !! "plane" = Some d_plane ->
  metric_rows_of_plane t metric p
    (metric_rows d_id d_m (col_eq d_plane (Int (Z.of_nat p)))).
Proof.
  intros H1 H2 H3. exists d_id, d_m, d_plane.
  repeat (split; [assumption |]).
  intros tr. rewrite elem_of_metric_rows. split.
  - intros (i & Hi & Ha & Hm). apply true_rows_col_eq in Hi. eauto.
  - intros (i & Hi & Ha & Hm). exists i. rewrite true_rows_col_eq. auto.
Qed.

Section WireCalls.

Variable lib_raises : libcall -> option exn.

Lemma plot_wire_planes_body_calls fig data metric tpc p w0 w :
  dsets w = dsets w0 ->
  wp (plot_wire_planes_body lib_raises (axs_of fig) data metric tpc p) w
     (wire_calls w0 data metric tpc)
     (fun _ w' => dsets w' = dsets w0) (fun _ _ => True).
Proof.
  intros Hw. unfold plot_wire_planes_body.
  repeat wp_step; auto; try (intros ? ? ? ?; discriminate).
  intros ax segs cs Heq. injection Heq as <- <- <-.
  repeat match goal with
         | H : list_index (axs_of _) _ = Ok _ |- _ =>
             apply axs_of_index in H as [? ->]
         | H : frame_merge _ _ = Ok _ |- _ =>
             apply frame_merge_Ok in H as ->
         end.
  rewrite Hw in *.
  exists p. do 6 eexists. repeat split; eassumption.
Qed.

Lemma plot_wire_planes_calls_wp data metric metric_label tpc w :
  wp (plot_wire_planes lib_raises data metric metric_label tpc) w
     (wire_calls w data metric tpc) (fun _ _ => True) (fun _ _ => True).
Proof.
  unfold plot_wire_planes.
  repeat wp_step; auto; try (intros ? ? ? ?; discriminate).
  wp_loop (fun w' : world => dsets w' = dsets w).
  - intros p w1 _ Hw1. apply plot_wire_planes_body_calls. exact Hw1.
  - reflexivity.
  - intros ? w1 _. repeat wp_step; auto; try (intros ? ? ? ?; discriminate).
Qed.

End WireCalls.

Section JoinUnique.

Lemma filter_key_absent (tmp : list (cell * cell)) (k : cell) :
  k ∉ map fst tmp ->
  filter (fun tr : cell * cell => k = fst tr) tmp = [].
Proof.
  induction tmp as [| tr tmp IH]; intros Hk; [reflexivity |].
  simpl in Hk. apply not_elem_of_cons in Hk as [Hne Hk].
  rewrite filter_cons_False; [apply IH; exact Hk | exact Hne].
Qed.

Lemma filter_key_at_most_one (tmp : list (cell * cell)) (k : cell) :
  NoDup (map fst tmp) ->
  (length (filter (fun tr : cell * cell => k = fst tr) tmp) <= 1)%nat.
Proof.
  induction tmp as [| tr tmp IH]; intros Hnd; [simpl; lia |].
  simpl in Hnd. apply NoDup_cons in Hnd as [Hnotin Hnd].
  destruct (decide (k = fst tr)) as [-> | Hne].
  - rewrite filter_cons_True by reflexivity.
    rewrite filter_key_absent by exact Hnotin. simpl. lia.
  - rewrite filter_cons_False by exact Hne. apply IH. exact Hnd.
Qed.

Lemma joined_ids_cons (wr : wire) (wires : list wire) (tmp : list (cell * cell)) :
  joined_ids (merge_inner (wr :: wires) tmp) =
  map (fun _ => w_id wr)
      (filter (fun tr : cell * cell => w_id wr = fst tr) tmp)
  ++ joined_ids (merge_inner wires tmp).
Proof.
  unfold joined_ids, merge_inner. rewrite bind_cons, map_app. f_equal.
  induction (filter (fun tr : cell * cell => w_id wr = fst tr) tmp)
    as [| tr l IH]; [reflexivity |].
  simpl. f_equal. exact IH.
Qed.

Lemma elem_of_joined_ids (wires : list wire) (tmp : list (cell * cell))
    (cid : cell) :
  cid ∈ joined_ids (merge_inner wires tmp) <->
  cid ∈ map w_id wires /\ cid ∈ map fst tmp.
Proof.
  unfold joined_ids.
  change (cid ∈ (fun j : wire * cell => w_id (fst j)) <$> merge_inner wires tmp
          <-> cid ∈ w_id <$> wires /\ cid ∈ fst <$> tmp).
  rewrite !list_elem_of_fmap. split.
  - intros (j & -> & Hj).
    apply elem_of_merge_inner in Hj as (wr & tr & Hwr & Htr & Hkey & ->).
    simpl. split; [exists wr; auto |]. exists tr. auto.
  - intros [(wr & -> & Hwr) (tr & Hkey & Htr)].
    exists (wr, snd tr). split; [reflexivity |].
    apply elem_of_merge_inner. exists wr, tr. auto.
Qed.

Lemma NoDup_joined_ids (wires : list wire) (tmp : list (cell * cell)) :
  NoDup (map w_id wires) -> NoDup (map fst tmp) ->
  NoDup (joined_ids (merge_inner wires tmp)).
Proof.
  intros Hw Ht. induction wires as [| wr wires IH].
  - constructor.
  - simpl in Hw. apply NoDup_cons in Hw as [Hnotin Hw].
    rewrite joined_ids_cons. apply NoDup_app. split; [| split].
    + pose proof (filter_key_at_most_one tmp (w_id wr) Ht) as Hlen.
      destruct (filter (fun tr : cell * cell => w_id wr = fst tr) tmp)
        as [| tr [| tr' l]]; simpl in *.
      * constructor.
      * apply NoDup_singleton.
      * lia.
    + intros cid Hcid Hin.
      apply elem_of_joined_ids in Hin as [Hin _].
      assert (cid = w_id wr) as ->.
      { clear -Hcid.
        induction (filter (fun tr : cell * cell => w_id wr = fst tr) tmp)
          as [| tr l IH]; simpl in Hcid.
        - apply elem_of_nil in Hcid. contradiction.
        - apply elem_of_cons in Hcid as [-> | Hcid]; auto. }
      contradiction.
    + apply IH. exact Hw.
Qed.

(** The wires selected from a channel map without repeated ids have distinct
    ids. *)
Lemma NoDup_wire_ids c_id z0 y0 z1 y1 (rows : list nat) :
  NoDup c_id -> NoDup rows ->
  NoDup (map w_id (omap (wire_at c_id z0 y0 z1 y1) rows)).
Proof.
  intros Hid. induction rows as [| i rows IH]; intros Hrows; simpl.
  - constructor.
  - apply NoDup_cons in Hrows as [Hnotin Hrows].
    destruct (wire_at c_id z0 y0 z1 y1 i) as [wr |] eqn:Hwr; simpl;
      [| apply IH; exact Hrows].
    apply NoDup_cons. split; [| apply IH; exact Hrows].
    intros Hin.
    change (w_id wr ∈ w_id <$> omap (wire_at c_id z0 y0 z1 y1) rows) in Hin.
    apply list_elem_of_fmap in Hin as (wr' & Heq & Hwr').
    apply list_elem_of_omap in Hwr' as (i' & Hi' & Hwr').
    apply wire_at_id in Hwr, Hwr'. rewrite Heq in Hwr.
    assert (i = i') as ->
      by exact (NoDup_lookup c_id i i' (w_id wr') Hid Hwr Hwr').
    contradiction.
Qed.

End JoinUnique.

(** The join on tables without repeated ids. *)
Lemma merge_inner_unique_rows (cm : gmap string (list cell))
    (c_id : list cell) (mask : list bool) (wires : list wire)
    (tmp : list (cell * cell)) :
  cm !! "channel_id" = Some c_id ->
  chmap_wires cm mask = Ok wires ->
  NoDup c_id ->
  NoDup (map fst tmp) ->
  NoDup (joined_ids (merge_inner wires tmp)) /\
  NoDup (merge_inner wires tmp) /\
  forall cid, cid ∈ joined_ids (merge_inner wires tmp) <->
              cid ∈ map w_id wires /\ cid ∈ map fst tmp.
Proof.
  intros Hid Hwires Hnd Htmp.
  assert (Hw : NoDup (map w_id wires)).
  { revert Hwires. unfold chmap_wires, table_get. rewrite Hid.
    destruct (cm !! "z0") as [z0 |]; [| discriminate].
    destruct (cm !! "y0") as [y0 |]; [| discriminate].
    destruct (cm !! "z1") as [z1 |]; [| discriminate].
    destruct (cm !! "y1") as [y1 |]; [| discriminate].
    intros [= <-]. apply NoDup_wire_ids; [exact Hnd | apply NoDup_true_rows]. }
  assert (Hj : NoDup (joined_ids (merge_inner wires tmp)))
    by (apply NoDup_joined_ids; assumption).
  split; [exact Hj |]. split.
  - eapply (NoDup_fmap_1 (fun j : wire * cell => w_id (fst j))). exact Hj.
  - intros cid. apply elem_of_joined_ids.
Qed.

(** The metric rows of a plane in which no channel id occurs twice have
    distinct ids. *)
Lemma NoDup_metric_row_ids (d_id d_m d_plane : list cell) (p : nat) :
  once_per_plane d_id d_plane p ->
  NoDup (map fst (metric_rows d_id d_m (col_eq d_plane (Int (Z.of_nat p))))).
Proof.
  intros Honce. unfold metric_rows.
  assert (Hrows : forall i, i ∈ true_rows (col_eq d_plane (Int (Z.of_nat p))) ->
                            d_plane !! i = Some (Int (Z.of_nat p)))
    by (intros i; apply true_rows_col_eq).
  pose proof (NoDup_true_rows (col_eq d_plane (Int (Z.of_nat p)))) as Hnd.
  induction (true_rows (col_eq d_plane (Int (Z.of_nat p)))) as [| i rows IH];
    simpl.
  - constructor.
  - apply NoDup_cons in Hnd as [Hnotin Hnd].
    assert (IH' := IH (fun j Hj => Hrows j (list_elem_of_further _ _ _ Hj)) Hnd).
    destruct (d_id !! i) as [a |] eqn:Ha; [| exact IH'].
    destruct (d_m !! i) as [m |] eqn:Hm; [| exact IH'].
    simpl. apply NoDup_cons. split; [| exact IH'].
    intros Hin.
    match type of Hin with
    | _ ∈ map fst ?l => change (a ∈ fst <$> l) in Hin
    end.
    apply list_elem_of_fmap in Hin as (tr & Heq & Htr).
    apply list_elem_of_omap in Htr as (j & Hj & Hrow).
    destruct (d_id !! j) as [a' |] eqn:Ha'; [| discriminate].
    destruct (d_m !! j) as [m' |]; [| discriminate].
    injection Hrow as <-. simpl in Heq. subst a'.
    assert (i = j) as ->.
    { apply (Honce i j a); [apply Hrows; left | apply Hrows; right |..];
        assumption. }
    contradiction.
Qed.

(* ===================================================================== *)
(** ** Channel addressing *)
(* ===================================================================== *)

Lemma floordiv_tpc (z t : Z) :
  z / 13824 = t <-> 13824 * t <= z < 13824 * (t + 1).
Proof.
  split.
  - intros <-.
    pose proof (Z.mul_div_le z 13824 ltac:(lia)).
    pose proof (Z.mul_succ_div_gt z 13824 ltac:(lia)).
    lia.
  - intros H. symmetry.
    apply (Z.div_unique z 13824 t (z - 13824 * t)); lia.
Qed.

Lemma xlow_planes (t : Z) :
  xlow t 0 = 13824 * t /\ xlow t 1 = 13824 * t + 2304 /\
  xlow t 2 = 13824 * t + 8064 /\ sum_list nchannels = 13824.
Proof. unfold xlow, sum_list. simpl. lia. Qed.

(* ===================================================================== *)
(** ** Where exceptions come from *)
(* ===================================================================== *)

Section Exceptions.

Variable lib_raises : libcall -> option exn.

Lemma list_index_raise {A : Type} (l : list A) i e :
  list_index l i = Raise e -> underlying_exn lib_raises e.
Proof.
  unfold list_index. destruct (l !! i); [discriminate |].
  intros [= <-]. unfold underlying_exn. auto.
Qed.

Lemma dict_get_raise dict k e :
  dict_get dict k = Raise e -> underlying_exn lib_raises e.
Proof.
  unfold dict_get. destruct (dict !! k); [discriminate |].
  intros [= <-]. right. left. eauto.
Qed.

Lemma col_add_raise c1 c2 e :
  col_add c1 c2 = Raise e -> underlying_exn lib_raises e.
Proof.
  revert c2. induction c1 as [| x c1 IH]; intros [| y c2]; simpl;
    try discriminate.
  destruct (py_add x y) as [v |] eqn:Hv.
  - destruct (col_add c1 c2) as [vs |] eqn:Hvs; [discriminate |].
    intros [= <-]. eapply IH. exact Hvs.
  - intros [= <-]. destruct x, y; simpl in Hv; try discriminate;
      injection Hv as <-; unfold underlying_exn; auto.
Qed.

Lemma chmap_mask_raise c_id tpc e :
  chmap_mask c_id tpc = Raise e -> underlying_exn lib_raises e.
Proof.
  unfold chmap_mask.
  destruct (col_floordiv c_id 13824) as [q |] eqn:Hq; [discriminate |].
  intros [= <-]. revert Hq. generalize e0. clear.
  induction c_id as [| x c_id IH]; simpl; [discriminate |].
  intros e. destruct x as [z | s]; simpl.
  - destruct (col_floordiv c_id 13824) as [vs |]; [discriminate |].
    intros [= <-]. apply IH. reflexivity.
  - intros [= <-]. unfold underlying_exn. auto.
Qed.

Lemma chmap_wires_raise cm mask e :
  chmap_wires cm mask = Raise e -> underlying_exn lib_raises e.
Proof.
  unfold chmap_wires.
  repeat match goal with
         | |- context [match ?t !! ?k with _ => _ end] =>
             destruct (t !! k); [| intros [= <-]; right; left; eauto]
         end.
  discriminate.
Qed.

Lemma col_eq_val_raise col v e :
  col_eq_val col v = Raise e -> underlying_exn lib_raises e.
Proof.
  intros H. apply col_eq_val_raises in H as [-> _].
  unfold underlying_exn. auto.
Qed.

Lemma frame_merge_raise wires tmp e :
  frame_merge wires tmp = Raise e -> underlying_exn lib_raises e.
Proof.
  unfold frame_merge. destruct (keys_clash _ _); [| discriminate].
  intros [= <-]. unfold underlying_exn. auto.
Qed.

Lemma merged_col_raise metric rows e :
  merged_col metric rows = Raise e -> underlying_exn lib_raises e.
Proof.
  unfold merged_col. repeat case_bool_decide; try discriminate.
  intros [= <-]. right. left. eauto.
Qed.

Lemma choose_component_raise component n di e :
  choose_component component n di = Raise e -> underlying_exn lib_raises e.
Proof.
  unfold choose_component, py_index.
  destruct (isinstance_list component && bool_decide (py_len component = n));
    [| discriminate].
  destruct component as [s | l].
  - destruct (list_index (chars s) di) eqn:Hi; [discriminate |].
    intros [= <-]. eapply list_index_raise. exact Hi.
  - destruct (list_index l di) eqn:Hi; [discriminate |].
    intros [= <-]. eapply list_index_raise. exact Hi.
Qed.

Lemma lib_raises_underlying c e :
  lib_raises c = Some e -> underlying_exn lib_raises e.
Proof. intros H. left. eauto. Qed.

Lemma key_error_underlying k : underlying_exn lib_raises (KeyError k).
Proof. right. left. eauto. Qed.

Hint Resolve list_index_raise dict_get_raise col_add_raise chmap_mask_raise
  chmap_wires_raise merged_col_raise choose_component_raise
  col_eq_val_raise frame_merge_raise
  lib_raises_underlying key_error_underlying : core.

Lemma plot_tpc_body_exn saxs haxs labels metric tpc pi p di d w :
  wp (plot_tpc_body lib_raises saxs haxs labels metric tpc pi p di d) w
     (fun _ => True) (fun _ _ => True)
     (fun e _ => underlying_exn lib_raises e).
Proof. unfold plot_tpc_body. repeat wp_step; eauto. Qed.

Lemma plot_crate_body_exn ax n labels metric component di d w :
  wp (plot_crate_body lib_raises ax n labels metric component di d) w
     (fun _ => True) (fun s _ => is_Some s)
     (fun e _ => underlying_exn lib_raises e).
Proof. unfold plot_crate_body. repeat wp_step; eauto. Qed.

Lemma plot_wire_planes_body_exn axs data metric tpc p w :
  wp (plot_wire_planes_body lib_raises axs data metric tpc p) w
     (fun _ => True) (fun _ _ => True)
     (fun e _ => underlying_exn lib_raises e).
Proof. unfold plot_wire_planes_body. repeat wp_step; eauto. Qed.

(** The exceptions of [plot_tpc], [plot_wire_planes] and [plot_waveform] are
    those of underlying operations, unchanged; so are those of [plot_crate],
    but for the [UnboundLocalError] it raises when it has no dataset. *)
Theorem exceptions_are_underlying :
  (forall datasets labels metric tpc w e,
     res (plot_tpc lib_raises datasets labels metric tpc w) = Raise e ->
     underlying_exn lib_raises e) /\
  (forall datasets labels metric component w e,
     res (plot_crate lib_raises datasets labels metric component w) = Raise e ->
     underlying_exn lib_raises e \/
     (datasets = [] /\ e = UnboundLocalError "title")) /\
  (forall data metric metric_label tpc w e,
     res (plot_wire_planes lib_raises data metric metric_label tpc w) = Raise e ->
     underlying_exn lib_raises e) /\
  (forall waveform title w e,
     res (plot_waveform lib_raises waveform title w) = Raise e ->
     underlying_exn lib_raises e).
Proof.
  assert (Hraised : forall (A : Type) (m : M A) w P Qok (Qerr : exn -> Prop) e,
            wp m w P Qok (fun e _ => Qerr e) -> res (m w) = Raise e -> Qerr e).
  { intros A m w P Qok Qerr e [_ H] He. rewrite He in H. exact H. }
  split; [| split; [| split]].
  - intros datasets labels metric tpc w e.
    apply (Hraised _ _ w (fun _ => True) (fun _ _ => True)).
    unfold plot_tpc. repeat wp_step; eauto.
    wp_loop (fun _ : world => True); [| exact I |].
    + intros [pi p] w1 _ _.
      wp_loop (fun _ : world => True); [| exact I | auto].
      intros [di d] w2 _ _. apply plot_tpc_body_exn.
    + intros ? w1 _. repeat wp_step; auto.
  - intros datasets labels metric component w e.
    apply (Hraised _ _ w (fun _ => True) (fun _ _ => True)
             (fun e => underlying_exn lib_raises e \/
                       (datasets = [] /\ e = UnboundLocalError "title"))).
    unfold plot_crate. repeat wp_step; eauto.
    destruct datasets as [| d ds].
    + simpl. repeat wp_step; eauto.
    + unfold enumerate. rewrite imap_cons. cbn [for_fold]. wp_step.
      eapply wp_mono; [apply plot_crate_body_exn | auto | | auto].
      intros s w1 Hs. simpl.
      wp_loop (fun (s : option pyval) (_ : world) => is_Some s);
        [| exact Hs |].
      * intros [di d'] s' w2 _ _.
        eapply wp_mono; [apply plot_crate_body_exn | auto ..].
      * intros title w2 [t ->]. repeat wp_step; eauto.
  - intros data metric metric_label tpc w e.
    apply (Hraised _ _ w (fun _ => True) (fun _ _ => True)).
    unfold plot_wire_planes. repeat wp_step; eauto.
    wp_loop (fun _ : world => True); [| exact I |].
    + intros p w1 _ _. apply plot_wire_planes_body_exn.
    + intros ? w1 _. repeat wp_step; eauto.
  - intros waveform title w e.
    apply (Hraised _ _ w (fun _ => True) (fun _ _ => True)).
    unfold plot_waveform. repeat wp_step; eauto.
Qed.

End Exceptions.

(* ===================================================================== *)
(** ** Exceptions of the library are propagated *)
(* ===================================================================== *)

Section Propagation.

Variable lib_raises : libcall -> option exn.

Lemma propagates_silent {A : Type} (m : M A) :
  (forall w, log (m w) = []) -> propagates lib_raises m.
Proof. intros Hlog w k c e Hk. rewrite Hlog in Hk. discriminate Hk. Qed.

Lemma propagates_bind {A B : Type} (m : M A) (f : A -> M B) :
  propagates lib_raises m -> (forall a, propagates lib_raises (f a)) ->
  propagates lib_raises (bind m f).
Proof.
  intros Hm Hf w k c e. unfold bind.
  destruct (res (m w)) as [a | e0] eqn:Hres; simpl.
  - intros Hk Hc. apply lookup_app_Some in Hk as [Hk | [_ Hk]].
    + rewrite (Hm w k c e Hk Hc) in Hres. discriminate Hres.
    + exact (Hf a _ _ c e Hk Hc).
  - intros Hk Hc. pose proof (Hm w k c e Hk Hc) as H.
    rewrite Hres in H. injection H as <-. reflexivity.
Qed.

Lemma propagates_call c : propagates lib_raises (call lib_raises c).
Proof.
  intros w k c' e. unfold call.
  destruct (lib_raises c) as [e0 |] eqn:Hc; simpl;
    (destruct k; simpl; [intros [= <-] | discriminate]); congruence.
Qed.

Lemma propagates_plt_figure width height :
  propagates lib_raises (plt_figure lib_raises width height).
Proof.
  intros w k c' e. unfold plt_figure.
  destruct (lib_raises (Figure width height)) as [e0 |] eqn:Hc; simpl;
    (destruct k; simpl; [intros [= <-] | discriminate]); congruence.
Qed.

Lemma propagates_for_fold {A S : Type} (l : list A) (body : A -> S -> M S) :
  (forall x s, propagates lib_raises (body x s)) ->
  forall s, propagates lib_raises (for_fold l body s).
Proof.
  intros Hbody. induction l as [| x l IH]; intros s; simpl.
  - apply propagates_silent. reflexivity.
  - apply propagates_bind; [apply Hbody | exact IH].
Qed.

Lemma propagates_list_comp {A B : Type} (l : list A) (f : A -> M B) :
  (forall x, propagates lib_raises (f x)) ->
  propagates lib_raises (list_comp l f).
Proof.
  intros Hf. induction l as [| x l IH]; simpl.
  - apply propagates_silent. reflexivity.
  - apply propagates_bind; [apply Hf |]. intros y.
    apply propagates_bind; [exact IH |]. intros ys.
    apply propagates_silent. reflexivity.
Qed.

Ltac propagation :=
  repeat first
    [ apply propagates_call
    | apply propagates_plt_figure
    | apply propagates_bind; [| intros ?]
    | apply propagates_list_comp; intros ?
    | apply propagates_for_fold; intros ? ?
    | apply propagates_silent; reflexivity
    | match goal with
      | |- propagates _ (match ?x with _ => _ end) => destruct x
      | |- propagates _ ((match ?x with _ => _ end) _) => destruct x
      end
    | progress unfold add_gridspec, add_subplot, add_axes, for_each,
        plot_tpc_body, plot_crate_body, plot_wire_planes_body ].

Lemma plot_tpc_propagates datasets labels metric tpc :
  propagates lib_raises (plot_tpc lib_raises datasets labels metric tpc).
Proof. unfold plot_tpc. propagation. Qed.

Lemma plot_crate_propagates datasets labels metric component :
  propagates lib_raises (plot_crate lib_raises datasets labels metric component).
Proof. unfold plot_crate. propagation. Qed.

Lemma plot_wire_planes_propagates data metric metric_label tpc :
  propagates lib_raises
    (plot_wire_planes lib_raises data metric metric_label tpc).
Proof. unfold plot_wire_planes. propagation. Qed.

Lemma plot_waveform_propagates waveform title :
  propagates lib_raises (plot_waveform lib_raises waveform title).
Proof. unfold plot_waveform. propagation. Qed.

End Propagation.

(** A call into the plotting library that raises ends the procedure with the
    exception it raised: none of the four procedures catches or replaces
    one. *)
Theorem library_exceptions_are_propagated (lib_raises : libcall -> option exn) :
  (forall datasets labels metric tpc,
     propagates lib_raises (plot_tpc lib_raises datasets labels metric tpc)) /\
  (forall datasets labels metric component,
     propagates lib_raises
       (plot_crate lib_raises datasets labels metric component)) /\
  (forall data metric metric_label tpc,
     propagates lib_raises
       (plot_wire_planes lib_raises data metric metric_label tpc)) /\
  (forall waveform title,
     propagates lib_raises (plot_waveform lib_raises waveform title)).
Proof.
  split; [| split; [| split]]; intros.
  - apply plot_tpc_propagates.
  - apply plot_crate_propagates.
  - apply plot_wire_planes_propagates.
  - apply plot_waveform_propagates.
Qed.

(* ===================================================================== *)
(** ** Calls a returning procedure has made *)
(* ===================================================================== *)

Section Reaches.

Variable lib_raises : libcall -> option exn.
Variable Phi : libcall -> Prop.

Lemma reaches_bind_here {A B : Type} (m : M A) (f : A -> M B) w :
  reaches m w Phi -> reaches (bind m f) w Phi.
Proof.
  unfold reaches, bind. intros Hm [v Hv].
  destruct (res (m w)) as [a | e] eqn:Hr; simpl in *; [| discriminate].
  destruct Hm as (k & c & Hk & Hc); [eauto |].
  exists k, c. split; [| exact Hc].
  apply lookup_app_l_Some. exact Hk.
Qed.

Lemma reaches_bind_later {A B : Type} (m : M A) (f : A -> M B) w
    (Qok : A -> world -> Prop) :
  wp m w (fun _ => True) Qok (fun _ _ => True) ->
  (forall a w1, Qok a w1 -> reaches (f a) w1 Phi) ->
  reaches (bind m f) w Phi.
Proof.
  unfold reaches, bind, wp. intros [_ Hm] Hf [v Hv].
  destruct (res (m w)) as [a | e] eqn:Hr; simpl in *; [| discriminate].
  destruct (Hf a _ Hm) as (k & c & Hk & Hc); [eauto |].
  exists (length (log (m w)) + k)%nat, c. split; [| exact Hc].
  rewrite lookup_app_r by lia.
  replace (length (log (m w)) + k - length (log (m w)))%nat with k by lia.
  exact Hk.
Qed.

Lemma reaches_raise {A : Type} (e : exn) w : reaches (@raise A e) w Phi.
Proof. intros [v Hv]. discriminate Hv. Qed.

Lemma reaches_call c w : Phi c -> reaches (call lib_raises c) w Phi.
Proof.
  intros Hc _. exists 0%nat, c. split; [| exact Hc].
  unfold call. destruct (lib_raises c); reflexivity.
Qed.

Lemma reaches_for_fold {A S : Type} (l : list A) (body : A -> S -> M S)
    (Inv : S -> world -> Prop) (i : nat) (x : A) :
  l !! i = Some x ->
  (forall y s w, y ∈ l -> Inv s w ->
                 wp (body y s) w (fun _ => True) Inv (fun _ _ => True)) ->
  (forall s w, Inv s w -> reaches (body x s) w Phi) ->
  forall s w, Inv s w -> reaches (for_fold l body s) w Phi.
Proof.
  revert i. induction l as [| y l IH]; intros i Hi Hinv Hx s w Hs;
    [discriminate Hi |].
  simpl. destruct i as [| i]; simpl in Hi.
  - injection Hi as ->. apply reaches_bind_here. apply Hx. exact Hs.
  - eapply reaches_bind_later.
    + apply Hinv; [left | exact Hs].
    + intros s' w' Hs'. apply (IH i Hi); [| exact Hx | exact Hs'].
      intros z s'' w'' Hz. apply Hinv. right. exact Hz.
Qed.

(** What the statements of the procedures leave behind when they return. *)
Lemma sp_call c w :
  wp (call lib_raises c) w (fun _ => True) (fun _ w1 => w1 = w)
     (fun _ _ => True).
Proof. wp_step; auto. Qed.

Lemma sp_plt_figure width height w :
  wp (plt_figure lib_raises width height) w (fun _ => True)
     (fun fig w1 => fig = nfigs w /\ dsets w1 = dsets w)
     (fun _ _ => True).
Proof. wp_step; auto. Qed.

Lemma sp_lift {A : Type} (r : result A) w :
  wp (lift r) w (fun _ => True) (fun a w1 => w1 = w /\ r = Ok a)
     (fun _ _ => True).
Proof. wp_step; auto. Qed.

Lemma sp_getitem d name w :
  wp (getitem d name) w (fun _ => True)
     (fun col w1 => w1 = w /\ dtable (dsets w d) !! name = Some col)
     (fun _ _ => True).
Proof. wp_step; auto. Qed.

Lemma sp_chmap_getitem d name w :
  wp (chmap_getitem d name) w (fun _ => True)
     (fun col w1 => w1 = w /\ chmap (dsets w d) !! name = Some col)
     (fun _ _ => True).
Proof. wp_step; auto. Qed.

Lemma sp_read_chmap d w :
  wp (read_chmap d) w (fun _ => True)
     (fun cm w1 => w1 = w /\ cm = chmap (dsets w d)) (fun _ _ => True).
Proof. wp_step; auto. Qed.

Lemma sp_add_gridspec fig nrows ncols w :
  wp (add_gridspec lib_raises fig nrows ncols) w (fun _ => True)
     (fun g w1 => w1 = w /\ g = Cell nrows ncols) (fun _ _ => True).
Proof. repeat wp_step; auto. Qed.

Lemma sp_add_subplot fig pos w :
  wp (add_subplot lib_raises fig pos) w (fun _ => True)
     (fun ax w1 => w1 = w /\ ax = Axes fig pos) (fun _ _ => True).
Proof. repeat wp_step; auto. Qed.

Lemma sp_subplots fig (pos : nat -> subplot) (l : list nat) w :
  wp (list_comp l (fun i => add_subplot lib_raises fig (pos i))) w
     (fun _ => True)
     (fun axs w1 => w1 = w /\ axs = map (fun i => Axes fig (pos i)) l)
     (fun _ _ => True).
Proof.
  induction l as [| i l IH]; simpl.
  - wp_step. auto.
  - wp_step. eapply wp_mono; [apply sp_add_subplot | auto | | auto].
    intros ax w1 [-> ->]. wp_step.
    eapply wp_mono; [apply IH | auto | | auto].
    intros axs w1 [-> ->]. wp_step. auto.
Qed.

End Reaches.

(** One step of a returning run: past a statement, remembering what it
    returned and that it left the store alone. *)
Ltac reach_later :=
  eapply reaches_bind_later;
  [ first [ apply sp_call | apply sp_plt_figure
          | apply sp_getitem | apply sp_chmap_getitem | apply sp_read_chmap
          | apply sp_lift
          | apply sp_add_gridspec | apply sp_subplots | apply sp_add_subplot ]
  | cbv beta; intros ? ? ?;
    repeat match goal with
           | H : _ /\ _ |- _ => destruct H
           end;
    subst ].

Ltac reach_here := apply reaches_bind_here; apply reaches_call.

Lemma wp_trivial {A : Type} (m : M A) w :
  wp m w (fun _ => True) (fun _ _ => True) (fun _ _ => True).
Proof.
  split.
  - apply Forall_forall. auto.
  - destruct (res (m w)); exact I.
Qed.

Lemma lookup_enumerate {A : Type} (l : list A) (i : nat) (x : A) :
  l !! i = Some x -> enumerate l !! i = Some (i, x).
Proof.
  intros H. unfold enumerate. rewrite list_lookup_imap, H. reflexivity.
Qed.

Section TpcReaches.

Variable lib_raises : libcall -> option exn.

Lemma plot_tpc_body_keeps_store saxs haxs labels metric tpc pi p di d w0 w :
  dsets w = dsets w0 ->
  wp (plot_tpc_body lib_raises saxs haxs labels metric tpc pi p di d) w
     (fun _ => True) (fun _ w' => dsets w' = dsets w0) (fun _ _ => True).
Proof. intros Hw. unfold plot_tpc_body. repeat wp_step; auto. Qed.

Lemma plot_tpc_body_sets_xlim fig labels metric tpc pi p di d w n :
  nchannels !! pi = Some n ->
  reaches (plot_tpc_body lib_raises (saxs_of fig) (haxs_of fig) labels metric
             tpc pi p di d) w
          (fun c => c = SetXlim (Axes fig (Cell 3 8 pi 0 6))
                              (Zn (xlow tpc pi)) (Zn (xlow tpc pi + n))).
Proof.
  intros Hn. unfold plot_tpc_body.
  do 7 reach_later. do 2 reach_later. reach_here.
  repeat match goal with
         | H : list_index (saxs_of _) _ = Ok _ |- _ =>
             apply saxs_of_index in H as [? ->]
         | H : list_index nchannels _ = Ok _ |- _ =>
             unfold list_index in H; rewrite Hn in H; injection H as <-
         end.
  reflexivity.
Qed.

Lemma planes_lookup pi n :
  nchannels !! pi = Some n -> exists p, planes !! pi = Some p.
Proof.
  destruct pi as [| [| [| pi]]]; simpl; try discriminate; eauto.
Qed.

Lemma plot_tpc_sets_xlim datasets labels metric tpc w pi n di d :
  nchannels !! pi = Some n -> datasets !! di = Some d ->
  reaches (plot_tpc lib_raises datasets labels metric tpc) w
          (fun c => c = SetXlim (Axes (nfigs w) (Cell 3 8 pi 0 6))
                              (Zn (xlow tpc pi)) (Zn (xlow tpc pi + n))).
Proof.
  intros Hn Hd. destruct (planes_lookup pi n Hn) as [p Hp].
  unfold plot_tpc. do 5 reach_later.
  apply reaches_bind_here. unfold for_each.
  apply (reaches_for_fold _ _ _ (fun _ _ => True) pi (pi, p));
    [apply lookup_enumerate; exact Hp | intros; apply wp_trivial | | exact I].
  intros _ wa _.
  apply (reaches_for_fold _ _ _ (fun _ _ => True) di (di, d));
    [apply lookup_enumerate; exact Hd | intros; apply wp_trivial | | exact I].
  intros _ wb _. apply (plot_tpc_body_sets_xlim (nfigs w)). exact Hn.
Qed.

End TpcReaches.

Section TpcPlots.

Variable lib_raises : libcall -> option exn.

Lemma plot_tpc_body_scatters fig labels metric tpc pi p di d w :
  reaches (plot_tpc_body lib_raises (saxs_of fig) (haxs_of fig) labels metric
             tpc pi p di d) w
          (plane_scatter (dtable (dsets w d)) labels metric tpc fig pi di).
Proof.
  unfold plot_tpc_body. do 6 reach_later. reach_here.
  indexed. apply plane_scatter_intro; assumption.
Qed.

Lemma plot_tpc_body_histograms fig labels metric tpc pi p di d w :
  reaches (plot_tpc_body lib_raises (saxs_of fig) (haxs_of fig) labels metric
             tpc pi p di d) w
          (plane_hist (dtable (dsets w d)) labels metric tpc fig pi di).
Proof.
  unfold plot_tpc_body. do 25 reach_later. reach_here.
  indexed. apply plane_hist_intro; assumption.
Qed.

Lemma plot_tpc_reaches_body datasets labels metric tpc w pi p di d
    (Phi : libcall -> Prop) :
  planes !! pi = Some p -> datasets !! di = Some d ->
  (forall w', dsets w' = dsets w ->
     reaches (plot_tpc_body lib_raises (saxs_of (nfigs w)) (haxs_of (nfigs w))
                labels metric tpc pi p di d) w' Phi) ->
  reaches (plot_tpc lib_raises datasets labels metric tpc) w Phi.
Proof.
  intros Hp Hd Hbody.
  unfold plot_tpc. do 5 reach_later.
  apply reaches_bind_here. unfold for_each.
  assert (Hinner : forall (pp : nat * string) w',
            dsets w' = dsets w ->
            wp (for_fold (enumerate datasets)
                  (fun (x : nat * loc) (_ : unit) =>
                     let '(di, d) := x in
                     plot_tpc_body lib_raises (saxs_of (nfigs w))
                       (haxs_of (nfigs w)) labels metric tpc pp.1 pp.2 di d) tt)
               w' (fun _ => True) (fun _ w'' => dsets w'' = dsets w)
               (fun _ _ => True)).
  { intros pp w' Hw'.
    apply (wp_for_fold (fun _ => True) _ _ (fun _ w'' => dsets w'' = dsets w));
      [| exact Hw'].
    intros [di' d'] [] w'' _ Hw''. apply plot_tpc_body_keeps_store. exact Hw''. }
  apply (reaches_for_fold _ _ _ (fun _ w' => dsets w' = dsets w) pi (pi, p));
    [apply lookup_enumerate; exact Hp | | | assumption].
  - intros [pi' p'] [] w' _ Hw'. apply (Hinner (pi', p')). exact Hw'.
  - intros _ wa Hwa.
    apply (reaches_for_fold _ _ _ (fun _ w' => dsets w' = dsets w) di (di, d));
      [apply lookup_enumerate; exact Hd | | | exact Hwa].
    + intros [di' d'] [] w' _ Hw'. apply plot_tpc_body_keeps_store. exact Hw'.
    + intros _ wb Hwb. apply Hbody. exact Hwb.
Qed.

End TpcPlots.

Section CrateAndWireReaches.

Variable lib_raises : libcall -> option exn.

Lemma plot_crate_body_keeps_store ax n labels metric component di d w0 w :
  dsets w = dsets w0 ->
  wp (plot_crate_body lib_raises ax n labels metric component di d) w
     (fun _ => True) (fun _ w' => dsets w' = dsets w0) (fun _ _ => True).
Proof. intros Hw. unfold plot_crate_body. repeat wp_step; auto. Qed.

Lemma plot_crate_body_scatters ax n labels metric component di d w :
  reaches (plot_crate_body lib_raises ax n labels metric component di d) w
          (fun c => exists cv title,
                      choose_component component n di = Ok (cv, title) /\
                      crate_scatter (dtable (dsets w d)) labels metric cv di c).
Proof.
  unfold plot_crate_body. do 8 reach_later. reach_here.
  match goal with
  | H : choose_component _ _ _ = Ok ?a |- _ => destruct a as [cv title]
  end.
  cbn [fst snd] in *.
  match goal with
  | H : list_index labels _ = Ok _ |- _ => apply list_index_Some in H
  end.
  exists cv, title. split; [assumption |].
  do 4 eexists.
  match goal with
  | H : col_eq_val _ cv = Ok ?mask |- _ => exists (true_rows mask)
  end.
  split; [reflexivity |]. split; [eassumption |].
  intros Hwf.
  match goal with
  | Hfl : _ !! "flange" = Some ?fl, Hbo : _ !! "board" = Some ?bo,
    Hch : _ !! "ch" = Some ?ch, Hm : _ !! metric = Some ?m,
    Hmask : col_eq_val ?fl cv = Ok ?mask,
    Hxs : col_add _ _ = Ok ?xs |- _ =>
      destruct (crate_selection _ cv fl bo ch m mask xs Hwf Hfl Hbo Hch
                  Hmask Hxs)
        as (Hrows & Hx & Hy);
      split; [exact Hrows |]; split; [exact Hx |]; apply Hy; exact Hm
  end.
Qed.

Lemma plot_crate_scatters_every_dataset datasets labels metric component w
    di d :
  datasets !! di = Some d ->
  reaches (plot_crate lib_raises datasets labels metric component) w
          (fun c => exists cv title,
                      choose_component component (length datasets) di
                        = Ok (cv, title) /\
                      crate_scatter (dtable (dsets w d)) labels metric cv di c).
Proof.
  intros Hd. unfold plot_crate. do 3 reach_later.
  apply reaches_bind_here.
  apply (reaches_for_fold _ _ _ (fun _ w' => dsets w' = dsets w) di (di, d));
    [apply lookup_enumerate; exact Hd | | | assumption].
  - intros [di' d'] s w' _ Hw'. apply plot_crate_body_keeps_store. exact Hw'.
  - intros s wa Hwa. rewrite <- Hwa. apply plot_crate_body_scatters.
Qed.

Lemma plot_crate_titles datasets labels metric component w :
  reaches (plot_crate lib_raises datasets labels metric component) w
          (fun c => exists t, c = Suptitle (nfigs w) t).
Proof.
  unfold plot_crate. do 3 reach_later.
  eapply reaches_bind_later; [apply wp_trivial |].
  intros title wa _. do 6 reach_later.
  destruct title as [t |].
  - reach_here. eauto.
  - apply reaches_raise.
Qed.

Lemma plot_wire_planes_body_keeps_store axs data metric tpc p w0 w :
  dsets w = dsets w0 ->
  wp (plot_wire_planes_body lib_raises axs data metric tpc p) w
     (fun _ => True) (fun _ w' => dsets w' = dsets w0) (fun _ _ => True).
Proof. intros Hw. unfold plot_wire_planes_body. repeat wp_step; auto. Qed.

Lemma plot_wire_planes_body_adds fig data metric tpc p w :
  reaches (plot_wire_planes_body lib_raises (axs_of fig) data metric tpc p) w
          (plane_collection (dsets w data) metric tpc fig p).
Proof.
  unfold plot_wire_planes_body. do 12 reach_later. reach_here.
  repeat match goal with
         | H : list_index (axs_of _) _ = Ok _ |- _ =>
             apply axs_of_index in H as [? ->]
         | H : frame_merge _ _ = Ok _ |- _ =>
             apply frame_merge_Ok in H as ->
         end.
  do 5 eexists. split; [reflexivity |].
  split; [eapply chmap_wires_rows; eassumption |].
  split; [apply metric_rows_plane; eassumption |].
  split; [intros j; apply elem_of_merge_inner | reflexivity].
Qed.

Lemma plot_wire_planes_adds_every_plane data metric metric_label tpc w p :
  (p < 3)%nat ->
  reaches (plot_wire_planes lib_raises data metric metric_label tpc) w
          (plane_collection (dsets w data) metric tpc (nfigs w) p).
Proof.
  intros Hp. unfold plot_wire_planes. do 6 reach_later.
  apply reaches_bind_here. unfold for_each.
  apply (reaches_for_fold _ _ _ (fun _ w' => dsets w' = dsets w) p p);
    [| | | assumption].
  - destruct p as [| [| [| p]]]; simpl; (reflexivity || lia).
  - intros p' [] w' _ Hw'. apply plot_wire_planes_body_keeps_store. exact Hw'.
  - intros _ wa Hwa. rewrite <- Hwa. apply plot_wire_planes_body_adds.
Qed.

Lemma choose_component_whole (l : list string) (n di : nat) :
  length l <> n ->
  choose_component (VList l) n di = Ok (VList l, VList l).
Proof.
  intros Hlen. unfold choose_component. simpl.
  rewrite bool_decide_eq_false_2 by exact Hlen. reflexivity.
Qed.

(** A list of another length than [datasets] that has not one entry per row
    of the first dataset: the comparison of the first iteration raises. *)
Lemma plot_crate_list_mismatch d ds labels metric l fl w :
  length l <> length (d :: ds) ->
  (forall c, setup_call c -> lib_raises c = None) ->
  dtable (dsets w d) !! "flange" = Some fl -> length l <> length fl ->
  wp (plot_crate lib_raises (d :: ds) labels metric (VList l)) w
     (fun _ => True) (fun _ _ => False) (fun e _ => e = ValueError).
Proof.
  intros Hlen Hsetup Hfl Hrows.
  assert (Hno : forall c e, setup_call c -> lib_raises c = Some e -> False).
  { intros c e Hc He. rewrite (Hsetup c Hc) in He. discriminate He. }
  unfold plot_crate.
  repeat wp_step; try exact I;
    try (exfalso; eapply Hno; [| eassumption]; exact I).
  unfold enumerate at 1. rewrite imap_cons. cbn [for_fold]. wp_step.
  unfold plot_crate_body at 1.
  rewrite choose_component_whole by exact Hlen.
  wp_step. apply wp_lift; [intros ct Hct | intros e He; discriminate He].
  injection Hct as <-. cbn [fst snd].
  wp_step. apply wp_getitem; [intros col Hcol | intros Hnone].
  - simpl in Hcol. rewrite Hfl in Hcol. injection Hcol as <-.
    wp_step. apply wp_lift; [intros mask Hmask | intros e He].
    + apply col_eq_val_rows in Hmask as [_ [Hm _]]. contradiction.
    + apply col_eq_val_raises in He as [-> _]. reflexivity.
  - simpl in Hnone. rewrite Hfl in Hnone. discriminate Hnone.
Qed.

End CrateAndWireReaches.

(* ===================================================================== *)
(** ** Properties of the four procedures *)
(* ===================================================================== *)



(** C2.  Every scatter and every histogram [plot_tpc] draws is that of one
    plane [pi] in 0..2 and one dataset [d] of [datasets], on the axes of that
    plane; (the table having one cell per row in every column) its points are
    the [channel_id] and metric cells, its entries the metric cells, of
    exactly the rows of [d] whose [tpc] equals the argument and whose [plane]
    equals [pi]: one per such row, and of no other row.  And when [plot_tpc]
    returns, it has drawn this scatter and this histogram for every plane and
    every dataset. *)
Theorem plot_tpc_plots_exactly_the_plane_rows
    (lib_raises : libcall -> option exn) (datasets : list loc)
    (labels : list string) (metric : string) (tpc : Z) (w : world) :
  (forall k c,
     log (plot_tpc lib_raises datasets labels metric tpc w) !! k = Some c ->
     plots_plane_rows w datasets labels metric tpc c) /\
  (forall v pi di d,
     res (plot_tpc lib_raises datasets labels metric tpc w) = Ok v ->
     (pi < 3)%nat -> datasets !! di = Some d ->
     exists k1 c1 k2 c2,
       log (plot_tpc lib_raises datasets labels metric tpc w) !! k1 = Some c1 /\
       plane_scatter (dtable (dsets w d)) labels metric tpc (nfigs w) pi di
                     c1 /\
       log (plot_tpc lib_raises datasets labels metric tpc w) !! k2 = Some c2 /\
       plane_hist (dtable (dsets w d)) labels metric tpc (nfigs w) pi di c2).
Proof.
  split.
  - intros k c Hk.
    exact (wp_log _ _ _ _ _ _ _
             (plot_tpc_rows_wp lib_raises datasets labels metric tpc w) Hk).
  - intros v pi di d Hv Hpi Hd.
    assert (Hp : exists p, planes !! pi = Some p).
    { destruct pi as [| [| [| pi]]]; simpl; eauto. lia. }
    destruct Hp as [p Hp].
    destruct (plot_tpc_reaches_body lib_raises datasets labels metric tpc w
                pi p di d
                (plane_scatter (dtable (dsets w d)) labels metric tpc
                               (nfigs w) pi di) Hp Hd)
      as (k1 & c1 & Hk1 & Hc1); [| eauto |].
    { intros w' Hw'. rewrite <- Hw'. apply plot_tpc_body_scatters. }
    destruct (plot_tpc_reaches_body lib_raises datasets labels metric tpc w
                pi p di d
                (plane_hist (dtable (dsets w d)) labels metric tpc
                            (nfigs w) pi di) Hp Hd)
      as (k2 & c2 & Hk2 & Hc2); [| eauto |].
    { intros w' Hw'. rewrite <- Hw'. apply plot_tpc_body_histograms. }
    exists k1, c1, k2, c2. auto.
Qed.

Lemma plot_tpc_plots_exactly_the_plane_rows_witness :
  plots_plane_rows sample_world [0%nat] ["run A"] "rawrms" 0
    (Scatter (Axes 0 (Cell 3 8 0 0 6)) [Int 5; Int 7] [Int 3; Int 6] "run A") /\
  (exists k1 c1 k2 c2,
     log (plot_tpc quiet [0%nat] ["run A"] "rawrms" 0 sample_world) !! k1
       = Some c1 /\
     plane_scatter (dtable (dsets sample_world 0%nat)) ["run A"] "rawrms" 0
                   (nfigs sample_world) 1 0 c1 /\
     log (plot_tpc quiet [0%nat] ["run A"] "rawrms" 0 sample_world) !! k2
       = Some c2 /\
     plane_hist (dtable (dsets sample_world 0%nat)) ["run A"] "rawrms" 0
                (nfigs sample_world) 1 0 c2).
Proof.
  destruct (plot_tpc_plots_exactly_the_plane_rows quiet [0%nat] ["run A"]
              "rawrms" 0 sample_world) as [Hsound Hcomplete].
  split.
  - apply (Hsound 9%nat). vm_compute. reflexivity.
  - apply (Hcomplete PyNone 1%nat 0%nat 0%nat);
      [vm_compute; reflexivity | lia | reflexivity].
Defined.

(** C3.  Every line collection [plot_wire_planes] adds is that of one plane
    [p] in 0..2, on the axes of that plane: its segments are those of the
    rows of the inner join, on the channel id, of the channel-map rows whose
    channel id integer-divided by 13824 is [tpc] with the metric rows whose
    plane is [p].  When [plot_wire_planes] returns, it has added this
    collection for every plane.  Every row of such a join carries a channel id
    that is in both filtered tables, so an id in only one of them gives no
    segment. *)
Theorem plot_wire_planes_draws_the_inner_join
    (lib_raises : libcall -> option exn) (data : loc)
    (metric metric_label : string) (tpc : Z) (w : world) :
  (forall k ax segs cs,
     log (plot_wire_planes lib_raises data metric metric_label tpc w) !! k
       = Some (AddCollection ax segs cs) ->
     exists p,
       (p < 3)%nat /\
       plane_collection (dsets w data) metric tpc (ax_fig ax) p
                        (AddCollection ax segs cs)) /\
  (forall v p,
     res (plot_wire_planes lib_raises data metric metric_label tpc w) = Ok v ->
     (p < 3)%nat ->
     exists k c,
       log (plot_wire_planes lib_raises data metric metric_label tpc w) !! k
         = Some c /\
       plane_collection (dsets w data) metric tpc (nfigs w) p c) /\
  (forall wires tmp joined,
     inner_join_on_channel wires tmp joined ->
     Forall (fun j => w_id (fst j) ∈ map w_id wires /\
                      w_id (fst j) ∈ map fst tmp) joined).
Proof.
  split; [| split].
  - intros k ax segs cs Hk.
    pose proof (wp_log _ _ _ _ _ _ _
                  (plot_wire_planes_calls_wp lib_raises data metric
                     metric_label tpc w) Hk) as Hc.
    destruct (Hc ax segs cs eq_refl)
      as (p & c_id & mask & wires & d_id & d_m & d_plane &
          Hp & Hax & Hid & Hmask & Hwires & Hdid & Hdm & Hdp & ->).
    exists p. split; [exact Hp |].
    do 5 eexists. split.
    { destruct ax as [fig pos]. simpl in Hax. subst pos. reflexivity. }
    split; [eapply chmap_wires_rows; eassumption |].
    split; [apply metric_rows_plane; eassumption |].
    split; [intros j; apply elem_of_merge_inner | reflexivity].
  - intros v p Hv Hp.
    apply (plot_wire_planes_adds_every_plane lib_raises data metric
             metric_label tpc w p Hp). eauto.
  - intros wires tmp joined Hjoin.
    apply Forall_forall. intros j Hj.
    apply Hjoin in Hj as (wr & tr & Hwr & Htr & Hkey & ->).
    simpl. split.
    + apply list_elem_of_fmap. eauto.
    + rewrite Hkey. apply list_elem_of_fmap. eauto.
Qed.

Lemma plot_wire_planes_draws_the_inner_join_witness :
  (exists p,
     (p < 3)%nat /\
     plane_collection (dsets sample_world 0%nat) "rawrms" 0 0 p
       (AddCollection (Axes 0 (Cell 3 10 0 0 9))
          [((Int (-800), Int (-180)), (Int (-800), Int 130));
           ((Int (-700), Int (-180)), (Int (-700), Int 130))]
          [Int 3; Int 6])) /\
  (exists k c,
     log (plot_wire_planes quiet 0%nat "rawrms" "RMS [ADC]" 0 sample_world)
       !! k = Some c /\
     plane_collection (dsets sample_world 0%nat) "rawrms" 0
                      (nfigs sample_world) 2 c).
Proof.
  destruct (plot_wire_planes_draws_the_inner_join quiet 0%nat "rawrms"
              "RMS [ADC]" 0 sample_world) as (Hsound & Hcomplete & _).
  split.
  - apply (Hsound 10%nat (Axes 0 (Cell 3 10 0 0 9))). vm_compute. reflexivity.
  - apply (Hcomplete PyNone 2%nat); [vm_compute; reflexivity | lia].
Defined.

(** C4.  When no channel id occurs twice in the channel map, nor twice among
    the metric rows of any one plane, the inner join whose segments
    [plot_wire_planes] draws for a plane has no two rows with the same channel
    id (so no row twice), and the ids of its rows are exactly the ids present
    in both filtered tables: one output row per matched channel id. *)
Theorem plot_wire_planes_join_has_one_row_per_channel
    (lib_raises : libcall -> option exn) (data : loc)
    (metric metric_label : string) (tpc : Z) (w : world) (k : nat)
    (ax : axes) (segs : list segment) (cs : list cell)
    (c_id d_id d_plane : list cell) :
  log (plot_wire_planes lib_raises data metric metric_label tpc w) !! k
    = Some (AddCollection ax segs cs) ->
  chmap (dsets w data) !! "channel_id" = Some c_id ->
  NoDup c_id ->
  dtable (dsets w data) !! "channel_id" = Some d_id ->
  dtable (dsets w data) !! "plane" = Some d_plane ->
  (forall p, once_per_plane d_id d_plane p) ->
  exists p wires tmp joined,
    (p < 3)%nat /\ ax_pos ax = Cell 3 10 p 0 9 /\
    chmap_rows_of_tpc (chmap (dsets w data)) tpc wires /\
    metric_rows_of_plane (dtable (dsets w data)) metric p tmp /\
    inner_join_on_channel wires tmp joined /\
    segs = map segment_of joined /\
    NoDup (joined_ids joined) /\
    NoDup joined /\
    forall cid, cid ∈ joined_ids joined <->
                cid ∈ map w_id wires /\ cid ∈ map fst tmp.
Proof.
  intros Hk Hcid Hnd Hdid Hdplane Honce.
  pose proof (wp_log _ _ _ _ _ _ _
                (plot_wire_planes_calls_wp lib_raises data metric metric_label
                   tpc w) Hk) as Hc.
  destruct (Hc ax segs cs eq_refl)
    as (p & c_id' & mask & wires & d_id' & d_m & d_plane' &
        Hp & Hax & Hid & Hmask & Hwires & Hdid' & Hdm & Hdp & ->).
  assert (c_id' = c_id) as -> by congruence.
  assert (d_id' = d_id) as -> by congruence.
  assert (d_plane' = d_plane) as -> by congruence.
  destruct (merge_inner_unique_rows _ c_id mask wires
              (metric_rows d_id d_m (col_eq d_plane (Int (Z.of_nat p))))
              Hid Hwires Hnd (NoDup_metric_row_ids d_id d_m d_plane p (Honce p)))
    as (H1 & H2 & H3).
  exists p, wires, (metric_rows d_id d_m (col_eq d_plane (Int (Z.of_nat p)))),
    (merge_inner wires
       (metric_rows d_id d_m (col_eq d_plane (Int (Z.of_nat p))))).
  split; [exact Hp |]. split; [exact Hax |].
  split; [eapply chmap_wires_rows; eassumption |].
  split; [apply metric_rows_plane; assumption |].
  split; [intros j; apply elem_of_merge_inner |].
  split; [reflexivity |]. auto.
Qed.

Lemma plot_wire_planes_join_has_one_row_per_channel_witness :
  exists p wires tmp joined,
    (p < 3)%nat /\ ax_pos (Axes 0 (Cell 3 10 0 0 9)) = Cell 3 10 p 0 9 /\
    chmap_rows_of_tpc (chmap (dsets sample_world 0%nat)) 0 wires /\
    metric_rows_of_plane (dtable (dsets sample_world 0%nat)) "rawrms" p tmp /\
    inner_join_on_channel wires tmp joined /\
    [((Int (-800), Int (-180)), (Int (-800), Int 130));
     ((Int (-700), Int (-180)), (Int (-700), Int 130))]
      = map segment_of joined /\
    NoDup (joined_ids joined) /\
    NoDup joined /\
    forall cid, cid ∈ joined_ids joined <->
                cid ∈ map w_id wires /\ cid ∈ map fst tmp.
Proof.
  assert (Hids : NoDup [Int 5; Int 2400; Int 13830; Int 7]).
  { apply (bool_decide_unpack (NoDup [Int 5; Int 2400; Int 13830; Int 7])).
    vm_compute. exact I. }
  apply (plot_wire_planes_join_has_one_row_per_channel quiet 0%nat "rawrms"
           "RMS [ADC]" 0 sample_world 10 _ _ [Int 3; Int 6]
           [Int 5; Int 7; Int 9; Int 13830]
           [Int 5; Int 2400; Int 13830; Int 7]
           [Int 0; Int 1; Int 0; Int 0]).
  - vm_compute. reflexivity.
  - vm_compute. reflexivity.
  - apply (bool_decide_unpack (NoDup [Int 5; Int 7; Int 9; Int 13830])).
    vm_compute. exact I.
  - vm_compute. reflexivity.
  - vm_compute. reflexivity.
  - intros p i j x _ _ Hi Hj.
    exact (NoDup_lookup _ i j x Hids Hi Hj).
Defined.

(** C5.  Every [set_xlim] call of [plot_tpc] on the scatter axes of plane
    [p] (row [p], columns 0 to 6 of the 3 by 8 grid) has the range
    [[xlow, xlow + nchannels[p]]] with
    [xlow = 13824*tpc + sum(nchannels[:p])]; when [plot_tpc] returns and has
    a dataset, it has set this range for each of the three planes; the three
    lower limits are [13824*tpc], [13824*tpc + 2304] and
    [13824*tpc + 8064]. *)
Theorem plot_tpc_xlim (lib_raises : libcall -> option exn)
    (datasets : list loc) (labels : list string) (metric : string) (tpc : Z)
    (w : world) :
  (forall k fig p lo hi,
     log (plot_tpc lib_raises datasets labels metric tpc w) !! k
       = Some (SetXlim (Axes fig (Cell 3 8 p 0 6)) lo hi) ->
     (p < 3)%nat /\ lo = Zn (xlow tpc p) /\
     exists n, nchannels !! p = Some n /\ hi = Zn (xlow tpc p + n)) /\
  (forall v di d p n,
     res (plot_tpc lib_raises datasets labels metric tpc w) = Ok v ->
     datasets !! di = Some d -> nchannels !! p = Some n ->
     exists k,
       log (plot_tpc lib_raises datasets labels metric tpc w) !! k
         = Some (SetXlim (Axes (nfigs w) (Cell 3 8 p 0 6))
                         (Zn (xlow tpc p)) (Zn (xlow tpc p + n)))) /\
  xlow tpc 0 = 13824 * tpc /\
  xlow tpc 1 = 13824 * tpc + 2304 /\
  xlow tpc 2 = 13824 * tpc + 8064.
Proof.
  split; [| split].
  - intros k fig p lo hi Hk.
    eapply (wp_log _ _ _ _ _ _ _
              (plot_tpc_xlim_wp lib_raises datasets labels metric tpc w) Hk).
    reflexivity.
  - intros v di d p n Hv Hd Hn.
    destruct (plot_tpc_sets_xlim lib_raises datasets labels metric tpc w
                p n di d Hn Hd) as (k & c & Hk & ->); [eauto |].
    exists k. exact Hk.
  - destruct (xlow_planes tpc) as (H0 & H1 & H2 & _). auto.
Qed.

Lemma plot_tpc_xlim_witness :
  ((1 < 3)%nat /\ Zn 16128 = Zn (xlow 1 1) /\
   exists n, nchannels !! 1%nat = Some n /\ Zn 21888 = Zn (xlow 1 1 + n)) /\
  (exists k,
     log (plot_tpc quiet [0%nat] ["run A"] "rawrms" 1 sample_world) !! k
       = Some (SetXlim (Axes (nfigs sample_world) (Cell 3 8 2 0 6))
                       (Zn (xlow 1 2)) (Zn (xlow 1 2 + 5760)))).
Proof.
  destruct (plot_tpc_xlim quiet [0%nat] ["run A"] "rawrms" 1 sample_world)
    as (Hsound & Hcomplete & _).
  split.
  - apply (Hsound 22%nat 0%nat 1%nat (Zn 16128) (Zn 21888)).
    vm_compute. reflexivity.
  - apply (Hcomplete PyNone 0%nat 0%nat 2%nat 5760);
      [vm_compute; reflexivity | reflexivity | reflexivity].
Defined.

(** C6, as the code has it.  Every call to one of the four procedures that
    returns has registered exactly one new figure with pyplot, and returns
    [None]: the figure is not handed to the caller. *)
Theorem returning_call_registers_one_figure_and_returns_none
    (lib_raises : libcall -> option exn) :
  (forall datasets labels metric tpc w v,
     res (plot_tpc lib_raises datasets labels metric tpc w) = Ok v ->
     v = PyNone /\
     nfigs (post (plot_tpc lib_raises datasets labels metric tpc w))
       = S (nfigs w)) /\
  (forall datasets labels metric component w v,
     res (plot_crate lib_raises datasets labels metric component w) = Ok v ->
     v = PyNone /\
     nfigs (post (plot_crate lib_raises datasets labels metric component w))
       = S (nfigs w)) /\
  (forall data metric metric_label tpc w v,
     res (plot_wire_planes lib_raises data metric metric_label tpc w) = Ok v ->
     v = PyNone /\
     nfigs (post (plot_wire_planes lib_raises data metric metric_label tpc w))
       = S (nfigs w)) /\
  (forall waveform title w v,
     res (plot_waveform lib_raises waveform title w) = Ok v ->
     v = PyNone /\
     nfigs (post (plot_waveform lib_raises waveform title w)) = S (nfigs w)).
Proof.
  split; [| split; [| split]]; intros until v; intros Hv.
  - pose proof (wp_returns _ _ _ _ _ _
                  (plot_tpc_frame lib_raises datasets labels metric tpc w) Hv)
      as [H1 [_ H2]]. auto.
  - pose proof (wp_returns _ _ _ _ _ _
                  (plot_crate_frame lib_raises datasets labels metric component w)
                  Hv) as [H1 [_ H2]]. auto.
  - pose proof (wp_returns _ _ _ _ _ _
                  (plot_wire_planes_frame lib_raises data metric metric_label tpc w)
                  Hv) as [H1 [_ H2]]. auto.
  - pose proof (wp_returns _ _ _ _ _ _
                  (plot_waveform_frame lib_raises waveform title w) Hv)
      as [H1 [_ H2]]. auto.
Qed.

Lemma returning_call_registers_one_figure_witness :
  (PyNone = PyNone /\
   nfigs (post (plot_tpc quiet [0%nat] ["run A"] "rawrms" 0 sample_world))
     = 1%nat) /\
  (PyNone = PyNone /\
   nfigs (post (plot_crate quiet [0%nat] ["run A"] "rawrms" (VStr "WW19")
                  sample_world)) = 1%nat) /\
  (PyNone = PyNone /\
   nfigs (post (plot_wire_planes quiet 0%nat "rawrms" "RMS [ADC]" 0
                  sample_world)) = 1%nat) /\
  (PyNone = PyNone /\
   nfigs (post (plot_waveform quiet 0%nat "noise" waveform_world)) = 1%nat).
Proof.
  destruct (returning_call_registers_one_figure_and_returns_none quiet)
    as (H1 & H2 & H3 & H4).
  split; [| split; [| split]].
  - apply (H1 [0%nat] ["run A"] "rawrms" 0 sample_world PyNone).
    vm_compute. reflexivity.
  - apply (H2 [0%nat] ["run A"] "rawrms" (VStr "WW19") sample_world PyNone).
    vm_compute. reflexivity.
  - apply (H3 0%nat "rawrms" "RMS [ADC]" 0 sample_world PyNone).
    vm_compute. reflexivity.
  - apply (H4 0%nat "noise" waveform_world PyNone).
    vm_compute. reflexivity.
Defined.

(** C6, as stated, fails: [plot_waveform], called with a waveform of 4096
    samples on a store without figures and with a library that never raises,
    registers figure 0 and returns [None], not that figure (nor any
    other). *)
Lemma plot_waveform_does_not_return_its_figure :
  length (arrs waveform_world 0%nat) = 4096%nat /\
  nfigs waveform_world = 0%nat /\
  nfigs (post (plot_waveform quiet 0%nat "noise" waveform_world)) = 1%nat /\
  res (plot_waveform quiet 0%nat "noise" waveform_world) = Ok PyNone /\
  ~ (exists id,
       res (plot_waveform quiet 0%nat "noise" waveform_world)
         = Ok (PyFigure id)).
Proof.
  split; [vm_compute; reflexivity |].
  split; [reflexivity |].
  split; [vm_compute; reflexivity |].
  assert (H : res (plot_waveform quiet 0%nat "noise" waveform_world)
              = Ok PyNone) by (vm_compute; reflexivity).
  split; [exact H |].
  intros [id Hid]. rewrite H in Hid. discriminate Hid.
Qed.

(** C7 at its failing input.  With no dataset, and a library none of whose
    calls raises, [plot_crate] raises [UnboundLocalError] for its local
    variable [title]: the loop that binds it has not run.  The exception comes
    from no library call and no table or list operation. *)
Theorem plot_crate_without_datasets_raises_unbound_title
    (labels : list string) (metric : string) (component : pyval) (w : world) :
  res (plot_crate quiet [] labels metric component w)
    = Raise (UnboundLocalError "title") /\
  Forall (fun c => quiet c = None)
         (log (plot_crate quiet [] labels metric component w)).
Proof.
  split.
  - reflexivity.
  - apply Forall_forall. intros c _. reflexivity.
Qed.

(** C8.  Whatever the arguments, the store and the plotting library's
    behaviour, when a call to [plot_tpc], [plot_crate], [plot_wire_planes] or
    [plot_waveform] ends (by returning or by raising), every dataset, every
    channel map and every array of the store is what it was before the call:
    the procedures write no input. *)
Theorem inputs_unchanged (lib_raises : libcall -> option exn) :
  (forall datasets labels metric tpc w,
     same_inputs w (post (plot_tpc lib_raises datasets labels metric tpc w))) /\
  (forall datasets labels metric component w,
     same_inputs w
       (post (plot_crate lib_raises datasets labels metric component w))) /\
  (forall data metric metric_label tpc w,
     same_inputs w
       (post (plot_wire_planes lib_raises data metric metric_label tpc w))) /\
  (forall waveform title w,
     same_inputs w (post (plot_waveform lib_raises waveform title w))).
Proof.
  split; [| split; [| split]]; intros.
  - eapply wp_post; [apply plot_tpc_frame | |]; simpl.
    + intros _ w' [_ [H _]]. exact H.
    + intros _ w' [H _]. exact H.
  - eapply wp_post; [apply plot_crate_frame | |]; simpl.
    + intros _ w' [_ [H _]]. exact H.
    + intros _ w' [H _]. exact H.
  - eapply wp_post; [apply plot_wire_planes_frame | |]; simpl.
    + intros _ w' [_ [H _]]. exact H.
    + intros _ w' [H _]. exact H.
  - eapply wp_post; [apply plot_waveform_frame | |]; simpl.
    + intros _ w' [_ [H _]]. exact H.
    + intros _ w' [H _]. exact H.
Qed.

(** C9.  In [plot_crate] the per-dataset branch (comparison value
    [component[di]], title [' vs. '.join(component)]) is taken only when
    [component] is a list whose length is the number of datasets; otherwise
    the comparison value and the title are [component] itself.  So when
    [component] is a list of any other length, every scatter compares the
    [flange] column of its dataset with the entire list (row by row, the
    list having one entry per row: the rows plotted are the rows [i] whose
    [flange] is [component[i]]), and the figure is titled with the entire
    list; a call that returns has done so for every dataset.  When the list
    has not one entry per row of the first dataset, the comparison raises
    [ValueError]. *)
Theorem plot_crate_component_choice (lib_raises : libcall -> option exn)
    (datasets : list loc) (labels : list string) (metric : string)
    (component : pyval) (w : world) :
  (forall di cv title,
     choose_component component (length datasets) di = Ok (cv, title) ->
     (exists l s, component = VList l /\ length l = length datasets /\
                  l !! di = Some s /\ cv = VStr s /\
                  title = VStr (String.concat " vs. " l)) \/
     (~ (exists l, component = VList l /\ length l = length datasets) /\
      cv = component /\ title = component)) /\
  (forall l, component = VList l -> length l <> length datasets ->
     forall k c,
       log (plot_crate lib_raises datasets labels metric component w) !! k
         = Some c ->
       crate_call_uses w datasets labels metric l c) /\
  (forall l v, component = VList l -> length l <> length datasets ->
     res (plot_crate lib_raises datasets labels metric component w) = Ok v ->
     (forall di d, datasets !! di = Some d ->
        exists k c,
          log (plot_crate lib_raises datasets labels metric component w) !! k
            = Some c /\
          crate_scatter (dtable (dsets w d)) labels metric (VList l) di c) /\
     exists k,
       log (plot_crate lib_raises datasets labels metric component w) !! k
         = Some (Suptitle (nfigs w) (VList l))) /\
  (forall l d ds fl,
     component = VList l -> datasets = d :: ds ->
     length l <> length datasets ->
     (forall c, setup_call c -> lib_raises c = None) ->
     dtable (dsets w d) !! "flange" = Some fl -> length l <> length fl ->
     res (plot_crate lib_raises datasets labels metric component w)
       = Raise ValueError).
Proof.
  assert (Hwhole : forall l, length l <> length datasets ->
            forall di cv title,
              choose_component (VList l) (length datasets) di = Ok (cv, title) ->
              cv = VList l /\ title = VList l).
  { intros l Hlen di cv title Hc.
    apply choose_component_branches in Hc
      as [(l' & s & [= <-] & Hl' & _) | (_ & H1 & H2)]; [contradiction | auto]. }
  split; [| split; [| split]].
  - intros di cv title. apply choose_component_branches.
  - intros l -> Hlen k c Hk. specialize (Hwhole l Hlen).
    pose proof (wp_log _ _ _ _ _ _ _
                  (plot_crate_calls_wp lib_raises datasets labels metric
                     (VList l) w) Hk) as [Hsc Hti].
    split.
    + intros ax xs ys lbl ->.
      destruct (Hsc ax xs ys lbl eq_refl)
        as (di & d & cv & title & fl & bo & ch & m &
            Hd & Hlbl & Hc & Hfl & Hbo & Hch & Hm & mask & Hmask & Hxs & ->).
      apply Hwhole in Hc as [-> _].
      exists di, d, fl. split; [exact Hd |]. split; [exact Hfl |].
      split; [apply (col_eq_val_rows fl (VList l) mask Hmask) |].
      exists ax, xs, (select mask m), lbl, (true_rows mask).
      split; [reflexivity |]. split; [exact Hlbl |].
      intros Hwf.
      destruct (crate_selection _ (VList l) fl bo ch m mask xs Hwf Hfl Hbo
                  Hch Hmask Hxs) as (H1 & H2 & H3).
      split; [exact H1 |]. split; [exact H2 |]. apply H3. exact Hm.
    + intros fig t ->.
      destruct (Hti fig t eq_refl) as (di & cv & _ & Hc).
      apply Hwhole in Hc as [_ ->]. reflexivity.
  - intros l v -> Hlen Hv. specialize (Hwhole l Hlen). split.
    + intros di d Hd.
      destruct (plot_crate_scatters_every_dataset lib_raises datasets labels
                  metric (VList l) w di d Hd)
        as (k & c & Hk & cv & title & Hc & Hsc); [eauto |].
      apply Hwhole in Hc as [-> _]. eauto.
    + destruct (plot_crate_titles lib_raises datasets labels metric (VList l) w)
        as (k & c & Hk & t & ->); [eauto |].
      pose proof (wp_log _ _ _ _ _ _ _
                    (plot_crate_calls_wp lib_raises datasets labels metric
                       (VList l) w) Hk) as [_ Hti].
      destruct (Hti (nfigs w) t eq_refl) as (di & cv & _ & Hc).
      apply Hwhole in Hc as [_ ->]. eauto.
  - intros l d ds fl -> -> Hlen Hsetup Hfl Hrows.
    pose proof (plot_crate_list_mismatch lib_raises d ds labels metric l fl w
                  Hlen Hsetup Hfl Hrows) as [_ H].
    destruct (res (plot_crate lib_raises (d :: ds) labels metric (VList l) w))
      as [v | e]; [contradiction | rewrite H; reflexivity].
Qed.

Lemma plot_crate_component_choice_witness :
  crate_call_uses sample_world [0%nat; 0%nat] ["run A"; "run B"] "rawrms"
    ["WW19"; "XX00"; "EE01"; "WW19"]
    (Suptitle 0 (VList ["WW19"; "XX00"; "EE01"; "WW19"])) /\
  crate_call_uses sample_world [0%nat; 0%nat] ["run A"; "run B"] "rawrms"
    ["WW19"; "XX00"; "EE01"; "WW19"]
    (Scatter (Axes 0 Whole) [Int 3; Int 138; Int 512]
             [Int 3; Int 5; Int 6] "run B") /\
  (exists k,
     log (plot_crate quiet [0%nat; 0%nat] ["run A"; "run B"] "rawrms"
            (VList ["WW19"; "XX00"; "EE01"; "WW19"]) sample_world) !! k
       = Some (Suptitle (nfigs sample_world)
                 (VList ["WW19"; "XX00"; "EE01"; "WW19"]))) /\
  res (plot_crate quiet [0%nat; 0%nat] ["run A"; "run B"] "rawrms"
         (VList ["WW19"; "EE01"; "EW03"]) sample_world) = Raise ValueError.
Proof.
  destruct (plot_crate_component_choice quiet [0%nat; 0%nat]
              ["run A"; "run B"] "rawrms"
              (VList ["WW19"; "XX00"; "EE01"; "WW19"]) sample_world)
    as (_ & H & Hret & _).
  destruct (plot_crate_component_choice quiet [0%nat; 0%nat]
              ["run A"; "run B"] "rawrms"
              (VList ["WW19"; "EE01"; "EW03"]) sample_world)
    as (_ & _ & _ & Hraise).
  split; [| split; [| split]].
  - apply (H _ eq_refl ltac:(simpl; lia) 11%nat).
    vm_compute. reflexivity.
  - apply (H _ eq_refl ltac:(simpl; lia) 4%nat).
    vm_compute. reflexivity.
  - apply (Hret _ PyNone eq_refl ltac:(simpl; lia)).
    vm_compute. reflexivity.
  - apply (Hraise ["WW19"; "EE01"; "EW03"] 0%nat [0%nat]
             [Str "WW19"; Str "WW19"; Str "EE01"; Str "WW19"] eq_refl eq_refl
             ltac:(simpl; lia) ltac:(intros c _; reflexivity)
             ltac:(vm_compute; reflexivity) ltac:(simpl; lia)).
Defined.

Example plot_crate_per_dataset_components :
  choose_component (VList ["WW19"; "EE01"]) 2 1
    = Ok (VStr "EE01", VStr "WW19 vs. EE01") /\
  choose_component (VList ["WW19"; "EE01"]) 3 1
    = Ok (VList ["WW19"; "EE01"], VList ["WW19"; "EE01"]) /\
  choose_component (VStr "WW19") 4 1 = Ok (VStr "WW19", VStr "WW19").
Proof. repeat split. Qed.

(** C10.  For every channel id [z] in the [channel_id] column of the channel
    map and every TPC index [t], the mask of [plot_wire_planes]
    ([channel_id // 13824 == t]) is true on that row exactly when
    [13824*t <= z < 13824*(t+1)], which is exactly when [z] lies in one of
    the three x-axis ranges [[xlow, xlow + nchannels[p])] that [plot_tpc]
    sets for TPC [t]; these ranges start at [13824*t] and cover 13824
    channels. *)
Theorem tpc_membership_agrees_with_plot_tpc_ranges (c_id : list cell)
    (t : Z) (mask : list bool) (i : nat) (z : Z) :
  chmap_mask c_id t = Ok mask ->
  c_id !! i = Some (Int z) ->
  (mask !! i = Some true <-> 13824 * t <= z < 13824 * (t + 1)) /\
  (mask !! i = Some true <->
   exists p n, nchannels !! p = Some n /\ xlow t p <= z < xlow t p + n) /\
  xlow t 0 = 13824 * t /\ sum_list nchannels = 13824.
Proof.
  intros Hmask Hz.
  assert (Hrow : mask !! i = Some true <-> 13824 * t <= z < 13824 * (t + 1)).
  { rewrite <- elem_of_true_rows, (chmap_mask_rows c_id t mask Hmask).
    rewrite <- floordiv_tpc. split.
    - intros (z' & Hz' & Ht). congruence.
    - intros Ht. eauto. }
  destruct (xlow_planes t) as (H0 & H1 & H2 & Hsum).
  split; [exact Hrow |]. split; [| auto].
  rewrite Hrow. split.
  - intros Hrange.
    destruct (Z_lt_le_dec z (13824 * t + 2304)) as [Ha | Ha];
      [exists 0%nat, 2304; simpl; split; [reflexivity | lia] |].
    destruct (Z_lt_le_dec z (13824 * t + 8064)) as [Hb | Hb];
      [exists 1%nat, 5760; simpl; split; [reflexivity | lia] |].
    exists 2%nat, 5760. simpl. split; [reflexivity | lia].
  - intros (p & n & Hn & Hrange).
    destruct p as [| [| [| p]]]; simpl in Hn; try discriminate;
      injection Hn as <-; lia.
Qed.

Lemma tpc_membership_agrees_with_plot_tpc_ranges_witness :
  (([false; false; false; true] : list bool) !! 3%nat = Some true <->
   13824 * 1 <= 13830 < 13824 * (1 + 1)) /\
  (([false; false; false; true] : list bool) !! 3%nat = Some true <->
   exists p n, nchannels !! p = Some n /\ xlow 1 p <= 13830 < xlow 1 p + n) /\
  xlow 1 0 = 13824 * 1 /\ sum_list nchannels = 13824.
Proof.
  apply (tpc_membership_agrees_with_plot_tpc_ranges
           [Int 5; Int 7; Int 9; Int 13830] 1 _ 3 13830).
  - vm_compute. reflexivity.
  - reflexivity.
Defined.

(* ===================================================================== *)
(** ** Further properties: the style file and the figure *)
(* ===================================================================== *)

Lemma bind_Raise {A B : Type} (m : M A) (f : A -> M B) w e w' l :
  m w = Out (Raise e) w' l -> bind m f w = Out (Raise e) w' l.
Proof. intros H. unfold bind. rewrite H. reflexivity. Qed.

Lemma bind_Ok {A B : Type} (m : M A) (f : A -> M B) w a w' l :
  m w = Out (Ok a) w' l ->
  bind m f w = Out (res (f a w')) (post (f a w')) (l ++ log (f a w')).
Proof. intros H. unfold bind. rewrite H. reflexivity. Qed.

Lemma call_Raise lib_raises c e w :
  lib_raises c = Some e -> call lib_raises c w = Out (Raise e) w [c].
Proof. intros H. unfold call. rewrite H. reflexivity. Qed.

Lemma call_Ok lib_raises c w :
  lib_raises c = None -> call lib_raises c w = Out (Ok tt) w [c].
Proof. intros H. unfold call. rewrite H. reflexivity. Qed.

(** When [plt.style.use] raises (the style file cannot be loaded), each of the
    four procedures raises that exception at once: the style call is the only
    library call made, and no figure is registered. *)
Theorem style_failure_stops_before_the_figure
    (lib_raises : libcall -> option exn) (e : exn) :
  lib_raises (StyleUse "plot_style.mplstyle") = Some e ->
  (forall datasets labels metric tpc w,
     plot_tpc lib_raises datasets labels metric tpc w
       = Out (Raise e) w [StyleUse "plot_style.mplstyle"]) /\
  (forall datasets labels metric component w,
     plot_crate lib_raises datasets labels metric component w
       = Out (Raise e) w [StyleUse "plot_style.mplstyle"]) /\
  (forall data metric metric_label tpc w,
     plot_wire_planes lib_raises data metric metric_label tpc w
       = Out (Raise e) w [StyleUse "plot_style.mplstyle"]) /\
  (forall waveform title w,
     plot_waveform lib_raises waveform title w
       = Out (Raise e) w [StyleUse "plot_style.mplstyle"]).
Proof.
  intros He.
  split; [| split; [| split]]; intros;
    apply bind_Raise, call_Raise, He.
Qed.

Lemma style_failure_stops_before_the_figure_witness :
  plot_waveform missing_style 0%nat "noise" sample_world
    = Out (Raise (LibError 2)) sample_world [StyleUse "plot_style.mplstyle"].
Proof.
  destruct (style_failure_stops_before_the_figure missing_style (LibError 2)
              eq_refl) as (_ & _ & _ & H).
  apply H.
Defined.

Section FigureCount.

Variable lib_raises : libcall -> option exn.

Lemma plot_tpc_body_nfigs saxs haxs labels metric tpc pi p di d n w :
  nfigs w = n ->
  wp (plot_tpc_body lib_raises saxs haxs labels metric tpc pi p di d) w
     (fun _ => True) (fun _ w' => nfigs w' = n) (fun _ w' => nfigs w' = n).
Proof. intros Hw. unfold plot_tpc_body. repeat wp_step; auto. Qed.

Lemma plot_crate_body_nfigs ax k labels metric component di d n w :
  nfigs w = n ->
  wp (plot_crate_body lib_raises ax k labels metric component di d) w
     (fun _ => True) (fun _ w' => nfigs w' = n) (fun _ w' => nfigs w' = n).
Proof. intros Hw. unfold plot_crate_body. repeat wp_step; auto. Qed.

Lemma plot_wire_planes_body_nfigs axs data metric tpc p n w :
  nfigs w = n ->
  wp (plot_wire_planes_body lib_raises axs data metric tpc p) w
     (fun _ => True) (fun _ w' => nfigs w' = n) (fun _ w' => nfigs w' = n).
Proof. intros Hw. unfold plot_wire_planes_body. repeat wp_step; auto. Qed.

Lemma figure_count_before width height w e :
  lib_raises (StyleUse "plot_style.mplstyle") = Some e \/
  lib_raises (Figure width height) = Some e ->
  figure_count lib_raises width height w w.
Proof.
  intros H. split; [lia |]. intros Hs Hf. destruct H; congruence.
Qed.

Lemma figure_count_after width height w w' :
  nfigs w' = S (nfigs w) -> figure_count lib_raises width height w w'.
Proof. intros H. split; [lia | auto]. Qed.

Hint Resolve figure_count_before figure_count_after : core.

Lemma plot_tpc_figure_count datasets labels metric tpc w :
  wp (plot_tpc lib_raises datasets labels metric tpc) w (fun _ => True)
     (fun _ => figure_count lib_raises 26 16 w)
     (fun _ => figure_count lib_raises 26 16 w).
Proof.
  unfold plot_tpc. repeat wp_step; eauto.
  wp_loop (fun w' : world => nfigs w' = S (nfigs w)).
  - intros [pi p] w1 _ Hw1.
    wp_loop (fun w' : world => nfigs w' = S (nfigs w)); [| exact Hw1 | auto].
    intros [di d] w2 _ Hw2.
    eapply wp_mono; [apply plot_tpc_body_nfigs; exact Hw2 | auto ..].
  - reflexivity.
  - intros ? w1 Hw1. repeat wp_step; auto.
Qed.

Lemma plot_crate_figure_count datasets labels metric component w :
  wp (plot_crate lib_raises datasets labels metric component) w (fun _ => True)
     (fun _ => figure_count lib_raises 8 6 w)
     (fun _ => figure_count lib_raises 8 6 w).
Proof.
  unfold plot_crate. repeat wp_step; eauto.
  wp_loop (fun (_ : option pyval) (w' : world) => nfigs w' = S (nfigs w)).
  - intros [di d] s w1 _ Hw1.
    eapply wp_mono; [apply plot_crate_body_nfigs; exact Hw1 | auto ..].
  - reflexivity.
  - intros title w1 Hw1. repeat wp_step; auto.
    destruct title; repeat wp_step; auto.
Qed.

Lemma plot_wire_planes_figure_count data metric metric_label tpc w :
  wp (plot_wire_planes lib_raises data metric metric_label tpc) w
     (fun _ => True)
     (fun _ => figure_count lib_raises 20 12 w)
     (fun _ => figure_count lib_raises 20 12 w).
Proof.
  unfold plot_wire_planes. repeat wp_step; eauto.
  wp_loop (fun w' : world => nfigs w' = S (nfigs w)).
  - intros p w1 _ Hw1.
    eapply wp_mono; [apply plot_wire_planes_body_nfigs; exact Hw1 | auto ..].
  - reflexivity.
  - intros ? w1 Hw1. repeat wp_step; auto.
Qed.

Lemma plot_waveform_figure_count waveform title w :
  wp (plot_waveform lib_raises waveform title) w (fun _ => True)
     (fun _ => figure_count lib_raises 14 6 w)
     (fun _ => figure_count lib_raises 14 6 w).
Proof. unfold plot_waveform. repeat wp_step; eauto. Qed.

End FigureCount.

(** However a call to one of the four procedures ends, it has registered at
    most one figure; and once [plt.style.use] and [plt.figure] have not
    raised, exactly one figure is registered when the call ends, also when a
    later step raises: the figure is not closed on the way out. *)
Theorem figure_stays_registered (lib_raises : libcall -> option exn) :
  (forall datasets labels metric tpc w,
     figure_count lib_raises 26 16 w
       (post (plot_tpc lib_raises datasets labels metric tpc w))) /\
  (forall datasets labels metric component w,
     figure_count lib_raises 8 6 w
       (post (plot_crate lib_raises datasets labels metric component w))) /\
  (forall data metric metric_label tpc w,
     figure_count lib_raises 20 12 w
       (post (plot_wire_planes lib_raises data metric metric_label tpc w))) /\
  (forall waveform title w,
     figure_count lib_raises 14 6 w
       (post (plot_waveform lib_raises waveform title w))).
Proof.
  split; [| split; [| split]]; intros.
  - eapply wp_post; [apply plot_tpc_figure_count | auto ..].
  - eapply wp_post; [apply plot_crate_figure_count | auto ..].
  - eapply wp_post; [apply plot_wire_planes_figure_count | auto ..].
  - eapply wp_post; [apply plot_waveform_figure_count | auto ..].
Qed.

Lemma figure_stays_registered_witness :
  res (plot_crate failing_scatter [0%nat] ["run A"] "rawrms" (VStr "WW19")
         sample_world) = Raise (LibError 1) /\
  nfigs (post (plot_crate failing_scatter [0%nat] ["run A"] "rawrms"
                 (VStr "WW19") sample_world)) = S (nfigs sample_world).
Proof.
  split; [vm_compute; reflexivity |].
  destruct (figure_stays_registered failing_scatter) as (_ & H & _).
  apply (H [0%nat] ["run A"] "rawrms" (VStr "WW19") sample_world);
    reflexivity.
Defined.

(* ===================================================================== *)
(** ** Further properties: no dataset, a missing column *)
(* ===================================================================== *)

Section TpcEdges.

Variable lib_raises : libcall -> option exn.

Lemma plot_tpc_no_dataset_wp labels metric tpc w :
  wp (plot_tpc lib_raises [] labels metric tpc) w setup_call
     (fun v _ => v = PyNone)
     (fun _ _ => ~ (forall c, setup_call c -> lib_raises c = None)).
Proof.
  assert (Hno : forall c e, setup_call c -> lib_raises c = Some e ->
                  ~ (forall c, setup_call c -> lib_raises c = None)).
  { intros c e Hc He Hall. rewrite (Hall c Hc) in He. discriminate He. }
  unfold plot_tpc.
  repeat wp_step; try exact I;
    try (eapply Hno; [| eassumption]; exact I).
  wp_loop (fun _ : world => True); [| exact I |].
  - intros [pi p] w1 _ _. unfold for_each. simpl. wp_step. exact I.
  - intros ? w1 _. wp_step. reflexivity.
Qed.

End TpcEdges.

(** With no dataset, [plot_tpc] only sets its figure up (style, figure, grid,
    six subplots): it draws nothing and sets no axis; and when none of these
    set-up calls raises it returns [None].  ([plot_crate] raises on the same
    input.) *)
Theorem plot_tpc_without_datasets_draws_nothing
    (lib_raises : libcall -> option exn) (labels : list string)
    (metric : string) (tpc : Z) (w : world) :
  Forall setup_call (log (plot_tpc lib_raises [] labels metric tpc w)) /\
  ((forall c, setup_call c -> lib_raises c = None) ->
   res (plot_tpc lib_raises [] labels metric tpc w) = Ok PyNone).
Proof.
  destruct (plot_tpc_no_dataset_wp lib_raises labels metric tpc w)
    as [Hlog Hres].
  split; [exact Hlog |].
  intros Hall.
  destruct (res (plot_tpc lib_raises [] labels metric tpc w)) as [v | e].
  - rewrite Hres. reflexivity.
  - contradiction.
Qed.

Lemma plot_tpc_without_datasets_draws_nothing_witness :
  res (plot_tpc quiet [] [] "rawrms" 0 sample_world) = Ok PyNone.
Proof.
  apply (plot_tpc_without_datasets_draws_nothing quiet [] "rawrms" 0
           sample_world).
  intros c _. reflexivity.
Defined.

Section MissingColumn.

Variable lib_raises : libcall -> option exn.

Lemma plot_tpc_body_missing fig labels metric tpc pi p di d w name :
  (pi < 3)%nat ->
  first_missing (dtable (dsets w d)) ["tpc"; "plane"; "channel_id"; metric]
    = Some name ->
  wp (plot_tpc_body lib_raises (saxs_of fig) (haxs_of fig) labels metric tpc
        pi p di d) w
     (fun _ => False) (fun _ _ => False)
     (fun e w' => e = KeyError (Str name) /\ w' = w).
Proof.
  intros Hpi Hmiss. unfold first_missing in Hmiss. simpl in Hmiss.
  assert (Hsax : forall e, list_index (saxs_of fig) pi <> Raise e).
  { intros e. destruct pi as [| [| [| pi]]]; simpl; (discriminate || lia). }
  unfold plot_tpc_body.
  repeat case_bool_decide; try discriminate; injection Hmiss as <-;
    repeat wp_step;
    try congruence;
    try (split; [congruence | reflexivity]);
    try (exfalso; eapply Hsax; eassumption).
Qed.

Lemma plot_tpc_missing_column_wp d ds labels metric tpc w name :
  (forall c, setup_call c -> lib_raises c = None) ->
  first_missing (dtable (dsets w d)) ["tpc"; "plane"; "channel_id"; metric]
    = Some name ->
  wp (plot_tpc lib_raises (d :: ds) labels metric tpc) w setup_call
     (fun _ _ => False)
     (fun e w' => e = KeyError (Str name) /\ nfigs w' = S (nfigs w)).
Proof.
  intros Hall Hmiss.
  assert (Hno : forall c e, setup_call c -> lib_raises c = Some e -> False).
  { intros c e Hc He. rewrite (Hall c Hc) in He. discriminate He. }
  unfold plot_tpc.
  repeat wp_step; try exact I;
    try (exfalso; eapply Hno; [| eassumption]; exact I).
  unfold for_each at 1, enumerate at 1, planes. simpl imap. cbn [for_fold].
  wp_step.
  unfold for_each at 1, enumerate at 1. rewrite imap_cons. cbn [for_fold].
  wp_step.
  eapply wp_mono.
  - apply (plot_tpc_body_missing (nfigs w) labels metric tpc 0 "Induction 1"
             0 d _ name); [lia | exact Hmiss].
  - intros c [].
  - intros a w' [].
  - intros e w' [-> ->]. split; reflexivity.
Qed.

End MissingColumn.

(** When the first dataset lacks one of the columns [tpc], [plane],
    [channel_id] and the metric, and the set-up calls do not raise,
    [plot_tpc] raises the [KeyError] of the first of them (in this order)
    that is missing; it has drawn nothing, and its figure stays registered. *)
Theorem plot_tpc_missing_column (lib_raises : libcall -> option exn)
    (d : loc) (ds : list loc) (labels : list string) (metric : string)
    (tpc : Z) (w : world) (name : string) :
  (forall c, setup_call c -> lib_raises c = None) ->
  first_missing (dtable (dsets w d)) ["tpc"; "plane"; "channel_id"; metric]
    = Some name ->
  res (plot_tpc lib_raises (d :: ds) labels metric tpc w)
    = Raise (KeyError (Str name)) /\
  Forall setup_call (log (plot_tpc lib_raises (d :: ds) labels metric tpc w)) /\
  nfigs (post (plot_tpc lib_raises (d :: ds) labels metric tpc w))
    = S (nfigs w).
Proof.
  intros Hall Hmiss.
  destruct (plot_tpc_missing_column_wp lib_raises d ds labels metric tpc w
              name Hall Hmiss) as [Hlog Hres].
  destruct (res (plot_tpc lib_raises (d :: ds) labels metric tpc w))
    as [v | e]; [contradiction |].
  destruct Hres as [-> Hn]. auto.
Qed.

Lemma plot_tpc_missing_column_witness :
  res (plot_tpc quiet [0%nat] ["run A"] "pedestal" 0 sample_world)
    = Raise (KeyError (Str "pedestal")) /\
  Forall setup_call
         (log (plot_tpc quiet [0%nat] ["run A"] "pedestal" 0 sample_world)) /\
  nfigs (post (plot_tpc quiet [0%nat] ["run A"] "pedestal" 0 sample_world))
    = S (nfigs sample_world).
Proof.
  apply (plot_tpc_missing_column quiet 0%nat [] ["run A"] "pedestal" 0
           sample_world "pedestal").
  - intros c _. reflexivity.
  - vm_compute. reflexivity.
Defined.

(* ===================================================================== *)
(** ** Further properties: the ticks of [plot_tpc] *)
(* ===================================================================== *)

(** [np.arange(lo, lo + n + nd, nd)] when [n] is a multiple of [nd]: the end
    point [lo + n] is included. *)
Lemma arange_inclusive (lo n nd : Z) (k : nat) :
  0 < nd -> n = Z.of_nat k * nd ->
  arange lo (lo + n + nd) nd
    = map (fun j => lo + Z.of_nat j * nd) (seq 0 (S k)).
Proof.
  intros Hnd ->. unfold arange. do 2 f_equal.
  replace (lo + Z.of_nat k * nd + nd - lo + nd - 1)
    with ((Z.of_nat k + 1) * nd + (nd - 1)) by lia.
  rewrite Z.div_add_l by lia. rewrite (Z.div_small (nd - 1) nd) by lia. lia.
Qed.

Section TpcTicks.

Variable lib_raises : libcall -> option exn.

Lemma plane_ticks_intro fig tpc pi sax nch nd nd' :
  list_index (saxs_of fig) pi = Ok sax ->
  list_index nchannels pi = Ok nch ->
  list_index ndivs pi = Ok nd ->
  list_index ndivs pi = Ok nd' ->
  plane_ticks tpc
    (SetXticks sax (arange (xlow tpc pi) (xlow tpc pi + nch + nd) nd')).
Proof.
  intros Hsax Hnch Hnd Hnd' ax ticks Heq. injection Heq as <- <-.
  apply saxs_of_index in Hsax as [Hlt ->].
  exists pi, nch, nd. generalize (xlow tpc pi). intros x.
  destruct pi as [| [| [| pi]]]; [| | | lia];
    injection Hnch as <-; injection Hnd as <-; injection Hnd' as <-.
  - rewrite (arange_inclusive x 2304 288 8) by lia.
    repeat split; try reflexivity; simpl; try (f_equal; lia).
    repeat constructor; lia.
  - rewrite (arange_inclusive x 5760 576 10) by lia.
    repeat split; try reflexivity; simpl; try (f_equal; lia).
    repeat constructor; lia.
  - rewrite (arange_inclusive x 5760 576 10) by lia.
    repeat split; try reflexivity; simpl; try (f_equal; lia).
    repeat constructor; lia.
Qed.

Lemma plot_tpc_body_ticks fig labels metric tpc pi p di d w :
  wp (plot_tpc_body lib_raises (saxs_of fig) (haxs_of fig) labels metric tpc
        pi p di d) w
     (plane_ticks tpc) (fun _ _ => True) (fun _ _ => True).
Proof.
  unfold plot_tpc_body.
  repeat wp_step; auto; try (intros ? ? ?; discriminate).
  eapply plane_ticks_intro; eassumption.
Qed.

Lemma plot_tpc_ticks_wp datasets labels metric tpc w :
  wp (plot_tpc lib_raises datasets labels metric tpc) w
     (plane_ticks tpc) (fun _ _ => True) (fun _ _ => True).
Proof.
  unfold plot_tpc.
  repeat wp_step; auto; try (intros ? ? ?; discriminate).
  wp_loop (fun _ : world => True).
  - intros [pi p] w1 _ _.
    wp_loop (fun _ : world => True); [| exact I | auto].
    intros [di d] w2 _ _. apply plot_tpc_body_ticks.
  - exact I.
  - intros ? w1 _. repeat wp_step; auto.
Qed.

Lemma plot_tpc_body_sets_ticks fig labels metric tpc pi p di d w :
  reaches (plot_tpc_body lib_raises (saxs_of fig) (haxs_of fig) labels metric
             tpc pi p di d) w
          (fun c => exists ticks,
                      c = SetXticks (Axes fig (Cell 3 8 pi 0 6)) ticks).
Proof.
  unfold plot_tpc_body. do 15 reach_later. reach_here.
  repeat match goal with
         | H : list_index (saxs_of _) _ = Ok _ |- _ =>
             apply saxs_of_index in H as [? ->]
         end.
  eauto.
Qed.

End TpcTicks.

(** Every [set_xticks] call of [plot_tpc] is on the scatter axes of a plane
    [p] and passes the ticks [xlow + j * ndivs[p]] for [j] from 0 to
    [nchannels[p] / ndivs[p]]: the first tick is the lower limit [xlow] of the
    plane, the last one is its upper limit [xlow + nchannels[p]] (the end
    point is included), and every tick lies within the limits.  A returning
    call with a dataset has set the ticks of each of the three planes. *)
Theorem plot_tpc_ticks_span_the_limits (lib_raises : libcall -> option exn)
    (datasets : list loc) (labels : list string) (metric : string) (tpc : Z)
    (w : world) :
  (forall k ax ticks,
     log (plot_tpc lib_raises datasets labels metric tpc w) !! k
       = Some (SetXticks ax ticks) ->
     exists p n nd,
       ax_pos ax = Cell 3 8 p 0 6 /\
       nchannels !! p = Some n /\ ndivs !! p = Some nd /\
       ticks = map (fun j => xlow tpc p + Z.of_nat j * nd)
                   (seq 0 (S (Z.to_nat (n / nd)))) /\
       head ticks = Some (xlow tpc p) /\
       last ticks = Some (xlow tpc p + n) /\
       Forall (fun t => xlow tpc p <= t <= xlow tpc p + n) ticks) /\
  (forall v di d pi p,
     res (plot_tpc lib_raises datasets labels metric tpc w) = Ok v ->
     datasets !! di = Some d -> planes !! pi = Some p ->
     exists k ticks,
       log (plot_tpc lib_raises datasets labels metric tpc w) !! k
         = Some (SetXticks (Axes (nfigs w) (Cell 3 8 pi 0 6)) ticks)).
Proof.
  split.
  - intros k ax ticks Hk.
    exact (wp_log _ _ _ _ _ _ _
             (plot_tpc_ticks_wp lib_raises datasets labels metric tpc w) Hk
             ax ticks eq_refl).
  - intros v di d pi p Hv Hd Hp.
    destruct (plot_tpc_reaches_body lib_raises datasets labels metric tpc w
                pi p di d
                (fun c => exists ticks,
                   c = SetXticks (Axes (nfigs w) (Cell 3 8 pi 0 6)) ticks)
                Hp Hd) as (k & c & Hk & ticks & ->); [| eauto |].
    + intros w' _. apply plot_tpc_body_sets_ticks.
    + exists k, ticks. exact Hk.
Qed.

Lemma plot_tpc_ticks_span_the_limits_witness :
  (exists p n nd,
     Cell 3 8 0 0 6 = Cell 3 8 p 0 6 /\
     nchannels !! p = Some n /\ ndivs !! p = Some nd /\
     [13824; 14112; 14400; 14688; 14976; 15264; 15552; 15840; 16128]
       = map (fun j => xlow 1 p + Z.of_nat j * nd)
             (seq 0 (S (Z.to_nat (n / nd)))) /\
     head [13824; 14112; 14400; 14688; 14976; 15264; 15552; 15840; 16128]
       = Some (xlow 1 p) /\
     last [13824; 14112; 14400; 14688; 14976; 15264; 15552; 15840; 16128]
       = Some (xlow 1 p + n) /\
     Forall (fun t => xlow 1 p <= t <= xlow 1 p + n)
            [13824; 14112; 14400; 14688; 14976; 15264; 15552; 15840; 16128]) /\
  (exists k ticks,
     log (plot_tpc quiet [0%nat] ["run A"] "rawrms" 1 sample_world) !! k
       = Some (SetXticks (Axes (nfigs sample_world) (Cell 3 8 2 0 6)) ticks)).
Proof.
  destruct (plot_tpc_ticks_span_the_limits quiet [0%nat] ["run A"] "rawrms" 1
              sample_world) as (Hsound & Hcomplete).
  split.
  - apply (Hsound 12%nat (Axes (nfigs sample_world) (Cell 3 8 0 0 6))).
    vm_compute. reflexivity.
  - apply (Hcomplete PyNone 0%nat 0%nat 2%nat "Collection");
      [vm_compute; reflexivity | reflexivity | reflexivity].
Defined.

(* ===================================================================== *)
(** ** Further properties: the time axis of [plot_waveform] *)
(* ===================================================================== *)

(** [np.arange(n)]. *)
Lemma arange_from_zero (n : Z) :
  arange 0 n 1 = map Z.of_nat (seq 0 (Z.to_nat n)).
Proof.
  unfold arange. replace (n - 0 + 1 - 1) with n by lia. rewrite Z.div_1_r.
  apply map_ext. intros j. lia.
Qed.

Section Waveform.

Variable lib_raises : libcall -> option exn.

Lemma plot_waveform_plot_wp waveform title w :
  wp (plot_waveform lib_raises waveform title) w (waveform_plot w waveform)
     (fun _ _ => True) (fun _ _ => True).
Proof.
  unfold plot_waveform.
  repeat wp_step; auto; try (intros ? ? ? ? ? ?; discriminate).
  intros ax xs ys ls lw Heq. injection Heq as <- <- <- <- <-.
  rewrite arange_from_zero. repeat split; reflexivity.
Qed.

Lemma plot_waveform_plots waveform title w :
  reaches (plot_waveform lib_raises waveform title) w
          (fun c => c = Plot (Axes (nfigs w) Whole)
                             (map Z.of_nat (seq 0 4096)) (arrs w waveform)
                             "-" 1).
Proof.
  unfold plot_waveform. reach_later.
  eapply reaches_bind_later
    with (Qok := fun fig w1 => fig = nfigs w /\ arrs w1 = arrs w);
    [wp_step; auto |].
  intros fig wa [-> Ha]. reach_later.
  eapply reaches_bind_later
    with (Qok := fun ys (_ : world) => ys = arrs w waveform);
    [wp_step; rewrite Ha; reflexivity |].
  intros ys wb ->. reach_here.
  rewrite arange_from_zero. reflexivity.
Qed.

End Waveform.

(** [plot_waveform] does not check the shape its documentation assumes: every
    [plot] call it makes draws, on the axes of its own figure, the array the
    caller passed against the 4096 ticks 0 to 4095, whatever the length of
    the array; a returning call has made this call. *)
Theorem plot_waveform_plots_against_4096_ticks
    (lib_raises : libcall -> option exn) (waveform : loc) (title : string)
    (w : world) :
  (forall k ax xs ys ls lw,
     log (plot_waveform lib_raises waveform title w) !! k
       = Some (Plot ax xs ys ls lw) ->
     ax = Axes (nfigs w) Whole /\ xs = map Z.of_nat (seq 0 4096) /\
     length xs = 4096%nat /\ ys = arrs w waveform) /\
  (forall v,
     res (plot_waveform lib_raises waveform title w) = Ok v ->
     exists k,
       log (plot_waveform lib_raises waveform title w) !! k
         = Some (Plot (Axes (nfigs w) Whole) (map Z.of_nat (seq 0 4096))
                      (arrs w waveform) "-" 1)).
Proof.
  split.
  - intros k ax xs ys ls lw Hk.
    destruct (wp_log _ _ _ _ _ _ _
                (plot_waveform_plot_wp lib_raises waveform title w) Hk
                ax xs ys ls lw eq_refl) as (-> & -> & -> & _).
    repeat split.
  - intros v Hv.
    destruct (plot_waveform_plots lib_raises waveform title w)
      as (k & c & Hk & ->); [eauto |].
    exists k. exact Hk.
Qed.

Lemma plot_waveform_plots_against_4096_ticks_witness :
  (Axes 0 Whole = Axes (nfigs sample_world) Whole /\
   map Z.of_nat (seq 0 4096) = map Z.of_nat (seq 0 4096) /\
   length (map Z.of_nat (seq 0 4096)) = 4096%nat /\
   [Int 1; Int (-2); Int 0] = arrs sample_world 0%nat) /\
  (exists k,
     log (plot_waveform quiet 0%nat "noise" sample_world) !! k
       = Some (Plot (Axes (nfigs sample_world) Whole)
                    (map Z.of_nat (seq 0 4096)) (arrs sample_world 0%nat)
                    "-" 1)).
Proof.
  destruct (plot_waveform_plots_against_4096_ticks quiet 0%nat "noise"
              sample_world) as (Hsound & Hcomplete).
  split.
  - apply (Hsound 3%nat (Axes 0 Whole) (map Z.of_nat (seq 0 4096))
             [Int 1; Int (-2); Int 0] "-" 1).
    vm_compute. reflexivity.
  - apply (Hcomplete PyNone). vm_compute. reflexivity.
Defined.

(* ===================================================================== *)
(** ** Further properties: the channel numbers of [plot_crate] *)
(* ===================================================================== *)

Lemma col_add_lookup (c1 c2 xs : list cell) :
  col_add c1 c2 = Ok xs ->
  forall i x, xs !! i = Some x ->
              exists a b, c1 !! i = Some a /\ c2 !! i = Some b /\
                          py_add a b = Ok x.
Proof.
  revert c2 xs. induction c1 as [| a c1 IH]; intros c2 xs; simpl.
  - intros [= <-] i x H. discriminate H.
  - destruct c2 as [| b c2]; [intros [= <-] i x H; discriminate H |].
    destruct (py_add a b) as [v |] eqn:Hv; [| discriminate].
    destruct (col_add c1 c2) as [vs |] eqn:Hvs; [| discriminate].
    intros [= <-] i x. destruct i as [| i]; simpl.
    + intros [= <-]. eauto.
    + intros Hx. apply (IH c2 vs Hvs i x Hx).
Qed.

Lemma crate_x_decodes (bo ch xs : list cell) (i : nat) (x : cell) (b k : Z) :
  col_add (col_mul 64 bo) ch = Ok xs ->
  xs !! i = Some x -> bo !! i = Some (Int b) -> ch !! i = Some (Int k) ->
  x = Int (wrap64 (64 * b + k)).
Proof.
  intros Hxs Hx Hb Hk.
  destruct (col_add_lookup _ _ _ Hxs i x Hx) as (a' & b' & Ha & Hb' & Hadd).
  unfold col_mul in Ha. rewrite list_lookup_fmap, Hb in Ha.
  injection Ha as <-. rewrite Hk in Hb'. injection Hb' as <-.
  apply py_add_mul_int. exact Hadd.
Qed.

Lemma crate_x_exact (b k : Z) :
  int64 (64 * b) -> 0 <= k < 64 -> wrap64 (64 * b + k) = 64 * b + k.
Proof.
  intros Hb Hk. apply wrap64_id. unfold int64 in *. lia.
Qed.

Section CrateLimits.

Variable lib_raises : libcall -> option exn.

Lemma plot_crate_xlim_wp datasets labels metric component w :
  wp (plot_crate lib_raises datasets labels metric component) w
     (fun c => forall ax lo hi,
                 c = SetXlim ax lo hi -> lo = Zn 0 /\ hi = Zn 576)
     (fun _ _ => True) (fun _ _ => True).
Proof.
  unfold plot_crate.
  repeat wp_step; auto; try (intros ? ? ? ?; discriminate).
  wp_loop (fun (_ : option pyval) (_ : world) => True).
  - intros [di d] s w1 _ _. unfold plot_crate_body.
    repeat wp_step; auto; intros ? ? ? ?; discriminate.
  - exact I.
  - intros title w1 _.
    repeat wp_step; auto; try (intros ? ? ? ?; discriminate).
    + intros ax lo hi [= _ <- <-]. auto.
    + destruct title; repeat wp_step; auto; intros ? ? ? ?; discriminate.
Qed.

End CrateLimits.

(** The x coordinate [64*board + ch] that [plot_crate] scatters identifies
    the channel as long as [64*board] does not overflow.  On a row with
    integer board [b] and channel [k] it is the 64-bit integer
    [64*b + k].  When [64*b] lies in the 64-bit range and [k] in 0..63, it is
    the exact integer [64*b + k], from which [b] and [k] are recovered as
    quotient and remainder by 64, and two such rows with the same x have the
    same board and channel.  When the board is one of 0..8, x lies within
    the limits that every [set_xlim] call of [plot_crate] sets (0 and
    576). *)
Theorem crate_x_identifies_board_and_channel (bo ch xs : list cell) :
  col_add (col_mul 64 bo) ch = Ok xs ->
  (forall i x b k,
     xs !! i = Some x -> bo !! i = Some (Int b) -> ch !! i = Some (Int k) ->
     x = Int (wrap64 (64 * b + k))) /\
  (forall i x b k,
     xs !! i = Some x -> bo !! i = Some (Int b) -> ch !! i = Some (Int k) ->
     int64 (64 * b) -> 0 <= k < 64 ->
     exists z, x = Int z /\ z = 64 * b + k /\ z / 64 = b /\ z mod 64 = k) /\
  (forall i j x bi ki bj kj,
     xs !! i = Some x -> xs !! j = Some x ->
     bo !! i = Some (Int bi) -> ch !! i = Some (Int ki) ->
     bo !! j = Some (Int bj) -> ch !! j = Some (Int kj) ->
     int64 (64 * bi) -> int64 (64 * bj) ->
     0 <= ki < 64 -> 0 <= kj < 64 ->
     bi = bj /\ ki = kj) /\
  (forall i x b k,
     xs !! i = Some x -> bo !! i = Some (Int b) -> ch !! i = Some (Int k) ->
     0 <= b < 9 -> 0 <= k < 64 ->
     exists z,
       x = Int z /\
       forall lib_raises datasets labels metric component w n ax lo hi,
         log (plot_crate lib_raises datasets labels metric component w) !! n
           = Some (SetXlim ax lo hi) ->
         exists a c, lo = Zn a /\ hi = Zn c /\ a <= z < c).
Proof.
  intros Hxs. split; [| split; [| split]].
  - intros i x b k Hx Hb Hk. eapply crate_x_decodes; eassumption.
  - intros i x b k Hx Hb Hk Hbr Hkr.
    exists (64 * b + k).
    split; [rewrite <- (crate_x_exact b k Hbr Hkr);
            eapply crate_x_decodes; eassumption |].
    split; [reflexivity |].
    split; [symmetry; apply (Z.div_unique _ 64 b k); lia |].
    symmetry. apply (Z.mod_unique _ 64 b k); lia.
  - intros i j x bi ki bj kj Hxi Hxj Hbi Hki Hbj Hkj Hbri Hbrj Hri Hrj.
    pose proof (crate_x_decodes _ _ _ _ _ _ _ Hxs Hxi Hbi Hki) as Hi.
    pose proof (crate_x_decodes _ _ _ _ _ _ _ Hxs Hxj Hbj Hkj) as Hj.
    rewrite (crate_x_exact bi ki Hbri Hri) in Hi.
    rewrite (crate_x_exact bj kj Hbrj Hrj) in Hj.
    rewrite Hi in Hj. injection Hj as Hj. lia.
  - intros i x b k Hx Hb Hk Hbr Hkr.
    exists (64 * b + k). split.
    + rewrite <- (crate_x_exact b k) by (unfold int64; lia).
      eapply crate_x_decodes; eassumption.
    + intros lib_raises datasets labels metric component w n ax lo hi Hn.
      destruct (wp_log _ _ _ _ _ _ _
                  (plot_crate_xlim_wp lib_raises datasets labels metric
                     component w) Hn ax lo hi eq_refl) as [-> ->].
      exists 0, 576. repeat split; lia.
Qed.

Lemma crate_x_identifies_board_and_channel_witness :
  Int 255 = Int (wrap64 (64 * 3 + 63)) /\
  (exists z, Int 255 = Int z /\ z = 64 * 3 + 63 /\ z / 64 = 3 /\
             z mod 64 = 63) /\
  (exists z,
     Int 255 = Int z /\
     forall lib_raises datasets labels metric component w n ax lo hi,
       log (plot_crate lib_raises datasets labels metric component w) !! n
         = Some (SetXlim ax lo hi) ->
       exists a c, lo = Zn a /\ hi = Zn c /\ a <= z < c).
Proof.
  destruct (crate_x_identifies_board_and_channel
              [Int 2; Int 3] [Int 5; Int 63] [Int 133; Int 255] eq_refl)
    as (Hwrap & Hdecode & _ & Hlim).
  split; [| split].
  - apply (Hwrap 1%nat (Int 255) 3 63); reflexivity.
  - apply (Hdecode 1%nat (Int 255) 3 63);
      [reflexivity | reflexivity | reflexivity | unfold int64; lia | lia].
  - apply (Hlim 1%nat (Int 255) 3 63); [reflexivity .. | lia | lia].
Defined.

(** Beyond the 64-bit range the x coordinate wraps around: board [2^58] with
    channel 3 is plotted at x = 3, as board 0 with channel 3 is. *)
Example crate_x_wraps_around :
  col_add (col_mul 64 [Int 288230376151711744; Int 0]) [Int 3; Int 3]
    = Ok [Int 3; Int 3].
Proof. vm_compute. reflexivity. Qed.

(* ===================================================================== *)
(** ** Further properties: the title of [plot_wire_planes] *)
(* ===================================================================== *)

Lemma split_head_cons (sep : string) (c : Ascii.ascii) (s : string) :
  split_head sep (String c s)
    = if String.prefix sep (String c s) then EmptyString
      else String c (split_head sep s).
Proof. reflexivity. Qed.

(** [s.split(sep)[0]] is the part of [s] before the first occurrence of
    [sep]: [s] continues after it with [sep] or ends, and [sep] starts
    nowhere earlier. *)
Lemma split_head_prefix (sep s : string) :
  exists rest, s = (split_head sep s ++ rest)%string /\
               (rest = EmptyString \/ String.prefix sep rest = true).
Proof.
  induction s as [| c s IH].
  - exists EmptyString. destruct sep; simpl; auto.
  - rewrite split_head_cons. destruct (String.prefix sep (String c s)) eqn:Hp.
    + exists (String c s). auto.
    + destruct IH as (rest & Hs & Hrest). exists rest.
      split; [| exact Hrest].
      change (String c s = String c (split_head sep s ++ rest)%string).
      f_equal. exact Hs.
Qed.

Lemma split_head_first (sep s a b : string) :
  s = (a ++ b)%string -> String.prefix sep b = true ->
  (String.length (split_head sep s) <= String.length a)%nat.
Proof.
  revert a. induction s as [| c s IH]; intros a Hs Hb.
  - destruct sep; simpl; lia.
  - rewrite split_head_cons. destruct (String.prefix sep (String c s)) eqn:Hp;
      [simpl; lia |].
    destruct a as [| c' a].
    + change (String c s = b) in Hs. subst b. congruence.
    + change (String c s = String c' (a ++ b)%string) in Hs.
      injection Hs as <- Hs. simpl. apply le_n_S. apply IH; assumption.
Qed.

Lemma tpc_name_range (tpc : Z) :
  is_Some (tpc_name !! tpc) <-> 0 <= tpc <= 3.
Proof.
  split.
  - intros [name H]. unfold tpc_name in H. simpl in H.
    repeat (apply lookup_insert_Some in H as [[<- _] | [_ H]]; [lia |]).
    rewrite lookup_empty in H. discriminate H.
  - intros H.
    assert (tpc = 0 \/ tpc = 1 \/ tpc = 2 \/ tpc = 3) as [-> | [-> | [-> | ->]]]
      by lia; eexists; vm_compute; reflexivity.
Qed.

Section WireTitle.

Variable lib_raises : libcall -> option exn.

Lemma plot_wire_planes_title_wp data metric metric_label tpc w :
  wp (plot_wire_planes lib_raises data metric metric_label tpc) w
     (wire_title w metric_label tpc) (fun _ _ => True) (fun _ _ => True).
Proof.
  unfold plot_wire_planes.
  repeat wp_step; auto; try (intros ? ? ?; discriminate).
  wp_loop (fun _ : world => True).
  - intros p w1 _ _. unfold plot_wire_planes_body.
    repeat wp_step; auto; try (intros ? ? ?; discriminate).
  - exact I.
  - intros ? w1 _. repeat wp_step; auto; try (intros ? ? ?; discriminate).
    intros fig t Heq. injection Heq as <- <-.
    split; [reflexivity |].
    match goal with
    | H : dict_get tpc_name tpc = Ok ?n |- _ =>
        exists n; split; [| reflexivity];
        unfold dict_get in H; destruct (tpc_name !! tpc); congruence
    end.
Qed.

Lemma plot_wire_planes_titles data metric metric_label tpc w :
  reaches (plot_wire_planes lib_raises data metric metric_label tpc) w
          (fun c => exists name,
             tpc_name !! tpc = Some name /\
             c = Suptitle (nfigs w)
                   (VStr (split_head " [" metric_label
                          ++ " by Plane for " ++ name))).
Proof.
  unfold plot_wire_planes. do 6 reach_later.
  eapply reaches_bind_later; [apply wp_trivial |]. intros _ wa _.
  eapply reaches_bind_later; [apply wp_trivial |]. intros cax wb _.
  do 4 reach_later. reach_here.
  match goal with
  | H : dict_get tpc_name tpc = Ok ?n |- _ =>
      exists n; split; [| reflexivity];
      unfold dict_get in H; destruct (tpc_name !! tpc); congruence
  end.
Qed.

End WireTitle.

(** The title of [plot_wire_planes].  Every [suptitle] call it makes is on
    its own figure and passes the metric label cut before its first [" ["]
    (the unit), followed by [" by Plane for "] and the name of the TPC; the
    cut label is a prefix of the label, after which the label ends or
    continues with [" ["], and no [" ["] starts earlier.  A call that
    returns has set this title, and its [tpc] is one of 0, 1, 2, 3: for any
    other [tpc] the procedure does not return. *)
Theorem plot_wire_planes_title (lib_raises : libcall -> option exn)
    (data : loc) (metric metric_label : string) (tpc : Z) (w : world) :
  (forall k fig t,
     log (plot_wire_planes lib_raises data metric metric_label tpc w) !! k
       = Some (Suptitle fig t) ->
     fig = nfigs w /\ 0 <= tpc <= 3 /\
     exists name,
       tpc_name !! tpc = Some name /\
       t = VStr (split_head " [" metric_label ++ " by Plane for " ++ name)) /\
  (exists rest,
     metric_label = (split_head " [" metric_label ++ rest)%string /\
     (rest = EmptyString \/ String.prefix " [" rest = true)) /\
  (forall a b,
     metric_label = (a ++ b)%string -> String.prefix " [" b = true ->
     (String.length (split_head " [" metric_label) <= String.length a)%nat) /\
  (forall v,
     res (plot_wire_planes lib_raises data metric metric_label tpc w) = Ok v ->
     0 <= tpc <= 3 /\
     exists k name,
       tpc_name !! tpc = Some name /\
       log (plot_wire_planes lib_raises data metric metric_label tpc w) !! k
         = Some (Suptitle (nfigs w)
                   (VStr (split_head " [" metric_label
                          ++ " by Plane for " ++ name)))).
Proof.
  split; [| split; [| split]].
  - intros k fig t Hk.
    destruct (wp_log _ _ _ _ _ _ _
                (plot_wire_planes_title_wp lib_raises data metric metric_label
                   tpc w) Hk fig t eq_refl) as (-> & name & Hname & ->).
    split; [reflexivity |].
    split; [apply tpc_name_range; eauto | eauto].
  - apply split_head_prefix.
  - intros a b. apply split_head_first.
  - intros v Hv.
    destruct (plot_wire_planes_titles lib_raises data metric metric_label
                tpc w) as (k & c & Hk & name & Hname & ->); [eauto |].
    split; [apply tpc_name_range; eauto | eauto].
Qed.

Lemma plot_wire_planes_title_witness :
  (0%nat = nfigs sample_world /\ 0 <= 1 <= 3 /\
   exists name,
     tpc_name !! 1 = Some name /\
     VStr "RMS by Plane for EW"
       = VStr (split_head " [" "RMS [ADC]" ++ " by Plane for " ++ name)) /\
  (0 <= 1 <= 3 /\
   exists k name,
     tpc_name !! 1 = Some name /\
     log (plot_wire_planes quiet 0%nat "rawrms" "RMS [ADC]" 1 sample_world)
       !! k
       = Some (Suptitle (nfigs sample_world)
                 (VStr (split_head " [" "RMS [ADC]"
                        ++ " by Plane for " ++ name)))).
Proof.
  destruct (plot_wire_planes_title quiet 0%nat "rawrms" "RMS [ADC]" 1
              sample_world) as (Hsound & _ & _ & Hcomplete).
  split.
  - apply (Hsound 36%nat 0%nat (VStr "RMS by Plane for EW")).
    vm_compute. reflexivity.
  - apply (Hcomplete PyNone). vm_compute. reflexivity.
Defined.

(* ===================================================================== *)
(** ** Further properties: the colours of [plot_wire_planes] *)
(* ===================================================================== *)

(** [wires[metric]] on the merged frame is the metric value of each joined
    row, also when the metric is the join key itself. *)
Lemma merged_col_values metric d_id d_m mask wires vals :
  (metric = "channel_id" -> d_m = d_id) ->
  merged_col metric (merge_inner wires (metric_rows d_id d_m mask)) = Ok vals ->
  vals = map snd (merge_inner wires (metric_rows d_id d_m mask)).
Proof.
  intros Hkey. unfold merged_col.
  case_bool_decide; [discriminate |].
  case_bool_decide as Hm; intros [= <-]; [| reflexivity].
  apply list_eq. intros i. rewrite !list_lookup_fmap.
  destruct (merge_inner _ _ !! i) as [row |] eqn:Hrow; [| reflexivity].
  simpl. f_equal.
  apply list_elem_of_lookup_2, elem_of_merge_inner in Hrow
    as (wr & tr & _ & Htr & Hid & ->).
  apply elem_of_metric_rows in Htr as (j & _ & Ha & Hb).
  rewrite (Hkey Hm) in Hb. simpl. congruence.
Qed.

Lemma paired_maps {A B C : Type} (f : A -> B) (g : A -> C) (l : list A) :
  Forall2 (fun b c => exists a, a ∈ l /\ b = f a /\ c = g a)
          (map f l) (map g l).
Proof.
  apply Forall2_same_length_lookup_2; [rewrite !length_map; reflexivity |].
  intros i b c Hb Hc.
  rewrite list_lookup_fmap in Hb. rewrite list_lookup_fmap in Hc.
  destruct (l !! i) as [a |] eqn:Ha; [| discriminate].
  injection Hb as <-. injection Hc as <-.
  exists a. split; [| auto]. eapply list_elem_of_lookup_2. exact Ha.
Qed.

Section WireColours.

Variable lib_raises : libcall -> option exn.

Lemma plot_wire_planes_body_colours fig data metric tpc p w0 w :
  dsets w = dsets w0 ->
  wp (plot_wire_planes_body lib_raises (axs_of fig) data metric tpc p) w
     (segment_colours (dsets w0 data) metric tpc)
     (fun _ w' => dsets w' = dsets w0) (fun _ _ => True).
Proof.
  intros Hw. unfold plot_wire_planes_body.
  repeat wp_step; auto; try (intros ? ? ? ?; discriminate).
  intros ax segs cs Heq. injection Heq as <- <- <-.
  repeat match goal with
         | H : list_index (axs_of _) _ = Ok _ |- _ =>
             apply axs_of_index in H as [? ->]
         | H : frame_merge _ _ = Ok _ |- _ =>
             apply frame_merge_Ok in H as ->
         end.
  rewrite Hw in *.
  match goal with
  | Hcid : chmap _ !! "channel_id" = Some ?c_id,
    Hmask : chmap_mask ?c_id tpc = Ok ?mask,
    Hwires : chmap_wires _ ?mask = Ok ?wires,
    Hid : dtable _ !! "channel_id" = Some ?d_id,
    Hm : dtable _ !! metric = Some ?d_m,
    Hplane : dtable _ !! "plane" = Some ?d_plane,
    Hvals : merged_col metric _ = Ok ?vals |- _ =>
      exists p, wires,
        (metric_rows d_id d_m (col_eq d_plane (Int (Z.of_nat p))));
      split; [reflexivity |];
      split; [exact (chmap_wires_rows _ _ _ _ _ Hcid Hmask Hwires) |];
      split; [exact (metric_rows_plane _ _ p _ _ _ Hid Hm Hplane) |];
      apply merged_col_values in Hvals; [| intros ->; congruence];
      rewrite Hvals
  end.
  eapply Forall2_impl; [apply paired_maps |].
  intros seg colour (row & Hrow & -> & ->).
  apply elem_of_merge_inner in Hrow as (wr & tr & Hwr & Htr & Hkey & ->).
  exists wr, tr. auto.
Qed.

Lemma plot_wire_planes_colours_wp data metric metric_label tpc w :
  wp (plot_wire_planes lib_raises data metric metric_label tpc) w
     (segment_colours (dsets w data) metric tpc)
     (fun _ _ => True) (fun _ _ => True).
Proof.
  unfold plot_wire_planes.
  repeat wp_step; auto; try (intros ? ? ? ?; discriminate).
  wp_loop (fun w' : world => dsets w' = dsets w).
  - intros p w1 _ Hw1. apply plot_wire_planes_body_colours. exact Hw1.
  - reflexivity.
  - intros ? w1 _. repeat wp_step; auto; try (intros ? ? ? ?; discriminate).
Qed.

End WireColours.

(** Segments and colours go in pairs.  In every [add_collection] call of
    [plot_wire_planes], on the axes of a plane [p], there are as many colours
    as segments, and the i-th colour is computed from the metric value of the
    i-th segment's own channel: the segment is that of a wire of the TPC in
    the channel map, the value that of a row of plane [p] with the wire's
    channel id.  This also holds when the metric is the [channel_id]
    column. *)
Theorem plot_wire_planes_colours_each_wire_by_its_channel
    (lib_raises : libcall -> option exn)
    (data : loc) (metric metric_label : string) (tpc : Z) (w : world)
    (k : nat) (ax : axes) (segs : list segment) (cs : list cell) :
  log (plot_wire_planes lib_raises data metric metric_label tpc w) !! k
    = Some (AddCollection ax segs cs) ->
  length segs = length cs /\
  exists p wires tmp,
    ax_pos ax = Cell 3 10 p 0 9 /\
    chmap_rows_of_tpc (chmap (dsets w data)) tpc wires /\
    metric_rows_of_plane (dtable (dsets w data)) metric p tmp /\
    Forall2 (fun seg col =>
               exists wr tr,
                 wr ∈ wires /\ tr ∈ tmp /\ w_id wr = fst tr /\
                 seg = ((w_z0 wr, w_y0 wr), (w_z1 wr, w_y1 wr)) /\
                 col = snd tr)
            segs cs.
Proof.
  intros Hk.
  destruct (wp_log _ _ _ _ _ _ _
              (plot_wire_planes_colours_wp lib_raises data metric metric_label
                 tpc w) Hk ax segs cs eq_refl)
    as (p & wires & tmp & Hpos & Hwires & Htmp & Hpairs).
  split; [eapply Forall2_length; exact Hpairs |].
  exists p, wires, tmp. auto.
Qed.

Lemma plot_wire_planes_colours_each_wire_by_its_channel_witness :
  length [((Int (-800), Int (-180)), (Int (-800), Int 130));
          ((Int (-700), Int (-180)), (Int (-700), Int 130))]
    = length [Int 3; Int 6] /\
  exists p wires tmp,
    Cell 3 10 0 0 9 = Cell 3 10 p 0 9 /\
    chmap_rows_of_tpc (chmap (dsets sample_world 0%nat)) 0 wires /\
    metric_rows_of_plane (dtable (dsets sample_world 0%nat)) "rawrms" p tmp /\
    Forall2 (fun seg col =>
               exists wr tr,
                 wr ∈ wires /\ tr ∈ tmp /\ w_id wr = fst tr /\
                 seg = ((w_z0 wr, w_y0 wr), (w_z1 wr, w_y1 wr)) /\
                 col = snd tr)
            [((Int (-800), Int (-180)), (Int (-800), Int 130));
             ((Int (-700), Int (-180)), (Int (-700), Int 130))]
            [Int 3; Int 6].
Proof.
  apply (plot_wire_planes_colours_each_wire_by_its_channel quiet 0%nat
           "rawrms" "RMS [ADC]" 0 sample_world 10%nat
           (Axes 0 (Cell 3 10 0 0 9))).
  vm_compute. reflexivity.
Defined.

(* ===================================================================== *)
(** ** Branches that cannot be taken *)
(* ===================================================================== *)

Lemma list_index_is_Some {A : Type} (l : list A) (i : nat) (e : exn) :
  is_Some (l !! i) -> list_index l i <> Raise e.
Proof. intros [x H]. unfold list_index. rewrite H. discriminate. Qed.

(** A branch of the symbolic execution that cannot be taken. *)
Ltac impossible_branch Hlib :=
  exfalso;
  match goal with
  | H : _ = Some ?e |- _ => rewrite Hlib in H; discriminate H
  | H : list_index _ _ = Raise _ |- _ =>
      revert H; apply list_index_is_Some; apply lookup_lt_is_Some; simpl; lia
  | H : list_index _ _ = Raise _ |- _ =>
      revert H; apply list_index_is_Some; assumption
  | H : ?t !! ?name = None, H' : ?t !! ?name = Some _ |- _ => congruence
  end.

(* ===================================================================== *)
(** ** Further properties: when [plot_tpc] returns *)
(* ===================================================================== *)

Section TpcReturns.

Variable lib_raises : libcall -> option exn.

Lemma plot_tpc_body_returns fig labels metric tpc pi p di d w0 w :
  (forall c, lib_raises c = None) ->
  (pi < 3)%nat -> is_Some (labels !! di) ->
  Forall (fun name => is_Some (dtable (dsets w0 d) !! name))
         ["tpc"; "plane"; "channel_id"; metric] ->
  dsets w = dsets w0 ->
  wp (plot_tpc_body lib_raises (saxs_of fig) (haxs_of fig) labels metric tpc
        pi p di d) w
     (fun _ => True) (fun _ w' => dsets w' = dsets w0) (fun _ _ => False).
Proof.
  intros Hlib Hpi Hlbl Hcols Hw.
  rewrite !Forall_cons in Hcols.
  destruct Hcols as ([c1 H1] & [c2 H2] & [c3 H3] & [c4 H4] & _).
  rewrite <- Hw in H1, H2, H3, H4.
  unfold plot_tpc_body.
  repeat wp_step; auto; impossible_branch Hlib.
Qed.

Lemma plot_tpc_returns_wp datasets labels metric tpc w :
  (forall c, lib_raises c = None) ->
  tpc_inputs_ok w datasets labels metric ->
  wp (plot_tpc lib_raises datasets labels metric tpc) w
     (fun _ => True) (fun v _ => v = PyNone) (fun _ _ => False).
Proof.
  intros Hlib Hok. unfold plot_tpc.
  repeat wp_step; auto; try impossible_branch Hlib.
  wp_loop (fun w' : world => dsets w' = dsets w).
  - intros [pi p] w1 Hp Hw1.
    apply elem_of_enumerate, lookup_lt_Some in Hp. simpl in Hp.
    wp_loop (fun w' : world => dsets w' = dsets w); [| exact Hw1 | auto].
    intros [di d] w2 Hd Hw2.
    apply elem_of_enumerate in Hd. destruct (Hok di d Hd) as [Hlbl Hcols].
    apply plot_tpc_body_returns; assumption.
  - reflexivity.
  - intros ? w1 _. repeat wp_step; auto.
Qed.

Lemma plot_tpc_body_needs fig labels metric tpc pi p di d w0 w :
  dsets w = dsets w0 ->
  reaches (plot_tpc_body lib_raises (saxs_of fig) (haxs_of fig) labels metric
             tpc pi p di d) w
          (fun _ =>
             is_Some (labels !! di) /\
             Forall (fun name => is_Some (dtable (dsets w0 d) !! name))
                    ["tpc"; "plane"; "channel_id"; metric]).
Proof.
  intros Hw. unfold plot_tpc_body. do 6 reach_later. reach_here.
  rewrite Hw in *.
  split.
  - match goal with
    | H : list_index labels di = Ok _ |- _ =>
        apply list_index_Some in H; eauto
    end.
  - repeat (apply Forall_cons; split; [eauto |]). apply Forall_nil. exact I.
Qed.

End TpcReturns.

(** When [plot_tpc] returns.  A call that returns had a label for every
    dataset and found the columns [tpc], [plane], [channel_id] and the metric
    in every dataset; and when no library call raises, this is all it takes:
    the call then returns [None], whatever the columns hold and whatever
    [tpc] is. *)
Theorem plot_tpc_returns_iff_inputs_ok (lib_raises : libcall -> option exn)
    (datasets : list loc) (labels : list string) (metric : string) (tpc : Z)
    (w : world) :
  (forall v,
     res (plot_tpc lib_raises datasets labels metric tpc w) = Ok v ->
     tpc_inputs_ok w datasets labels metric) /\
  ((forall c, lib_raises c = None) ->
   tpc_inputs_ok w datasets labels metric ->
   res (plot_tpc lib_raises datasets labels metric tpc w) = Ok PyNone).
Proof.
  split.
  - intros v Hv di d Hd.
    destruct (plot_tpc_reaches_body lib_raises datasets labels metric tpc w
                0 "Induction 1" di d
                (fun _ =>
                   is_Some (labels !! di) /\
                   Forall (fun name => is_Some (dtable (dsets w d) !! name))
                          ["tpc"; "plane"; "channel_id"; metric])
                eq_refl Hd) as (k & c & _ & H); [| eauto | exact H].
    intros w' Hw'. apply plot_tpc_body_needs. exact Hw'.
  - intros Hlib Hok.
    pose proof (plot_tpc_returns_wp lib_raises datasets labels metric tpc w
                  Hlib Hok) as [_ H].
    destruct (res (plot_tpc lib_raises datasets labels metric tpc w))
      as [v | e]; [rewrite H; reflexivity | contradiction].
Qed.

Lemma plot_tpc_returns_iff_inputs_ok_witness :
  tpc_inputs_ok sample_world [0%nat; 1%nat] ["run A"; "run B"] "rawrms" /\
  res (plot_tpc quiet [0%nat; 1%nat] ["run A"; "run B"] "rawrms" 7
         sample_world) = Ok PyNone.
Proof.
  destruct (plot_tpc_returns_iff_inputs_ok quiet [0%nat; 1%nat]
              ["run A"; "run B"] "rawrms" 7 sample_world) as [Hneeds Hreturns].
  assert (Hrun : res (plot_tpc quiet [0%nat; 1%nat] ["run A"; "run B"]
                        "rawrms" 7 sample_world) = Ok PyNone)
    by (vm_compute; reflexivity).
  split; [exact (Hneeds PyNone Hrun) |].
  apply Hreturns; [intros c; reflexivity | exact (Hneeds PyNone Hrun)].
Defined.

(* ===================================================================== *)
(** ** Further properties: when [plot_crate] returns *)
(* ===================================================================== *)

(** The comparison value is always found: a list [component] is indexed only
    when it has one entry per dataset. *)
Lemma choose_component_is_Ok (component : pyval) (n di : nat) (e : exn) :
  (di < n)%nat -> choose_component component n di <> Raise e.
Proof.
  intros Hdi. unfold choose_component.
  destruct component as [s | l]; simpl; [discriminate |].
  case_bool_decide as Hlen; [| discriminate].
  unfold list_index.
  destruct (l !! di) as [s |] eqn:Hs; [discriminate |].
  apply lookup_ge_None in Hs. lia.
Qed.

Lemma Forall_select {A : Type} (P : A -> Prop) (mask : list bool)
    (col : list A) :
  Forall P col -> Forall P (select mask col).
Proof.
  intros Hcol. apply Forall_forall. intros x Hx.
  unfold select in Hx. apply list_elem_of_omap in Hx as (i & _ & Hi).
  eapply Forall_lookup_1; eassumption.
Qed.

(** [64*board + ch] on integers raises nothing. *)
Lemma col_add_integers (bo ch : list cell) (e : exn) :
  Forall int_cell bo -> Forall int_cell ch ->
  col_add (col_mul 64 bo) ch <> Raise e.
Proof.
  intros Hbo. revert ch. induction Hbo as [| b bo Hb Hbo IH]; intros ch Hch.
  - discriminate.
  - destruct Hch as [| k ch Hk Hch]; [discriminate |].
    destruct b as [b |]; [| contradiction].
    destruct k as [k |]; [| contradiction].
    simpl. specialize (IH ch Hch).
    destruct (col_add (col_mul 64 bo) ch); [discriminate | congruence].
Qed.

Section CrateReturns.

Variable lib_raises : libcall -> option exn.

Lemma plot_crate_body_returns ax n labels metric component di d w0 w :
  (forall c, lib_raises c = None) ->
  (di < n)%nat -> is_Some (labels !! di) ->
  Forall (fun name => is_Some (dtable (dsets w0 d) !! name))
         ["flange"; "board"; "ch"; metric] ->
  (forall l fl,
     component = VList l -> length l <> n ->
     dtable (dsets w0 d) !! "flange" = Some fl -> length l = length fl) ->
  (forall name col,
     name ∈ ["board"; "ch"] -> dtable (dsets w0 d) !! name = Some col ->
     Forall int_cell col) ->
  dsets w = dsets w0 ->
  wp (plot_crate_body lib_raises ax n labels metric component di d) w
     (fun _ => True)
     (fun s w' => dsets w' = dsets w0 /\ is_Some s) (fun _ _ => False).
Proof.
  intros Hlib Hdi Hlbl Hcols Hcmp Hint Hw.
  rewrite !Forall_cons in Hcols.
  destruct Hcols as ([c1 H1] & [c2 H2] & [c3 H3] & [c4 H4] & _).
  rewrite <- Hw in H1, H2, H3, H4.
  unfold plot_crate_body.
  repeat wp_step; auto;
    try match goal with
        | H : choose_component _ _ _ = Raise _ |- _ =>
            exfalso; revert H; apply choose_component_is_Ok; exact Hdi
        | Hc : choose_component _ _ _ = Ok ?ct,
          H : col_eq_val ?fl _ = Raise _ |- _ =>
            exfalso; destruct ct as [cv title]; cbn [fst snd] in *;
            apply col_eq_val_raises in H as (_ & l & -> & Hne);
            apply choose_component_branches in Hc
              as [(l' & s & _ & _ & _ & Hcv & _) | (Hlen & Hcv & _)];
            [discriminate Hcv |];
            apply Hne; apply (Hcmp l fl);
            [ symmetry; exact Hcv
            | intros Hl; apply Hlen; exists l; split;
              [symmetry; exact Hcv | exact Hl]
            | rewrite <- Hw; congruence ]
        | H : col_add _ _ = Raise _ |- _ =>
            exfalso; revert H;
            apply col_add_integers; apply Forall_select;
            [apply (Hint "board") | apply (Hint "ch")];
            (set_solver || (rewrite <- Hw; assumption))
        end;
    try impossible_branch Hlib.
Qed.

Lemma plot_crate_returns_wp datasets labels metric component w :
  (forall c, lib_raises c = None) ->
  crate_inputs_ok w datasets labels metric component ->
  integer_channels w datasets ->
  wp (plot_crate lib_raises datasets labels metric component) w
     (fun _ => True) (fun v _ => v = PyNone) (fun _ _ => False).
Proof.
  intros Hlib (Hne & Hok & Hcmp) Hint.
  assert (Hbody : forall x s w',
            x ∈ enumerate datasets -> dsets w' = dsets w ->
            wp ((fun '(di, d) (_ : option pyval) =>
                   plot_crate_body lib_raises (Axes (nfigs w) Whole)
                     (length datasets) labels metric component di d) x s) w'
               (fun _ => True)
               (fun s' w'' => dsets w'' = dsets w /\ is_Some s')
               (fun _ _ => False)).
  { intros [di d] s w' Hd Hw'. apply elem_of_enumerate in Hd.
    destruct (Hok di d Hd) as [Hlbl Hcols].
    apply plot_crate_body_returns; try assumption.
    - apply lookup_lt_Some in Hd. exact Hd.
    - intros l fl -> Hlen Hfl. simpl in Hcmp.
      destruct Hcmp as [Hl | Hrows]; [contradiction |].
      exact (Hrows di d fl Hd Hfl).
    - intros name col. apply (Hint di d name col Hd). }
  unfold plot_crate.
  repeat wp_step; auto; try impossible_branch Hlib.
  destruct (enumerate datasets) as [| x l] eqn:Hl.
  { destruct datasets; [contradiction | discriminate Hl]. }
  cbn [for_fold]. wp_step.
  eapply wp_mono; [apply (Hbody x None); [left | reflexivity] | auto | | auto].
  intros s1 w1 [Hw1 Hs1]. cbv beta.
  eapply wp_mono;
    [ apply (wp_for_fold (fun _ => True) l _
               (fun s' w'' => dsets w'' = dsets w /\ is_Some s')
               (fun _ _ => False))
    | auto | | auto ].
  - intros y s w' Hy [Hw' _]. apply (Hbody y s w'); [right; exact Hy | exact Hw'].
  - split; assumption.
  - intros title w2 [_ [t ->]].
    repeat wp_step; auto; try impossible_branch Hlib.
Qed.

Lemma plot_crate_body_needs ax n labels metric component di d w0 w :
  dsets w = dsets w0 ->
  reaches (plot_crate_body lib_raises ax n labels metric component di d) w
          (fun _ =>
             is_Some (labels !! di) /\
             Forall (fun name => is_Some (dtable (dsets w0 d) !! name))
                    ["flange"; "board"; "ch"; metric] /\
             forall l fl,
               component = VList l -> length l <> n ->
               dtable (dsets w0 d) !! "flange" = Some fl ->
               length l = length fl).
Proof.
  intros Hw. unfold plot_crate_body. do 8 reach_later. reach_here.
  rewrite Hw in *.
  split; [| split].
  - match goal with
    | H : list_index labels di = Ok _ |- _ =>
        apply list_index_Some in H; eauto
    end.
  - repeat (apply Forall_cons; split; [eauto |]). apply Forall_nil. exact I.
  - intros l fl -> Hlen Hfl.
    match goal with
    | Hc : choose_component _ _ _ = Ok _, Hm : col_eq_val _ _ = Ok _ |- _ =>
        rewrite (choose_component_whole l n di Hlen) in Hc;
        injection Hc as <-; cbn [fst] in Hm;
        apply col_eq_val_rows in Hm as [_ [Hm _]]
    end.
    congruence.
Qed.

Lemma plot_crate_needs datasets labels metric component w di d :
  datasets !! di = Some d ->
  reaches (plot_crate lib_raises datasets labels metric component) w
          (fun _ =>
             is_Some (labels !! di) /\
             Forall (fun name => is_Some (dtable (dsets w d) !! name))
                    ["flange"; "board"; "ch"; metric] /\
             forall l fl,
               component = VList l -> length l <> length datasets ->
               dtable (dsets w d) !! "flange" = Some fl ->
               length l = length fl).
Proof.
  intros Hd. unfold plot_crate. do 3 reach_later.
  apply reaches_bind_here.
  apply (reaches_for_fold _ _ _ (fun _ w' => dsets w' = dsets w) di (di, d));
    [apply lookup_enumerate; exact Hd | | | assumption].
  - intros [di' d'] s w' _ Hw'. apply plot_crate_body_keeps_store. exact Hw'.
  - intros s wa Hwa. apply plot_crate_body_needs. exact Hwa.
Qed.

Lemma plot_crate_needs_a_dataset labels metric component w :
  wp (plot_crate lib_raises [] labels metric component) w
     (fun _ => True) (fun _ _ => False) (fun _ _ => True).
Proof.
  unfold plot_crate, enumerate. simpl imap. cbn [for_fold].
  repeat wp_step; auto.
Qed.

End CrateReturns.

(** When [plot_crate] returns.  A call that returns had at least one dataset,
    a label for every dataset, found the columns [flange], [board], [ch] and
    the metric in every dataset, and was given a [component] that can be
    compared with the [flange] columns: a string, a list with one entry per
    dataset, or a list with one entry per row of every dataset.  When
    moreover no library call raises, the datasets are tables (one cell per
    row in every column) and their [board] and [ch] columns hold integers,
    this is all it takes: the call returns [None]. *)
Theorem plot_crate_returns_when_inputs_ok (lib_raises : libcall -> option exn)
    (datasets : list loc) (labels : list string) (metric : string)
    (component : pyval) (w : world) :
  (forall v,
     res (plot_crate lib_raises datasets labels metric component w) = Ok v ->
     crate_inputs_ok w datasets labels metric component) /\
  ((forall c, lib_raises c = None) ->
   crate_inputs_ok w datasets labels metric component ->
   (forall di d, datasets !! di = Some d -> wf_table (dtable (dsets w d))) ->
   integer_channels w datasets ->
   res (plot_crate lib_raises datasets labels metric component w)
     = Ok PyNone).
Proof.
  split.
  - intros v Hv.
    assert (Hneeds : forall di d, datasets !! di = Some d ->
              is_Some (labels !! di) /\
              Forall (fun name => is_Some (dtable (dsets w d) !! name))
                     ["flange"; "board"; "ch"; metric] /\
              forall l fl,
                component = VList l -> length l <> length datasets ->
                dtable (dsets w d) !! "flange" = Some fl ->
                length l = length fl).
    { intros di d Hd.
      destruct (plot_crate_needs lib_raises datasets labels metric component
                  w di d Hd) as (k & c & _ & H); [eauto | exact H]. }
    split; [| split].
    + intros ->.
      pose proof (plot_crate_needs_a_dataset lib_raises labels metric
                    component w) as [_ H].
      rewrite Hv in H. exact H.
    + intros di d Hd. destruct (Hneeds di d Hd) as (H1 & H2 & _). auto.
    + destruct component as [s | l]; simpl; [exact I |].
      destruct (decide (length l = length datasets)) as [Hl | Hl];
        [left; exact Hl | right].
      intros di d fl Hd Hfl.
      destruct (Hneeds di d Hd) as (_ & _ & H). exact (H l fl eq_refl Hl Hfl).
  - intros Hlib Hok _ Hint.
    pose proof (plot_crate_returns_wp lib_raises datasets labels metric
                  component w Hlib Hok Hint) as [_ H].
    destruct (res (plot_crate lib_raises datasets labels metric component w))
      as [v | e]; [rewrite H; reflexivity | contradiction].
Qed.

Lemma plot_crate_returns_when_inputs_ok_witness :
  crate_inputs_ok sample_world [0%nat; 1%nat] ["run A"; "run B"] "rawrms"
    (VList ["WW19"; "XX00"; "EE01"; "WW19"]) /\
  res (plot_crate quiet [0%nat; 1%nat] ["run A"; "run B"] "rawrms"
         (VList ["WW19"; "XX00"; "EE01"; "WW19"]) sample_world) = Ok PyNone.
Proof.
  destruct (plot_crate_returns_when_inputs_ok quiet [0%nat; 1%nat]
              ["run A"; "run B"] "rawrms"
              (VList ["WW19"; "XX00"; "EE01"; "WW19"])
              sample_world) as [Hneeds Hreturns].
  assert (Hrun : res (plot_crate quiet [0%nat; 1%nat] ["run A"; "run B"]
                        "rawrms" (VList ["WW19"; "XX00"; "EE01"; "WW19"])
                        sample_world) = Ok PyNone)
    by (vm_compute; reflexivity).
  split; [exact (Hneeds PyNone Hrun) |].
  apply Hreturns; [intros c; reflexivity | exact (Hneeds PyNone Hrun) | |].
  - intros di d _. apply sample_table_wf.
  - intros di d name col _ Hname Hcol.
    apply elem_of_cons in Hname as [-> | Hname];
      [| apply elem_of_cons in Hname as [-> | Hname];
         [| apply elem_of_nil in Hname; contradiction]];
      vm_compute in Hcol; injection Hcol as <-; repeat constructor.
Defined.

(* ===================================================================== *)
(** ** Further properties: when [plot_wire_planes] returns *)
(* ===================================================================== *)

Lemma col_floordiv_integers (col : list cell) (n : Z) :
  Forall int_cell col <-> exists q, col_floordiv col n = Ok q.
Proof.
  induction col as [| x col IH]; simpl.
  - split; [eauto | constructor].
  - rewrite Forall_cons, IH. destruct x as [z | s]; simpl.
    + destruct (col_floordiv col n) as [vs | e].
      * split; eauto.
      * split; [intros [_ [q H]]; discriminate H | intros [q H]; discriminate H].
    + split; [intros [[] _] | intros [q H]; discriminate H].
Qed.

Lemma chmap_mask_integers (c_id : list cell) (tpc : Z) :
  Forall int_cell c_id <-> exists mask, chmap_mask c_id tpc = Ok mask.
Proof.
  rewrite (col_floordiv_integers c_id 13824). unfold chmap_mask.
  destruct (col_floordiv c_id 13824) as [q | e].
  - split; eauto.
  - split; intros [x H]; discriminate H.
Qed.

Lemma chmap_wires_columns (cm : gmap string (list cell)) (mask : list bool) :
  Forall (fun name => is_Some (cm !! name))
         ["channel_id"; "z0"; "y0"; "z1"; "y1"]
  <-> exists wires, chmap_wires cm mask = Ok wires.
Proof.
  rewrite !Forall_cons. unfold chmap_wires, table_get.
  destruct (cm !! "channel_id") as [c0 |];
    [| split; [intros [[x H] _] | intros [x H]]; discriminate H].
  destruct (cm !! "z0") as [c1 |];
    [| split; [intros (_ & [x H] & _) | intros [x H]]; discriminate H].
  destruct (cm !! "y0") as [c2 |];
    [| split; [intros (_ & _ & [x H] & _) | intros [x H]]; discriminate H].
  destruct (cm !! "z1") as [c3 |];
    [| split; [intros (_ & _ & _ & [x H] & _) | intros [x H]];
       discriminate H].
  destruct (cm !! "y1") as [c4 |];
    [| split; [intros (_ & _ & _ & _ & [x H] & _) | intros [x H]];
       discriminate H].
  split; [eauto |]. intros _. repeat (split; [eauto |]). constructor.
Qed.

Lemma merged_col_metric (metric : string) (rows : list (wire * cell)) :
  metric ∉ ["z0"; "y0"; "z1"; "y1"]
  <-> exists vals, merged_col metric rows = Ok vals.
Proof.
  unfold merged_col. case_bool_decide as Hm.
  - split; [contradiction | intros [x H]; discriminate H].
  - split; [| intros _; exact Hm]. intros _.
    case_bool_decide; eauto.
Qed.

Lemma plane_label_planes (p : nat) (e : exn) :
  p ∈ [0; 1; 2]%nat -> dict_get plane_label (Z.of_nat p) <> Raise e.
Proof.
  intros Hp.
  repeat (apply elem_of_cons in Hp as [-> | Hp]; [vm_compute; discriminate |]).
  apply elem_of_nil in Hp. contradiction.
Qed.

Lemma chmap_wires_integer_ids (cm : gmap string (list cell)) c_id mask wires :
  cm !! "channel_id" = Some c_id -> Forall int_cell c_id ->
  chmap_wires cm mask = Ok wires ->
  Forall (fun wr => int_cell (w_id wr)) wires.
Proof.
  intros Hid Hint. unfold chmap_wires. rewrite Hid.
  destruct (cm !! "z0") as [z0 |]; [| discriminate].
  destruct (cm !! "y0") as [y0 |]; [| discriminate].
  destruct (cm !! "z1") as [z1 |]; [| discriminate].
  destruct (cm !! "y1") as [y1 |]; [| discriminate].
  intros [= <-]. apply Forall_forall. intros wr Hwr.
  apply list_elem_of_omap in Hwr as (i & _ & Hi).
  apply wire_at_id in Hi.
  exact (Forall_lookup_1 _ _ _ _ Hint Hi).
Qed.

Lemma metric_rows_integer_ids (d_id d_m : list cell) (mask : list bool) :
  Forall int_cell d_id ->
  Forall (fun tr : cell * cell => int_cell (fst tr))
         (metric_rows d_id d_m mask).
Proof.
  intros Hint. apply Forall_forall. intros tr Htr.
  apply elem_of_metric_rows in Htr as (i & _ & Hi & _).
  exact (Forall_lookup_1 _ _ _ _ Hint Hi).
Qed.

(** Integer keys on both sides: the join does not raise. *)
Lemma frame_merge_integers (wires : list wire) (tmp : list (cell * cell))
    (e : exn) :
  Forall (fun wr => int_cell (w_id wr)) wires ->
  Forall (fun tr : cell * cell => int_cell (fst tr)) tmp ->
  frame_merge wires tmp <> Raise e.
Proof.
  intros Hl Hr. unfold frame_merge, keys_clash.
  destruct Hl as [| wr ws Hwr _]; [discriminate |].
  destruct Hr as [| tr ts Htr _]; [discriminate |].
  simpl. destruct (w_id wr); [| contradiction].
  destruct (fst tr); [| contradiction].
  simpl. rewrite andb_false_r. discriminate.
Qed.

Section WireReturns.

Variable lib_raises : libcall -> option exn.

Lemma plot_wire_planes_body_returns fig data metric tpc p w0 w :
  (forall c, lib_raises c = None) ->
  p ∈ [0; 1; 2]%nat ->
  wire_inputs_ok (dsets w0 data) metric tpc ->
  wire_tables_ok (dsets w0 data) ->
  dsets w = dsets w0 ->
  wp (plot_wire_planes_body lib_raises (axs_of fig) data metric tpc p) w
     (fun _ => True) (fun _ w' => dsets w' = dsets w0) (fun _ _ => False).
Proof.
  intros Hlib Hp ([c_id [Hid Hint]] & Hcm & Hcols & Hmetric & _)
         (_ & _ & Hids) Hw.
  rewrite <- Hw in Hids.
  assert (Hall : Forall (fun name => is_Some (chmap (dsets w0 data) !! name))
                        ["channel_id"; "z0"; "y0"; "z1"; "y1"])
    by (apply Forall_cons; split; [eauto | exact Hcm]).
  rewrite !Forall_cons in Hcols.
  destruct Hcols as ([c1 H1] & [c2 H2] & [c3 H3] & _).
  rewrite <- Hw in Hid, Hall, H1, H2, H3.
  assert (Hp3 : (p < 3)%nat).
  { repeat (apply elem_of_cons in Hp as [-> | Hp]; [lia |]).
    apply elem_of_nil in Hp. contradiction. }
  unfold plot_wire_planes_body.
  repeat wp_step; auto;
    try match goal with
        | H : chmap_mask ?c tpc = Raise _ |- _ =>
            exfalso; replace c with c_id in H by congruence;
            apply (chmap_mask_integers c_id tpc) in Hint as [m Hm];
            congruence
        | H : chmap_wires _ ?m = Raise _ |- _ =>
            exfalso; apply (chmap_wires_columns _ m) in Hall as [ws Hws];
            congruence
        | Hws : chmap_wires _ _ = Ok ?ws,
          Hd : dtable _ !! "channel_id" = Some ?d_id,
          H : frame_merge ?ws (metric_rows ?d_id _ _) = Raise _ |- _ =>
            exfalso; revert H; apply frame_merge_integers;
            [ exact (chmap_wires_integer_ids _ _ _ _ Hid Hint Hws)
            | apply metric_rows_integer_ids; exact (Hids _ Hd) ]
        | H : merged_col metric ?rows = Raise _ |- _ =>
            exfalso;
            apply (merged_col_metric metric rows) in Hmetric as [vs Hvs];
            congruence
        | H : dict_get plane_label _ = Raise _ |- _ =>
            exfalso; revert H; apply plane_label_planes;
            repeat (apply elem_of_cons in Hp as [-> | Hp]; [set_solver |]);
            apply elem_of_nil in Hp; contradiction
        end;
    try impossible_branch Hlib.
Qed.

Lemma plot_wire_planes_returns_wp data metric metric_label tpc w :
  (forall c, lib_raises c = None) ->
  wire_inputs_ok (dsets w data) metric tpc ->
  wire_tables_ok (dsets w data) ->
  wp (plot_wire_planes lib_raises data metric metric_label tpc) w
     (fun _ => True) (fun v _ => v = PyNone) (fun _ _ => False).
Proof.
  intros Hlib Hok Htab. unfold plot_wire_planes.
  repeat wp_step; auto; try impossible_branch Hlib.
  wp_loop (fun w' : world => dsets w' = dsets w).
  - intros p w1 Hp Hw1. apply plot_wire_planes_body_returns; assumption.
  - reflexivity.
  - intros ? w1 _. repeat wp_step; auto; try impossible_branch Hlib.
    exfalso.
    destruct Hok as (_ & _ & _ & _ & Htpc).
    apply tpc_name_range in Htpc as [name Hname].
    match goal with
    | H : dict_get tpc_name tpc = Raise _ |- _ =>
        unfold dict_get in H; rewrite Hname in H; discriminate H
    end.
Qed.

Lemma plot_wire_planes_body_needs fig data metric tpc p w :
  reaches (plot_wire_planes_body lib_raises (axs_of fig) data metric tpc p) w
          (fun _ =>
             (exists c_id, chmap (dsets w data) !! "channel_id" = Some c_id /\
                           Forall int_cell c_id) /\
             Forall (fun name => is_Some (chmap (dsets w data) !! name))
                    ["z0"; "y0"; "z1"; "y1"] /\
             Forall (fun name => is_Some (dtable (dsets w data) !! name))
                    ["channel_id"; metric; "plane"] /\
             metric ∉ ["z0"; "y0"; "z1"; "y1"]).
Proof.
  unfold plot_wire_planes_body. do 9 reach_later. reach_here.
  split; [| split; [| split]].
  - eexists. split; [eassumption |].
    eapply chmap_mask_integers. eauto.
  - match goal with
    | H : chmap_wires _ ?m = Ok _ |- _ =>
        assert (Hall := proj2 (chmap_wires_columns _ m) (ex_intro _ _ H))
    end.
    apply Forall_cons in Hall as [_ Hall]. exact Hall.
  - repeat (apply Forall_cons; split; [eauto |]). apply Forall_nil. exact I.
  - eapply merged_col_metric. eauto.
Qed.

Lemma plot_wire_planes_needs data metric metric_label tpc w :
  reaches (plot_wire_planes lib_raises data metric metric_label tpc) w
          (fun _ =>
             (exists c_id, chmap (dsets w data) !! "channel_id" = Some c_id /\
                           Forall int_cell c_id) /\
             Forall (fun name => is_Some (chmap (dsets w data) !! name))
                    ["z0"; "y0"; "z1"; "y1"] /\
             Forall (fun name => is_Some (dtable (dsets w data) !! name))
                    ["channel_id"; metric; "plane"] /\
             metric ∉ ["z0"; "y0"; "z1"; "y1"]).
Proof.
  unfold plot_wire_planes. do 6 reach_later.
  apply reaches_bind_here. unfold for_each.
  apply (reaches_for_fold _ _ _ (fun _ w' => dsets w' = dsets w) 0%nat 0%nat);
    [reflexivity | | | assumption].
  - intros p' [] w' _ Hw'. apply plot_wire_planes_body_keeps_store. exact Hw'.
  - intros _ wa Hwa. rewrite <- Hwa. apply plot_wire_planes_body_needs.
Qed.

End WireReturns.

(** When [plot_wire_planes] returns.  A call that returns had a channel map
    with an integer [channel_id] column and the columns [z0], [y0], [z1],
    [y1], found the columns [channel_id], [plane] and the metric in the
    dataset, was given a metric that is not named as one of the coordinate
    columns (the merge would rename it) and a [tpc] among 0, 1, 2, 3.  When
    moreover no library call raises, the dataset and its channel map are
    tables (one cell per row in every column) and the [channel_id] column of
    the dataset holds integers too (the table library refuses to join
    integer keys with string keys), this is all it takes for the call to
    return [None]. *)
Theorem plot_wire_planes_returns_iff_inputs_ok
    (lib_raises : libcall -> option exn)
    (data : loc) (metric metric_label : string) (tpc : Z) (w : world) :
  (forall v,
     res (plot_wire_planes lib_raises data metric metric_label tpc w) = Ok v ->
     wire_inputs_ok (dsets w data) metric tpc) /\
  ((forall c, lib_raises c = None) ->
   wire_inputs_ok (dsets w data) metric tpc ->
   wire_tables_ok (dsets w data) ->
   res (plot_wire_planes lib_raises data metric metric_label tpc w)
     = Ok PyNone).
Proof.
  split.
  - intros v Hv.
    destruct (plot_wire_planes_needs lib_raises data metric metric_label tpc w)
      as (k & c & _ & Hid & Hcm & Hcols & Hmetric); [eauto |].
    destruct (plot_wire_planes_titles lib_raises data metric metric_label
                tpc w) as (k' & c' & _ & name & Hname & _); [eauto |].
    repeat split; try assumption; apply tpc_name_range; eauto.
  - intros Hlib Hok Htab.
    pose proof (plot_wire_planes_returns_wp lib_raises data metric
                  metric_label tpc w Hlib Hok Htab) as [_ H].
    destruct (res (plot_wire_planes lib_raises data metric metric_label tpc w))
      as [v | e]; [rewrite H; reflexivity | contradiction].
Qed.

Lemma plot_wire_planes_returns_iff_inputs_ok_witness :
  wire_inputs_ok (dsets sample_world 0%nat) "rawrms" 3 /\
  res (plot_wire_planes quiet 0%nat "rawrms" "RMS [ADC]" 3 sample_world)
    = Ok PyNone.
Proof.
  destruct (plot_wire_planes_returns_iff_inputs_ok quiet 0%nat "rawrms"
              "RMS [ADC]" 3 sample_world) as [Hneeds Hreturns].
  assert (Hrun : res (plot_wire_planes quiet 0%nat "rawrms" "RMS [ADC]" 3
                        sample_world) = Ok PyNone)
    by (vm_compute; reflexivity).
  split; [exact (Hneeds PyNone Hrun) |].
  apply Hreturns; [intros c; reflexivity | exact (Hneeds PyNone Hrun) |].
  split; [apply sample_table_wf | split; [apply sample_chmap_wf |]].
  intros d_id Hd. vm_compute in Hd. injection Hd as <-. repeat constructor.
Defined.

(** Integer keys do not join with string keys: the join of a wire with rows
    whose channel ids are strings raises [ValueError]. *)
Example frame_merge_refuses_string_keys :
  frame_merge [mkWire (Int 5) (Int 0) (Int 0) (Int 0) (Int 0)]
              [(Str "a", Int 3); (Str "b", Int 4)] = Raise ValueError /\
  frame_merge [mkWire (Int 5) (Int 0) (Int 0) (Int 0) (Int 0)]
              [(Int 5, Int 3); (Int 6, Int 4)]
    = Ok [(mkWire (Int 5) (Int 0) (Int 0) (Int 0) (Int 0), Int 3)] /\
  frame_merge [mkWire (Int 5) (Int 0) (Int 0) (Int 0) (Int 0)] [] = Ok [].
Proof. repeat split. Qed.

(* ===================================================================== *)
(** ** Further properties: the figure a procedure draws on *)
(* ===================================================================== *)

(** The axes taken from the lists of a procedure are axes of its figure. *)
Ltac own_axes :=
  lazymatch goal with
  | |- on_figure _ _ =>
      repeat match goal with
             | H : list_index (saxs_of _) _ = Ok _ |- _ =>
                 apply saxs_of_index in H as [? ->]
             | H : list_index (haxs_of _) _ = Ok _ |- _ =>
                 apply haxs_of_index in H as [? ->]
             | H : list_index (axs_of _) _ = Ok _ |- _ =>
                 apply axs_of_index in H as [? ->]
             end;
      unfold on_figure; simpl; repeat constructor
  end.

Section OwnFigure.

Variable lib_raises : libcall -> option exn.

Lemma plot_tpc_body_on_figure fig labels metric tpc pi p di d w :
  wp (plot_tpc_body lib_raises (saxs_of fig) (haxs_of fig) labels metric tpc
        pi p di d) w
     (on_figure fig) (fun _ _ => True) (fun _ _ => True).
Proof. unfold plot_tpc_body. repeat wp_step; auto; own_axes. Qed.

Lemma plot_tpc_on_figure datasets labels metric tpc w :
  wp (plot_tpc lib_raises datasets labels metric tpc) w
     (on_figure (nfigs w)) (fun _ _ => True) (fun _ _ => True).
Proof.
  unfold plot_tpc. repeat wp_step; auto; try own_axes.
  wp_loop (fun _ : world => True).
  - intros [pi p] w1 _ _.
    wp_loop (fun _ : world => True); [| exact I | auto].
    intros [di d] w2 _ _. apply plot_tpc_body_on_figure.
  - exact I.
  - intros ? w1 _. repeat wp_step; auto.
Qed.

Lemma plot_crate_on_figure datasets labels metric component w :
  wp (plot_crate lib_raises datasets labels metric component) w
     (on_figure (nfigs w)) (fun _ _ => True) (fun _ _ => True).
Proof.
  unfold plot_crate. repeat wp_step; auto; try own_axes.
  wp_loop (fun (_ : option pyval) (_ : world) => True).
  - intros [di d] s w1 _ _. unfold plot_crate_body.
    repeat wp_step; auto; own_axes.
  - exact I.
  - intros title w1 _. repeat wp_step; auto; try own_axes.
    destruct title; repeat wp_step; auto; own_axes.
Qed.

Lemma plot_wire_planes_on_figure data metric metric_label tpc w :
  wp (plot_wire_planes lib_raises data metric metric_label tpc) w
     (on_figure (nfigs w)) (fun _ _ => True) (fun _ _ => True).
Proof.
  unfold plot_wire_planes. repeat wp_step; auto; try own_axes.
  wp_loop (fun _ : world => True).
  - intros p w1 _ _.
    change (wp (plot_wire_planes_body lib_raises (axs_of (nfigs w)) data
                  metric tpc p) w1 (on_figure (nfigs w))
               (fun _ _ => True) (fun _ _ => True)).
    unfold plot_wire_planes_body. repeat wp_step; auto; own_axes.
  - exact I.
  - intros ? w1 _. repeat wp_step; auto; own_axes.
Qed.

Lemma plot_waveform_on_figure waveform title w :
  wp (plot_waveform lib_raises waveform title) w
     (on_figure (nfigs w)) (fun _ _ => True) (fun _ _ => True).
Proof. unfold plot_waveform. repeat wp_step; auto; own_axes. Qed.

End OwnFigure.

(** Each procedure draws on its own figure only: every figure and every axes
    it passes to the library belongs to the figure it has created with
    [plt.figure]; no figure that was registered before the call is drawn
    on, titled or given axes. *)
Theorem procedures_draw_on_their_own_figure
    (lib_raises : libcall -> option exn) (w : world) :
  (forall datasets labels metric tpc,
     Forall (on_figure (nfigs w))
            (log (plot_tpc lib_raises datasets labels metric tpc w))) /\
  (forall datasets labels metric component,
     Forall (on_figure (nfigs w))
            (log (plot_crate lib_raises datasets labels metric component w))) /\
  (forall data metric metric_label tpc,
     Forall (on_figure (nfigs w))
            (log (plot_wire_planes lib_raises data metric metric_label tpc
                    w))) /\
  (forall waveform title,
     Forall (on_figure (nfigs w))
            (log (plot_waveform lib_raises waveform title w))).
Proof.
  split; [| split; [| split]]; intros.
  - apply (plot_tpc_on_figure lib_raises datasets labels metric tpc w).
  - apply (plot_crate_on_figure lib_raises datasets labels metric component w).
  - apply (plot_wire_planes_on_figure lib_raises data metric metric_label
             tpc w).
  - apply (plot_waveform_on_figure lib_raises waveform title w).
Qed.

(* ===================================================================== *)
(** ** Further properties: the panels of [plot_tpc] *)
(* ===================================================================== *)

(** The three panels of [plot_tpc] share no row: a row selected by the mask
    of one plane is selected by the mask of no other plane.  Together they
    hold exactly the rows of the TPC whose [plane] is the integer 0, 1 or 2;
    a row of the TPC with any other [plane] is in no panel. *)
Theorem tpc_panels_partition_the_rows (c_tpc c_plane : list cell) (tpc : Z)
    (i : nat) :
  (forall pi pj,
     i ∈ true_rows (tpc_mask c_tpc c_plane tpc pi) ->
     i ∈ true_rows (tpc_mask c_tpc c_plane tpc pj) -> pi = pj) /\
  ((exists pi, planes !! pi <> None /\
               i ∈ true_rows (tpc_mask c_tpc c_plane tpc pi)) <->
   c_tpc !! i = Some (Int tpc) /\
   exists z, c_plane !! i = Some (Int z) /\ 0 <= z <= 2).
Proof.
  split.
  - intros pi pj Hi Hj.
    apply true_rows_tpc_mask in Hi as [_ Hi].
    apply true_rows_tpc_mask in Hj as [_ Hj].
    rewrite Hi in Hj. injection Hj as Hj. lia.
  - split.
    + intros (pi & Hpi & Hi). apply true_rows_tpc_mask in Hi as [Ht Hp].
      split; [exact Ht |]. exists (Z.of_nat pi). split; [exact Hp |].
      destruct pi as [| [| [| pi]]]; simpl in Hpi; (lia || contradiction).
    + intros (Ht & z & Hp & Hz). exists (Z.to_nat z). split.
      * assert (z = 0 \/ z = 1 \/ z = 2) as [-> | [-> | ->]] by lia;
          discriminate.
      * apply true_rows_tpc_mask. split; [exact Ht |].
        rewrite Z2Nat.id by lia. exact Hp.
Qed.

(** The [KeyError] of a channel map that lacks coordinate columns names the
    missing columns. *)
Example chmap_wires_missing_columns :
  chmap_wires (delete "z0" sample_chmap) [true; false; false; false]
    = Raise (KeyError (Str "['z0'] not in index")) /\
  chmap_wires (delete "y1" (delete "z0" sample_chmap)) []
    = Raise (KeyError (Str "['z0', 'y1'] not in index")).
Proof. split; vm_compute; reflexivity. Qed.
